(** * RunAnywhere demo screen: the audio container codec and the capture session

    A shallow embedding of the audio code of the demo screen
    (src/unnamed/part_001):

    - [createWavFile]       (lines 64-151): base64 float32 PCM to a WAV file;
    - [handleStartRecording] (lines 438-528) and the ['data'] listener;
    - [createSTTWavHeader]  (lines 531-560): the 44 byte header of a recording;
    - [handleStopRecording] (lines 562-669): chunks to WAV to transcription.

    Numbers that the code uses as integers are [Z]; a byte is a [Z] in
    [0, 256); typed arrays and array buffers are lists of bytes; a binary
    string (the result of [atob], the argument of [btoa]) is a [string],
    whose characters are exactly the code units 0..255.  A float32 sample is
    a [spec_float], the IEEE 754 datum of the Floats specification of the
    Standard Library. *)

From Stdlib Require Import ZArith QArith Lia Bool Ascii String.
From Stdlib Require Import Floats.SpecFloat.
From stdpp Require Import base list strings pretty.

Local Open Scope Z_scope.

(** ** Completions: a value, or an exception with its message *)

Inductive completion (A : Type) : Type :=
| Ret (a : A)
| Throw (message : string).
Arguments Ret {A} a.
Arguments Throw {A} message.

Definition cbind {A B} (c : completion A) (k : A -> completion B) : completion B :=
  match c with
  | Ret a => k a
  | Throw m => Throw m
  end.

#[global] Instance completion_ret : MRet completion := fun A a => Ret a.
#[global] Instance completion_bind : MBind completion := fun A B k c => cbind c k.

(** ** Sample converter (createWavFile, lines 80-84) *)

(** binary32: 24 bits of precision, exponent of the infinities 128;
    binary64 (the JavaScript Number): 53 and 1024. *)
Definition valid_binary32 (x : spec_float) : bool := valid_binary 24 128 x.
Definition mul64 : spec_float -> spec_float -> spec_float := SFmul 53 1024.

Definition f_one : spec_float := S754_finite false 8388608 (-23).
Definition f_minus_one : spec_float := S754_finite true 8388608 (-23).
Definition f_zero : spec_float := S754_zero false.
(** The literals [0x8000] and [0x7fff]. *)
Definition f_0x8000 : spec_float := S754_finite false 32768 0.
Definition f_0x7fff : spec_float := S754_finite false 32767 0.

(** [Math.min] and [Math.max]: NaN if an argument is NaN, and -0 is below
    +0. *)
Definition Math_min (a b : spec_float) : spec_float :=
  match SFcompare a b with
  | None => S754_nan
  | Some Lt => a
  | Some Gt => b
  | Some Eq =>
      match a, b with
      | S754_zero sa, S754_zero sb => S754_zero (sa || sb)
      | _, _ => a
      end
  end.

Definition Math_max (a b : spec_float) : spec_float :=
  match SFcompare a b with
  | None => S754_nan
  | Some Lt => b
  | Some Gt => a
  | Some Eq =>
      match a, b with
      | S754_zero sa, S754_zero sb => S754_zero (sa && sb)
      | _, _ => a
      end
  end.

(** [Math.max(-1, Math.min(1, x))] *)
Definition clamp (x : spec_float) : spec_float :=
  Math_max f_minus_one (Math_min f_one x).

(** Wrap-around of an integer into the int16 range. *)
Definition wrap_int16 (z : Z) : Z := (z + 32768) mod 65536 - 32768.

(** The store into an [Int16Array] element (ToInt16): NaN, the infinities
    and the zeros give 0; a finite number is truncated toward zero and
    reduced modulo 2^16 into [-32768, 32767]. *)
Definition ToInt16 (x : spec_float) : Z :=
  match x with
  | S754_finite s m e => wrap_int16 (cond_Zopp s (Z.shiftl (Zpos m) e))
  | _ => 0
  end.

(** [const sample = Math.max(-1, Math.min(1, floatView[i]));
     int16Samples[i] = sample < 0 ? sample * 0x8000 : sample * 0x7fff;]

    The element read from the [Float32Array] is a binary32 datum widened to
    a Number; widening keeps sign, mantissa and exponent, so the same
    [spec_float] stands for the widened value. *)
Definition floatToInt16 (x : spec_float) : Z :=
  let sample := clamp x in
  ToInt16 (if SFltb sample f_zero then mul64 sample f_0x8000
           else mul64 sample f_0x7fff).




(** [s] is a number of the interval [-1.0, 1.0]. *)
Definition in_unit (x : spec_float) : bool :=
  SFleb f_minus_one x && SFleb x f_one.


(** Position of a finite datum with respect to magnitude one. *)
Definition cmp_unit (m : positive) (e : Z) : comparison :=
  match e ?= -23 with
  | Lt => Lt
  | Gt => Gt
  | Eq => (m ?= 8388608)%positive
  end.

(** ** Bytes, binary strings and typed arrays *)

(** [s.charCodeAt(i)] of a binary string and [String.fromCharCode(b)] of a
    [Uint8Array] element. *)
Definition charCode (c : ascii) : Z := Z.of_nat (nat_of_ascii c).
Definition fromCharCode (b : Z) : ascii := ascii_of_nat (Z.to_nat b).

(** [bytes[i] = binaryString.charCodeAt(i)] for every [i] (lines 70-73), and
    [Uint8Array.from(s, c => c.charCodeAt(0))] (line 587). *)
Definition bytes_of_binary_string (s : string) : list Z :=
  map charCode (list_ascii_of_string s).

(** The elements of a [Float32Array] over a buffer: groups of four bytes,
    least significant first. *)
Fixpoint words32_le (bs : list Z) : list Z :=
  match bs with
  | b0 :: b1 :: b2 :: b3 :: rest =>
      (b0 + 256 * b1 + 65536 * b2 + 16777216 * b3) :: words32_le rest
  | _ => []
  end.

(** The binary32 datum of a 32 bit pattern: sign (bit 31), biased exponent
    (bits 30-23), fraction (bits 22-0). *)
Definition b32_of_bits (w : Z) : spec_float :=
  let sign := Z.testbit w 31 in
  let expo := Z.land (Z.shiftr w 23) 255 in
  let frac := Z.land w 8388607 in
  if expo =? 0 then
    if frac =? 0 then S754_zero sign
    else S754_finite sign (Z.to_pos frac) (-149)
  else if expo =? 255 then
    if frac =? 0 then S754_infinity sign else S754_nan
  else S754_finite sign (Z.to_pos (frac + 8388608)) (expo - 150).

(** [new Float32Array(bytes.buffer)]: a RangeError unless the byte length
    is a multiple of 4. *)
Definition Float32Array_of_buffer (bytes : list Z) : completion (list spec_float) :=
  if (length bytes mod 4 =? 0)%nat
  then Ret (map b32_of_bits (words32_le bytes))
  else Throw "byte length of Float32Array should be a multiple of 4".

(** The two bytes of an [Int16Array] element as a [Uint8Array] over the
    same buffer sees them (two's complement, least significant first). *)
Definition int16_bytes_le (v : Z) : list Z := [v mod 256; (v / 256) mod 256].

(** [new Uint8Array(int16Samples.buffer)] *)
Definition Uint8Array_of_int16 (samples : list Z) : list Z :=
  concat (map int16_bytes_le samples).

(** [DataView] stores; every multi-byte store of the code passes
    [littleEndian = true].  A store outside the buffer is a RangeError. *)
Definition out_of_bounds : string := "Offset is outside the bounds of the DataView".

Definition ToUint8 (v : Z) : Z := v mod 256.
Definition ToUint16 (v : Z) : Z := v mod 65536.
Definition ToUint32 (v : Z) : Z := v mod 4294967296.

Definition setUint8 (view : list Z) (byteOffset : nat) (value : Z) : completion (list Z) :=
  if (byteOffset + 1 <=? length view)%nat
  then Ret (<[byteOffset := ToUint8 value]> view)
  else Throw out_of_bounds.

Definition setUint16 (view : list Z) (byteOffset : nat) (value : Z) : completion (list Z) :=
  let v := ToUint16 value in
  if (byteOffset + 2 <=? length view)%nat
  then Ret (<[(byteOffset + 1)%nat := v / 256]>
            (<[byteOffset := v mod 256]> view))
  else Throw out_of_bounds.

Definition setUint32 (view : list Z) (byteOffset : nat) (value : Z) : completion (list Z) :=
  let v := ToUint32 value in
  if (byteOffset + 4 <=? length view)%nat
  then Ret (<[(byteOffset + 3)%nat := v / 16777216]>
            (<[(byteOffset + 2)%nat := (v / 65536) mod 256]>
             (<[(byteOffset + 1)%nat := (v / 256) mod 256]>
              (<[byteOffset := v mod 256]> view))))
  else Throw out_of_bounds.

(** [target.set(source, offset)] on typed arrays: a RangeError when the
    source does not fit. *)
Definition typed_set (target source : list Z) (offset : nat) : completion (list Z) :=
  if (offset + length source <=? length target)%nat
  then Ret (take offset target ++ source ++ drop (offset + length source) target)
  else Throw "offset is out of bounds".

(** [view.subarray(i, j)] *)
Definition subarray (view : list Z) (i j : nat) : list Z :=
  take (j - i) (drop i view).

(** Lines 130-137 and 609-616: the binary string of a byte array, built
    chunk by chunk:
    [for (let i = 0; i < bytes.length; i += chunkSize) {
       const chunk = bytes.subarray(i, Math.min(i + chunkSize, bytes.length));
       for (let j = 0; j < chunk.length; j++) s += String.fromCharCode(chunk[j]);
     }]
    The outer loop runs for [i = k * chunkSize], [k] below the number of
    chunks. *)
Definition chunkSize : nat := Z.to_nat 8192.

Definition string_of_chunk (chunk : list Z) : string :=
  string_of_list_ascii (map fromCharCode chunk).

Definition chunk_count (len size : nat) : nat := ((len + size - 1) / size)%nat.

Definition binary_string_by_chunks (size : nat) (bytes : list Z) : string :=
  foldl (fun acc k =>
           let i := (k * size)%nat in
           acc +:+ string_of_chunk (subarray bytes i (Nat.min (i + size) (length bytes))))
        EmptyString (seq 0 (chunk_count (length bytes) size)).

(** Reading back, used to state what the encoders produce: a little-endian
    uint32 at an offset of a byte array, and a byte array as little-endian
    int16 values. *)
Definition read_u32_le (bytes : list Z) (off : nat) : option Z :=
  match drop off bytes with
  | b0 :: b1 :: b2 :: b3 :: _ => Some (b0 + 256 * b1 + 65536 * b2 + 16777216 * b3)
  | _ => None
  end.

Fixpoint int16s_of_bytes_le (bs : list Z) : list Z :=
  match bs with
  | lo :: hi :: rest => wrap_int16 (lo + 256 * hi) :: int16s_of_bytes_le rest
  | _ => []
  end.

Definition is_int16 (v : Z) : Prop := -32768 <= v <= 32767.

(** ** The WAV encoder of createWavFile (lines 86-127) *)

(** From [int16Samples] and [audioSampleRate] to [wavBytes]: the buffer of
    [44 + wavDataSize] zero bytes, the header stores through [wavView], and
    the copy loop [wavBytes[44 + i] = int16Bytes[i]] through [wavBytes];
    both views share [wavBuffer], threaded here as one list. *)
Fixpoint copy_audio_data (wavBytes : list Z) (i : nat) (int16Bytes : list Z) : list Z :=
  match int16Bytes with
  | [] => wavBytes
  | b :: rest => copy_audio_data (<[(44 + i)%nat := b]> wavBytes) (S i) rest
  end.

Definition encodeWav (int16Samples : list Z) (audioSampleRate : Z) : completion (list Z) :=
  let wavDataSize := (length int16Samples * 2)%nat in
  let wavBuffer := replicate (44 + wavDataSize) 0 in
  (* RIFF header *)
  v ← setUint8 wavBuffer 0 0x52;
  v ← setUint8 v 1 0x49;
  v ← setUint8 v 2 0x46;
  v ← setUint8 v 3 0x46;
  v ← setUint32 v 4 (36 + Z.of_nat wavDataSize);
  v ← setUint8 v 8 0x57;
  v ← setUint8 v 9 0x41;
  v ← setUint8 v 10 0x56;
  v ← setUint8 v 11 0x45;
  (* fmt chunk *)
  v ← setUint8 v 12 0x66;
  v ← setUint8 v 13 0x6d;
  v ← setUint8 v 14 0x74;
  v ← setUint8 v 15 0x20;
  v ← setUint32 v 16 16;
  v ← setUint16 v 20 1;
  v ← setUint16 v 22 1;
  v ← setUint32 v 24 audioSampleRate;
  v ← setUint32 v 28 (audioSampleRate * 2);
  v ← setUint16 v 32 2;
  v ← setUint16 v 34 16;
  (* data chunk *)
  v ← setUint8 v 36 0x64;
  v ← setUint8 v 37 0x61;
  v ← setUint8 v 38 0x74;
  v ← setUint8 v 39 0x61;
  v ← setUint32 v 40 (Z.of_nat wavDataSize);
  (* copy audio data *)
  Ret (copy_audio_data v 0 (Uint8Array_of_int16 int16Samples)).

(** ** createSTTWavHeader (lines 531-560) *)

Definition createSTTWavHeader (dataLength : Z) : completion (list Z) :=
  let buffer := replicate 44 0 in
  let sampleRate := 16000 in
  let numChannels := 1 in
  let bitsPerSample := 16 in
  let byteRate := sampleRate * numChannels * (bitsPerSample / 8) in
  let blockAlign := numChannels * (bitsPerSample / 8) in
  (* RIFF header *)
  v ← setUint8 buffer 0 0x52;
  v ← setUint8 v 1 0x49;
  v ← setUint8 v 2 0x46;
  v ← setUint8 v 3 0x46;
  v ← setUint32 v 4 (36 + dataLength);
  v ← setUint8 v 8 0x57;
  v ← setUint8 v 9 0x41;
  v ← setUint8 v 10 0x56;
  v ← setUint8 v 11 0x45;
  (* fmt chunk *)
  v ← setUint8 v 12 0x66;
  v ← setUint8 v 13 0x6d;
  v ← setUint8 v 14 0x74;
  v ← setUint8 v 15 0x20;
  v ← setUint32 v 16 16;
  v ← setUint16 v 20 1;
  v ← setUint16 v 22 numChannels;
  v ← setUint32 v 24 sampleRate;
  v ← setUint32 v 28 byteRate;
  v ← setUint16 v 32 blockAlign;
  v ← setUint16 v 34 bitsPerSample;
  (* data chunk *)
  v ← setUint8 v 36 0x64;
  v ← setUint8 v 37 0x61;
  v ← setUint8 v 38 0x74;
  v ← setUint8 v 39 0x61;
  v ← setUint32 v 40 dataLength;
  Ret v.

(** ** Platform services and the state of the screen *)

(** An [Audio.Recording] of expo-av, as far as the screen uses it. *)
Record Recording := {
  stopAndUnloadAsync : completion unit;
  getURI : option string
}.

(** The result of [RunAnywhere.transcribeFile]. *)
Record transcription := { text : string }.

Inductive transcript_value :=
| TranscriptText (s : string)
| TranscriptObject (r : transcription).

(** [expo-file-system/legacy] *)
Record FileSystemModule := {
  cacheDirectory : option string;
  writeAsStringAsync : string -> string -> completion unit
}.

(** What the handlers read from outside the component: the platform, the
    modules that were loaded at start-up ([None]/[false]: [null]), and the
    outcome of each external call. *)
Record Env := {
  Platform_OS : string;
  LiveAudioStream : bool;
  audioModulesAvailable : bool;
  FileSystem : option FileSystemModule;
  atob : string -> completion string;
  btoa : string -> string;
  Date_now : Z;
  LiveAudioStream_init : completion unit;
  LiveAudioStream_start : completion unit;
  LiveAudioStream_stop : completion unit;
  requestPermissionsAsync : completion string;
  setAudioModeAsync : completion unit;
  Recording_createAsync : completion Recording;
  transcribeFile : string -> completion transcription
}.

(** Calls to the outside, in the order they are made. *)
Inductive effect :=
| Alert_alert (title message : string)
| Stream_init
| Stream_on_data
| Stream_start
| Stream_stop
| Fs_write (path content : string)
| Recording_stopAndUnload
| Sdk_transcribeFile (path : string).

(** The component state the recording handlers use ([useState] and [useRef]
    cells), and the calls made so far. *)
Record World := {
  isRecording : bool;
  isLoading : bool;
  error : option string;
  transcript : transcript_value;
  audioChunksRef : list string;
  recordingRef : option Recording;
  effects : list effect
}.

Definition initial_world : World :=
  {| isRecording := false; isLoading := false; error := None;
     transcript := TranscriptText EmptyString; audioChunksRef := [];
     recordingRef := None; effects := [] |}.

(** A computation over the world that returns or throws. *)
Definition io (A : Type) : Type := World -> completion A * World.

#[global] Instance io_ret : MRet io := fun A a w => (Ret a, w).
#[global] Instance io_bind : MBind io := fun A B k m w =>
  match m w with
  | (Ret a, w') => k a w'
  | (Throw e, w') => (Throw e, w')
  end.

Definition lift {A} (c : completion A) : io A := fun w => (c, w).
Definition update (f : World -> World) : io unit := fun w => (Ret tt, f w).
Definition read {A} (f : World -> A) : io A := fun w => (Ret (f w), w).

(** [try { body } catch (e) { handler(e.message) }] *)
Definition try_catch {A} (body : io A) (handler : string -> io A) : io A :=
  fun w =>
    match body w with
    | (Ret a, w') => (Ret a, w')
    | (Throw e, w') => handler e w'
    end.

(** [try { body } finally { cleanup }], for a cleanup that does not throw. *)
Definition try_finally {A} (body : io A) (cleanup : World -> World) : io A :=
  fun w => let '(r, w') := body w in (r, cleanup w').

Definition setIsRecording (b : bool) : io unit :=
  update (fun w => {| isRecording := b; isLoading := isLoading w; error := error w;
                      transcript := transcript w; audioChunksRef := audioChunksRef w;
                      recordingRef := recordingRef w; effects := effects w |}).

Definition with_isLoading (b : bool) (w : World) : World :=
  {| isRecording := isRecording w; isLoading := b; error := error w;
     transcript := transcript w; audioChunksRef := audioChunksRef w;
     recordingRef := recordingRef w; effects := effects w |}.

Definition setIsLoading (b : bool) : io unit := update (with_isLoading b).

Definition setError (e : option string) : io unit :=
  update (fun w => {| isRecording := isRecording w; isLoading := isLoading w; error := e;
                      transcript := transcript w; audioChunksRef := audioChunksRef w;
                      recordingRef := recordingRef w; effects := effects w |}).

Definition setTranscript (t : transcript_value) : io unit :=
  update (fun w => {| isRecording := isRecording w; isLoading := isLoading w; error := error w;
                      transcript := t; audioChunksRef := audioChunksRef w;
                      recordingRef := recordingRef w; effects := effects w |}).

Definition with_audioChunks (cs : list string) (w : World) : World :=
  {| isRecording := isRecording w; isLoading := isLoading w; error := error w;
     transcript := transcript w; audioChunksRef := cs;
     recordingRef := recordingRef w; effects := effects w |}.

Definition setRecordingRef (r : option Recording) : io unit :=
  update (fun w => {| isRecording := isRecording w; isLoading := isLoading w; error := error w;
                      transcript := transcript w; audioChunksRef := audioChunksRef w;
                      recordingRef := r; effects := effects w |}).

Definition add_effect (e : effect) (w : World) : World :=
  {| isRecording := isRecording w; isLoading := isLoading w; error := error w;
     transcript := transcript w; audioChunksRef := audioChunksRef w;
     recordingRef := recordingRef w; effects := effects w ++ [e] |}.

Definition log (e : effect) : io unit := update (add_effect e).

(** An external call: made, then it returns or throws. *)
Definition call {A} (e : effect) (outcome : completion A) : io A :=
  log e;; lift outcome.

(** The calls a run added to the log. *)
Definition new_effects (before after : World) : list effect :=
  drop (length (effects before)) (effects after).

(** [`${x}`] and [x || ''] of a value that is a string or [null]. *)
Definition template (x : option string) : string :=
  match x with Some s => s | None => "null" end.
Definition or_empty (x : option string) : string :=
  match x with Some s => s | None => EmptyString end.

(** [s.startsWith('file://') ? s.substring(7) : s] *)
Definition strip_file_scheme (s : string) : string :=
  if String.prefix "file://" s
  then String.substring 7 (String.length s - 7) s
  else s.

(** ** createWavFile (lines 64-151) *)

Definition createWavFile (env : Env) (audioBase64 : string) (audioSampleRate : Z)
  : io (option string) :=
  match FileSystem env with
  | None => mret None
  | Some fs =>
      try_catch
        (binaryString ← lift (atob env audioBase64);
         let bytes := bytes_of_binary_string binaryString in
         floatView ← lift (Float32Array_of_buffer bytes);
         let int16Samples := map floatToInt16 floatView in
         wavBytes ← lift (encodeWav int16Samples audioSampleRate);
         let wavBase64 := btoa env (binary_string_by_chunks chunkSize wavBytes) in
         let filePath :=
           template (cacheDirectory fs) +:+ "tts_" +:+ pretty (Date_now env) +:+ ".wav" in
         call (Fs_write filePath wavBase64) (writeAsStringAsync fs filePath wavBase64);;
         mret (Some filePath))
        (fun _ => mret None)
  end.

(** ** handleStartRecording (lines 438-528) and the data listener *)

Definition rebuild_android : string :=
  "Audio recording requires react-native-live-audio-stream.

Run: eas build --platform android --profile development".
Definition rebuild_ios : string :=
  "Audio recording requires expo-av.

Run: eas build --platform ios --profile development".

Definition is_android (env : Env) : bool := String.eqb (Platform_OS env) "android".

Definition handleStartRecording (env : Env) : io unit :=
  if is_android env then
    (* Android: LiveAudioStream for raw PCM *)
    if negb (LiveAudioStream env) then
      log (Alert_alert "Rebuild Required" rebuild_android)
    else
      try_catch
        (call Stream_init (LiveAudioStream_init env);;
         (* Reset chunks *)
         update (with_audioChunks []);;
         (* Listen for audio data *)
         log Stream_on_data;;
         (* Start recording *)
         call Stream_start (LiveAudioStream_start env);;
         setIsRecording true;;
         setTranscript (TranscriptText EmptyString);;
         setError None)
        (fun message => setError (Some ("Recording failed: " +:+ message)))
  else
    (* iOS: expo-av *)
    if negb (audioModulesAvailable env) then
      log (Alert_alert "Rebuild Required" rebuild_ios)
    else
      try_catch
        (status ← lift (requestPermissionsAsync env);
         if negb (String.eqb status "granted") then
           setError (Some "Microphone permission denied")
         else
           lift (setAudioModeAsync env);;
           recording ← lift (Recording_createAsync env);
           setRecordingRef (Some recording);;
           setIsRecording true;;
           setTranscript (TranscriptText EmptyString);;
           setError None)
        (fun message => setError (Some ("Recording failed: " +:+ message))).

(** The listener registered by [LiveAudioStream.on('data', ...)]:
    [audioChunksRef.current.push(data)]. *)
Definition onData (data : string) (w : World) : World :=
  with_audioChunks (audioChunksRef w ++ [data]) w.

(** ** handleStopRecording (lines 562-669) *)

(** Lines 582-597: decode every chunk, then lay the decoded chunks out one
    after the other in a fresh array of their total length. *)
Fixpoint decode_chunks (atob : string -> completion string) (chunks : list string)
  : completion (list (list Z)) :=
  match chunks with
  | [] => Ret []
  | chunk :: rest =>
      binary ← atob chunk;
      decodedChunks ← decode_chunks atob rest;
      Ret (bytes_of_binary_string binary :: decodedChunks)
  end.

Definition total_length (decodedChunks : list (list Z)) : nat :=
  foldl (fun totalLength decoded => (totalLength + length decoded)%nat) 0%nat decodedChunks.

Fixpoint set_chunks (pcmData : list Z) (offset : nat) (decodedChunks : list (list Z))
  : completion (list Z) :=
  match decodedChunks with
  | [] => Ret pcmData
  | chunk :: rest =>
      pcmData' ← typed_set pcmData chunk offset;
      set_chunks pcmData' (offset + length chunk) rest
  end.

Definition combine_chunks (atob : string -> completion string) (chunks : list string)
  : completion (list Z) :=
  decodedChunks ← decode_chunks atob chunks;
  let totalLength := total_length decodedChunks in
  set_chunks (replicate totalLength 0) 0 decodedChunks.

(** Lines 602-606: header and PCM data in one array. *)
Definition wav_of_pcm (pcmData : list Z) : completion (list Z) :=
  wavHeader ← createSTTWavHeader (Z.of_nat (length pcmData));
  let headerBytes := wavHeader in
  let wavData := replicate (length headerBytes + length pcmData) 0 in
  wavData ← typed_set wavData headerBytes 0;
  typed_set wavData pcmData (length headerBytes).

(** [!uri] for a string or [null]. *)
Definition falsy (x : option string) : bool :=
  match x with
  | None => true
  | Some s => String.eqb s EmptyString
  end.

Definition cannot_read_cacheDirectory : string :=
  "Cannot read property 'cacheDirectory' of null".

(** The Android branch (lines 571-631); [None] stands for the early
    [return]. *)
Definition stop_android (env : Env) : io (option string) :=
  call Stream_stop (LiveAudioStream_stop env);;
  chunks ← read audioChunksRef;
  if (length chunks =? 0)%nat then
    setError (Some "No audio recorded");;
    setIsLoading false;;
    mret None
  else
    pcmData ← lift (combine_chunks (atob env) chunks);
    wavData ← lift (wav_of_pcm pcmData);
    let wavBase64 := btoa env (binary_string_by_chunks chunkSize wavData) in
    let timestamp := Date_now env in
    let fileName := "stt_recording_" +:+ pretty timestamp +:+ ".wav" in
    fs ← lift (match FileSystem env with
               | Some fs => Ret fs
               | None => Throw cannot_read_cacheDirectory
               end);
    let cacheDir := or_empty (cacheDirectory fs) in
    let writeUri := cacheDir +:+ fileName in
    call (Fs_write writeUri wavBase64) (writeAsStringAsync fs writeUri wavBase64);;
    let audioUri := strip_file_scheme writeUri in
    update (with_audioChunks []);;
    mret (Some audioUri).

(** The other branch (lines 633-652): the expo-av recording. *)
Definition stop_recorder (env : Env) : io (option string) :=
  current ← read recordingRef;
  match current with
  | None =>
      setError (Some "No recording in progress");;
      setIsLoading false;;
      mret None
  | Some recording =>
      call Recording_stopAndUnload (stopAndUnloadAsync recording);;
      let uri := getURI recording in
      setRecordingRef None;;
      if falsy uri then
        setError (Some "No audio recorded");;
        setIsLoading false;;
        mret None
      else
        mret (Some (strip_file_scheme (or_empty uri)))
  end.

Definition handleStopRecording (env : Env) : io unit :=
  setIsLoading true;;
  setIsRecording false;;
  try_finally
    (try_catch
       (audioUri ← (if is_android env && LiveAudioStream env
                    then stop_android env else stop_recorder env);
        match audioUri with
        | None => mret tt
        | Some audioUri =>
            let cleanPath := strip_file_scheme audioUri in
            result ← call (Sdk_transcribeFile cleanPath) (transcribeFile env cleanPath);
            setTranscript (if String.eqb (text result) EmptyString
                           then TranscriptObject result
                           else TranscriptText (text result));;
            setError None
        end)
       (fun message => setError (Some ("Transcription failed: " +:+ message))))
    (with_isLoading false).

(** The microphone button (line 902):
    [onPress={isRecording ? handleStopRecording : handleStartRecording}]. *)
Definition micButton_onPress (env : Env) : io unit :=
  fun w => if isRecording w then handleStopRecording env w
           else handleStartRecording env w.

(** Delivery of a sequence of chunks to the listener, in order. *)
Definition deliver (chunks : list string) (w : World) : World :=
  foldl (fun w data => onData data w) w chunks.

(** ** The platform's [atob] and [btoa]

    The handlers take [atob] and [btoa] from the environment.  The standard
    functions (forgiving base64 decoding, base64 encoding) are given here to
    run the model on concrete chunks. *)

Definition sextet_of_char (c : ascii) : option Z :=
  let n := charCode c in
  if (65 <=? n) && (n <=? 90) then Some (n - 65)
  else if (97 <=? n) && (n <=? 122) then Some (n - 71)
  else if (48 <=? n) && (n <=? 57) then Some (n + 4)
  else if n =? 43 then Some 62
  else if n =? 47 then Some 63
  else None.

Definition char_of_sextet (n : Z) : ascii :=
  fromCharCode (if n <? 26 then n + 65
                else if n <? 52 then n + 71
                else if n <? 62 then n - 4
                else if n =? 62 then 43 else 47).

Definition is_ascii_whitespace (c : ascii) : bool :=
  let n := charCode c in
  (n =? 9) || (n =? 10) || (n =? 12) || (n =? 13) || (n =? 32).

Fixpoint sextets_of_chars (cs : list ascii) : option (list Z) :=
  match cs with
  | [] => Some []
  | c :: rest =>
      match sextet_of_char c, sextets_of_chars rest with
      | Some n, Some ns => Some (n :: ns)
      | _, _ => None
      end
  end.

Fixpoint bytes_of_sextets (ns : list Z) : list Z :=
  match ns with
  | a :: b :: c :: d :: rest =>
      (a * 4 + b / 16) :: ((b mod 16) * 16 + c / 4) :: ((c mod 4) * 64 + d)
      :: bytes_of_sextets rest
  | [a; b; c] => [a * 4 + b / 16; (b mod 16) * 16 + c / 4]
  | [a; b] => [a * 4 + b / 16]
  | _ => []
  end.

Definition equals_sign : ascii := fromCharCode 61.

(** Up to two trailing [=] are dropped when the length is a multiple of 4. *)
Definition strip_padding (cs : list ascii) : list ascii :=
  if (length cs mod 4 =? 0)%nat then
    match reverse cs with
    | p :: q :: rest =>
        if Ascii.eqb p equals_sign then
          if Ascii.eqb q equals_sign then reverse rest else reverse (q :: rest)
        else cs
    | _ => cs
    end
  else cs.

Definition atob_base64 (data : string) : completion string :=
  let cs := filter (fun c => is_ascii_whitespace c = false) (list_ascii_of_string data) in
  let cs := strip_padding cs in
  if (length cs mod 4 =? 1)%nat then Throw "The string to be decoded is not correctly encoded."
  else
    match sextets_of_chars cs with
    | Some ns => Ret (string_of_chunk (bytes_of_sextets ns))
    | None => Throw "The string to be decoded is not correctly encoded."
    end.

Fixpoint chars_of_bytes (bs : list Z) : list ascii :=
  match bs with
  | a :: b :: c :: rest =>
      char_of_sextet (a / 4) :: char_of_sextet ((a mod 4) * 16 + b / 16)
      :: char_of_sextet ((b mod 16) * 4 + c / 64) :: char_of_sextet (c mod 64)
      :: chars_of_bytes rest
  | [a; b] =>
      [char_of_sextet (a / 4); char_of_sextet ((a mod 4) * 16 + b / 16);
       char_of_sextet ((b mod 16) * 4); equals_sign]
  | [a] =>
      [char_of_sextet (a / 4); char_of_sextet ((a mod 4) * 16); equals_sign; equals_sign]
  | [] => []
  end.

Definition btoa_base64 (binary : string) : string :=
  string_of_list_ascii (chars_of_bytes (bytes_of_binary_string binary)).

(** ** Environments and worlds for the concrete runs *)

Definition cache_fs : FileSystemModule :=
  {| cacheDirectory := Some "file:///data/cache/";
     writeAsStringAsync := fun _ _ => Ret tt |}.

Definition idle_recording (uri : option string) : Recording :=
  {| stopAndUnloadAsync := Ret tt; getURI := uri |}.

Definition android_env : Env :=
  {| Platform_OS := "android"; LiveAudioStream := true; audioModulesAvailable := true;
     FileSystem := Some cache_fs; atob := atob_base64; btoa := btoa_base64;
     Date_now := 1700000000000;
     LiveAudioStream_init := Ret tt; LiveAudioStream_start := Ret tt;
     LiveAudioStream_stop := Ret tt;
     requestPermissionsAsync := Ret "granted"; setAudioModeAsync := Ret tt;
     Recording_createAsync := Ret (idle_recording None);
     transcribeFile := fun _ => Ret {| text := "hello" |} |}.

Definition ios_env : Env :=
  {| Platform_OS := "ios"; LiveAudioStream := false; audioModulesAvailable := true;
     FileSystem := Some cache_fs; atob := atob_base64; btoa := btoa_base64;
     Date_now := 1700000000000;
     LiveAudioStream_init := Ret tt; LiveAudioStream_start := Ret tt;
     LiveAudioStream_stop := Ret tt;
     requestPermissionsAsync := Ret "granted"; setAudioModeAsync := Ret tt;
     Recording_createAsync := Ret (idle_recording (Some "file:///var/rec.wav"));
     transcribeFile := fun _ => Ret {| text := "hello" |} |}.

(** A world in which a recording is running and [chunks] have arrived. *)
Definition recording_world (chunks : list string) : World :=
  {| isRecording := true; isLoading := false; error := None;
     transcript := TranscriptText EmptyString; audioChunksRef := chunks;
     recordingRef := None; effects := [] |}.

(** ** Byte layouts used in the statements *)

Definition u32_bytes_le (value : Z) : list Z :=
  let v := ToUint32 value in
  [v mod 256; (v / 256) mod 256; (v / 65536) mod 256; v / 16777216].

(** The 44 bytes [createSTTWavHeader] produces. *)
Definition stt_header (dataLength : Z) : list Z :=
  [82; 73; 70; 70] ++ u32_bytes_le (36 + dataLength)
  ++ [87; 65; 86; 69; 102; 109; 116; 32; 16; 0; 0; 0; 1; 0; 1; 0;
      128; 62; 0; 0; 0; 125; 0; 0; 2; 0; 16; 0; 100; 97; 116; 97]
  ++ u32_bytes_le dataLength.

(** The 44 bytes the header stores of [createWavFile] produce. *)
Definition tts_header (wavDataSize audioSampleRate : Z) : list Z :=
  [82; 73; 70; 70] ++ u32_bytes_le (36 + wavDataSize)
  ++ [87; 65; 86; 69; 102; 109; 116; 32; 16; 0; 0; 0; 1; 0; 1; 0]
  ++ u32_bytes_le audioSampleRate ++ u32_bytes_le (audioSampleRate * 2)
  ++ [2; 0; 16; 0; 100; 97; 116; 97] ++ u32_bytes_le wavDataSize.

(** The header stores of [encodeWav], on any buffer. *)
Definition tts_header_stores (buffer : list Z) (wavDataSize audioSampleRate : Z)
  : completion (list Z) :=
  v ← setUint8 buffer 0 0x52;
  v ← setUint8 v 1 0x49;
  v ← setUint8 v 2 0x46;
  v ← setUint8 v 3 0x46;
  v ← setUint32 v 4 (36 + wavDataSize);
  v ← setUint8 v 8 0x57;
  v ← setUint8 v 9 0x41;
  v ← setUint8 v 10 0x56;
  v ← setUint8 v 11 0x45;
  v ← setUint8 v 12 0x66;
  v ← setUint8 v 13 0x6d;
  v ← setUint8 v 14 0x74;
  v ← setUint8 v 15 0x20;
  v ← setUint32 v 16 16;
  v ← setUint16 v 20 1;
  v ← setUint16 v 22 1;
  v ← setUint32 v 24 audioSampleRate;
  v ← setUint32 v 28 (audioSampleRate * 2);
  v ← setUint16 v 32 2;
  v ← setUint16 v 34 16;
  v ← setUint8 v 36 0x64;
  v ← setUint8 v 37 0x61;
  v ← setUint8 v 38 0x74;
  v ← setUint8 v 39 0x61;
  setUint32 v 40 wavDataSize.

(** The WAV bytes [createWavFile] computes from its arguments, before it
    touches the file system (lines 69-127). *)
Definition wav_payload (atob : string -> completion string)
           (audioBase64 : string) (audioSampleRate : Z) : completion (list Z) :=
  binaryString ← atob audioBase64;
  floatView ← Float32Array_of_buffer (bytes_of_binary_string binaryString);
  encodeWav (map floatToInt16 floatView) audioSampleRate.

(** The file name [createWavFile] writes to. *)
Definition tts_path (fs : FileSystemModule) (now : Z) : string :=
  template (cacheDirectory fs) +:+ "tts_" +:+ pretty now +:+ ".wav".

(** The file name the Android branch of [handleStopRecording] writes to. *)
Definition stt_path (fs : FileSystemModule) (now : Z) : string :=
  or_empty (cacheDirectory fs) +:+ "stt_recording_" +:+ pretty now +:+ ".wav".

(** What the screen holds after [transcribeFile] returned or threw (lines
    658-665). *)
Definition after_transcription (outcome : completion transcription) (w : World)
  : World :=
  match outcome with
  | Ret result =>
      {| isRecording := isRecording w; isLoading := isLoading w; error := None;
         transcript := (if String.eqb (text result) EmptyString
                        then TranscriptObject result
                        else TranscriptText (text result));
         audioChunksRef := audioChunksRef w; recordingRef := recordingRef w;
         effects := effects w |}
  | Throw message =>
      {| isRecording := isRecording w; isLoading := isLoading w;
         error := Some ("Transcription failed: " +:+ message);
         transcript := transcript w;
         audioChunksRef := audioChunksRef w; recordingRef := recordingRef w;
         effects := effects w |}
  end.

(** A world in which the expo-av recording [r] is running. *)
Definition recorder_world (r : Recording) : World :=
  {| isRecording := true; isLoading := false; error := None;
     transcript := TranscriptText EmptyString; audioChunksRef := [];
     recordingRef := Some r; effects := [] |}.

(** The Android environment at a later time, with another cache directory
    and a file system whose writes fail. *)
Definition android_env_later : Env :=
  {| Platform_OS := "android"; LiveAudioStream := true; audioModulesAvailable := true;
     FileSystem := Some {| cacheDirectory := Some "file:///tmp/";
                           writeAsStringAsync := fun _ _ => Throw "disk full" |};
     atob := atob_base64; btoa := btoa_base64;
     Date_now := 1700000009999;
     LiveAudioStream_init := Ret tt; LiveAudioStream_start := Ret tt;
     LiveAudioStream_stop := Ret tt;
     requestPermissionsAsync := Ret "granted"; setAudioModeAsync := Ret tt;
     Recording_createAsync := Ret (idle_recording None);
     transcribeFile := fun _ => Ret {| text := "hello" |} |}.


(** ** The rest of the screen: models, loading, generation and synthesis

    The component of lines 190-1130.  Its state cells [isLoading] and
    [error] are the ones the recording handlers use, so the state of the
    whole screen extends [World]. *)

Inductive TabType := llm | stt | tts.
Inductive FrameworkType := LlamaCpp | ONNX | SystemTTS.

(** A model as [RunAnywhere.getAvailableModels] lists it, and as the
    screen keeps it ([ModelInfo], lines 168-177).  Optional fields are
    [None] when [undefined]. *)
Record SdkModel := {
  sdk_id : string;
  sdk_name : string;
  sdk_category : string;
  sdk_isDownloaded : option bool;
  sdk_localPath : option string;
  sdk_downloadSize : option Z;
  sdk_downloadURL : option string
}.

Record ModelInfo := {
  model_id : string;
  model_name : string;
  category : string;
  framework : FrameworkType;
  isDownloaded : option bool;
  localPath : option string;
  downloadSize : option Z;
  downloadURL : option string
}.

(** An [Audio.Sound] of expo-av. *)
Record Sound := {
  unloadAsync : completion unit;
  playAsync : completion unit
}.

(** The results of [RunAnywhere.generate] and [RunAnywhere.synthesize];
    the sample rate and the sample count are integral Numbers, as
    the header writer of [createWavFile] takes them. *)
Record generation := { gen_text : string }.

Record synthesis := {
  audio : option string;
  sampleRate : option Z;
  numSamples : option Z;
  duration : option spec_float
}.

(** The SDK, the playback service and the string functions of the
    platform, by the outcome of each call.  [downloadModel] also gives the
    progress values it reports before it settles ([None]: not a number). *)
Record Sdk := {
  sdkAvailable : bool;
  RunAnywhere_initialize : completion unit;
  getAvailableModels : completion (list SdkModel);
  downloadModel : string -> list (option spec_float) * completion string;
  getModelPath : string -> completion (option string);
  loadTextModel : string -> completion unit;
  loadSTTModel : string -> completion unit;
  loadTTSModel : string -> completion unit;
  generate : string -> completion generation;
  synthesize : string -> completion (option synthesis);
  Sound_createAsync : string -> completion Sound;
  String_trim : string -> string;
  JSON_stringify : generation -> string;
  Number_toString : Z -> string;
  toFixed2 : spec_float -> string
}.

(** Calls to the outside made by the whole screen, in order; the calls of
    the recording handlers and of [createWavFile] are carried over. *)
Inductive app_call :=
| World_effect (e : effect)
| Sdk_initialize
| Sdk_getAvailableModels
| Sdk_downloadModel (id : string)
| Sdk_getModelPath (id : string)
| Sdk_loadTextModel (path : string)
| Sdk_loadSTTModel (path : string)
| Sdk_loadTTSModel (path : string)
| Sdk_generate (prompt : string)
| Sdk_synthesize (text : string)
| Speech_stop
| Speech_speak (text : string)
| Sound_unload
| Sound_create (uri : string)
| Sound_play
| Sound_setOnPlaybackStatusUpdate (duration : spec_float).

(** The state cells of the component (lines 191-224) besides those of
    [World], which it extends, and the calls made so far.  The cells of
    the custom model dialog and of the animations are left out. *)
Record App := {
  world : World;
  activeTab : TabType;
  isInitialized : bool;
  models : list ModelInfo;
  selectedModel : option ModelInfo;
  isDownloading : bool;
  downloadProgress : spec_float;
  isModelLoaded : bool;
  prompt : string;
  response : string;
  isGenerating : bool;
  ttsText : string;
  isSpeaking : bool;
  soundRef : option Sound;
  calls : list app_call
}.

Definition with_world (w : World) (a : App) : App :=
  {| world := w; activeTab := activeTab a; isInitialized := isInitialized a;
     models := models a; selectedModel := selectedModel a; isDownloading := isDownloading a;
     downloadProgress := downloadProgress a; isModelLoaded := isModelLoaded a; prompt := prompt a;
     response := response a; isGenerating := isGenerating a; ttsText := ttsText a;
     isSpeaking := isSpeaking a; soundRef := soundRef a; calls := calls a |}.

Definition with_activeTab (t : TabType) (a : App) : App :=
  {| world := world a; activeTab := t; isInitialized := isInitialized a;
     models := models a; selectedModel := selectedModel a; isDownloading := isDownloading a;
     downloadProgress := downloadProgress a; isModelLoaded := isModelLoaded a; prompt := prompt a;
     response := response a; isGenerating := isGenerating a; ttsText := ttsText a;
     isSpeaking := isSpeaking a; soundRef := soundRef a; calls := calls a |}.

Definition with_isInitialized (b : bool) (a : App) : App :=
  {| world := world a; activeTab := activeTab a; isInitialized := b;
     models := models a; selectedModel := selectedModel a; isDownloading := isDownloading a;
     downloadProgress := downloadProgress a; isModelLoaded := isModelLoaded a; prompt := prompt a;
     response := response a; isGenerating := isGenerating a; ttsText := ttsText a;
     isSpeaking := isSpeaking a; soundRef := soundRef a; calls := calls a |}.

Definition with_models (ms : list ModelInfo) (a : App) : App :=
  {| world := world a; activeTab := activeTab a; isInitialized := isInitialized a;
     models := ms; selectedModel := selectedModel a; isDownloading := isDownloading a;
     downloadProgress := downloadProgress a; isModelLoaded := isModelLoaded a; prompt := prompt a;
     response := response a; isGenerating := isGenerating a; ttsText := ttsText a;
     isSpeaking := isSpeaking a; soundRef := soundRef a; calls := calls a |}.

Definition with_selectedModel (m : option ModelInfo) (a : App) : App :=
  {| world := world a; activeTab := activeTab a; isInitialized := isInitialized a;
     models := models a; selectedModel := m; isDownloading := isDownloading a;
     downloadProgress := downloadProgress a; isModelLoaded := isModelLoaded a; prompt := prompt a;
     response := response a; isGenerating := isGenerating a; ttsText := ttsText a;
     isSpeaking := isSpeaking a; soundRef := soundRef a; calls := calls a |}.

Definition with_isDownloading (b : bool) (a : App) : App :=
  {| world := world a; activeTab := activeTab a; isInitialized := isInitialized a;
     models := models a; selectedModel := selectedModel a; isDownloading := b;
     downloadProgress := downloadProgress a; isModelLoaded := isModelLoaded a; prompt := prompt a;
     response := response a; isGenerating := isGenerating a; ttsText := ttsText a;
     isSpeaking := isSpeaking a; soundRef := soundRef a; calls := calls a |}.

Definition with_downloadProgress (p : spec_float) (a : App) : App :=
  {| world := world a; activeTab := activeTab a; isInitialized := isInitialized a;
     models := models a; selectedModel := selectedModel a; isDownloading := isDownloading a;
     downloadProgress := p; isModelLoaded := isModelLoaded a; prompt := prompt a;
     response := response a; isGenerating := isGenerating a; ttsText := ttsText a;
     isSpeaking := isSpeaking a; soundRef := soundRef a; calls := calls a |}.

Definition with_isModelLoaded (b : bool) (a : App) : App :=
  {| world := world a; activeTab := activeTab a; isInitialized := isInitialized a;
     models := models a; selectedModel := selectedModel a; isDownloading := isDownloading a;
     downloadProgress := downloadProgress a; isModelLoaded := b; prompt := prompt a;
     response := response a; isGenerating := isGenerating a; ttsText := ttsText a;
     isSpeaking := isSpeaking a; soundRef := soundRef a; calls := calls a |}.

Definition with_response (s : string) (a : App) : App :=
  {| world := world a; activeTab := activeTab a; isInitialized := isInitialized a;
     models := models a; selectedModel := selectedModel a; isDownloading := isDownloading a;
     downloadProgress := downloadProgress a; isModelLoaded := isModelLoaded a; prompt := prompt a;
     response := s; isGenerating := isGenerating a; ttsText := ttsText a;
     isSpeaking := isSpeaking a; soundRef := soundRef a; calls := calls a |}.

Definition with_isGenerating (b : bool) (a : App) : App :=
  {| world := world a; activeTab := activeTab a; isInitialized := isInitialized a;
     models := models a; selectedModel := selectedModel a; isDownloading := isDownloading a;
     downloadProgress := downloadProgress a; isModelLoaded := isModelLoaded a; prompt := prompt a;
     response := response a; isGenerating := b; ttsText := ttsText a;
     isSpeaking := isSpeaking a; soundRef := soundRef a; calls := calls a |}.

Definition with_isSpeaking (b : bool) (a : App) : App :=
  {| world := world a; activeTab := activeTab a; isInitialized := isInitialized a;
     models := models a; selectedModel := selectedModel a; isDownloading := isDownloading a;
     downloadProgress := downloadProgress a; isModelLoaded := isModelLoaded a; prompt := prompt a;
     response := response a; isGenerating := isGenerating a; ttsText := ttsText a;
     isSpeaking := b; soundRef := soundRef a; calls := calls a |}.

Definition with_soundRef (s : option Sound) (a : App) : App :=
  {| world := world a; activeTab := activeTab a; isInitialized := isInitialized a;
     models := models a; selectedModel := selectedModel a; isDownloading := isDownloading a;
     downloadProgress := downloadProgress a; isModelLoaded := isModelLoaded a; prompt := prompt a;
     response := response a; isGenerating := isGenerating a; ttsText := ttsText a;
     isSpeaking := isSpeaking a; soundRef := s; calls := calls a |}.

Definition add_call (c : app_call) (a : App) : App :=
  {| world := world a; activeTab := activeTab a; isInitialized := isInitialized a;
     models := models a; selectedModel := selectedModel a; isDownloading := isDownloading a;
     downloadProgress := downloadProgress a; isModelLoaded := isModelLoaded a; prompt := prompt a;
     response := response a; isGenerating := isGenerating a; ttsText := ttsText a;
     isSpeaking := isSpeaking a; soundRef := soundRef a; calls := calls a ++ [c] |}.

Definition add_calls (cs : list app_call) (a : App) : App :=
  {| world := world a; activeTab := activeTab a; isInitialized := isInitialized a;
     models := models a; selectedModel := selectedModel a; isDownloading := isDownloading a;
     downloadProgress := downloadProgress a; isModelLoaded := isModelLoaded a; prompt := prompt a;
     response := response a; isGenerating := isGenerating a; ttsText := ttsText a;
     isSpeaking := isSpeaking a; soundRef := soundRef a; calls := calls a ++ cs |}.

(** A handler of the screen: a computation over [App] that returns or
    throws. *)
Definition screen (A : Type) : Type := App -> completion A * App.

#[global] Instance app_ret : MRet screen := fun A x a => (Ret x, a).
#[global] Instance app_bind : MBind screen := fun A B k m a =>
  match m a with
  | (Ret x, a') => k x a'
  | (Throw e, a') => (Throw e, a')
  end.

Definition modify (f : App -> App) : screen unit := fun a => (Ret tt, f a).
Definition inspect {A} (f : App -> A) : screen A := fun a => (Ret (f a), a).
Definition outcome {A} (c : app_call) (result : completion A) : screen A :=
  fun a => (result, add_call c a).

Definition app_try_catch {A} (body : screen A) (handler : string -> screen A) : screen A :=
  fun a =>
    match body a with
    | (Ret x, a') => (Ret x, a')
    | (Throw e, a') => handler e a'
    end.

Definition app_try_finally {A} (body : screen A) (cleanup : App -> App) : screen A :=
  fun a => let '(r, a') := body a in (r, cleanup a').

(** A computation of the recording part run inside the screen; the calls
    it makes are appended to the calls of the screen. *)
Definition in_world {A} (m : io A) : screen A :=
  fun a =>
    let '(r, w') := m (world a) in
    (r, add_calls (map World_effect (new_effects (world a) w')) (with_world w' a)).

(** The shared cells [isLoading] and [error]. *)
Definition app_setIsLoading (b : bool) : screen unit :=
  modify (fun a => with_world (with_isLoading b (world a)) a).
Definition set_error (e : option string) (a : App) : App :=
  with_world (snd (setError e (world a))) a.
Definition app_setError (e : option string) : screen unit := modify (set_error e).

(** Truthiness of values that are a string, a Number or [undefined]. *)
Definition truthy_string (x : option string) : bool := negb (falsy x).
Definition truthy_number (x : spec_float) : bool :=
  match x with
  | S754_zero _ | S754_nan => false
  | _ => true
  end.
Definition truthy_int (x : option Z) : bool :=
  match x with
  | Some z => negb (z =? 0)
  | None => false
  end.
Definition truthy_bool (x : option bool) : bool :=
  match x with Some b => b | None => false end.

(** An integral Number as a binary64 datum, Number division, and
    [Math.round]: the nearest integer, a tie going up. *)
Definition Z2SF (z : Z) : spec_float := binary_normalize 53 1024 z 0 false.
Definition div64 : spec_float -> spec_float -> spec_float := SFdiv 53 1024.
Definition f_100 : spec_float := S754_finite false 100 0.

Definition Math_round (x : spec_float) : spec_float :=
  match x with
  | S754_finite s m e =>
      if 0 <=? e then x
      else
        let n := (2 * cond_Zopp s (Zpos m) + 2 ^ (- e)) / 2 ^ (- e + 1) in
        if n =? 0 then S754_zero s else Z2SF n
  | _ => x
  end.

(** *** Initialization and the model list (lines 276-327) *)

(** getFramework (lines 310-314) *)
Definition getFramework (model : SdkModel) : FrameworkType :=
  if String.eqb (sdk_id model) "system-tts" then SystemTTS
  else if String.eqb (sdk_category model) "language" then LlamaCpp
  else ONNX.

(** The object built for each listed model (lines 294-303). *)
Definition format_model (m : SdkModel) : ModelInfo :=
  {| model_id := sdk_id m; model_name := sdk_name m; category := sdk_category m;
     framework := getFramework m; isDownloaded := sdk_isDownloaded m;
     localPath := sdk_localPath m; downloadSize := sdk_downloadSize m;
     downloadURL := sdk_downloadURL m |}.

(** loadModels (lines 291-308): a failure is logged to the console only. *)
Definition loadModels (sdk : Sdk) : screen unit :=
  app_try_catch
    (allModels ← outcome Sdk_getAvailableModels (getAvailableModels sdk);
     let formattedModels := map format_model allModels in
     modify (with_models formattedModels))
    (fun _ => mret tt).

(** initializeSDK (lines 276-289) *)
Definition initializeSDK (sdk : Sdk) : screen unit :=
  if negb (sdkAvailable sdk) then
    app_setError (Some "Development build required. Install the APK from EAS Build.")
  else
    app_try_catch
      (outcome Sdk_initialize (RunAnywhere_initialize sdk);;
       modify (with_isInitialized true);;
       loadModels sdk)
      (fun message => app_setError (Some ("Initialization failed: " +:+ message))).

(** getModelsForTab (lines 316-327) *)
Definition has_category (c : string) (m : ModelInfo) : bool := String.eqb (category m) c.

Definition getModelsForTab (a : App) : list ModelInfo :=
  match activeTab a with
  | llm => List.filter (has_category "language") (models a)
  | stt => List.filter (has_category "speech-recognition") (models a)
  | tts => List.filter (has_category "speech-synthesis") (models a)
  end.

(** The effect of lines 267-274, run when [models] changed. *)
Definition has_id (id : string) (m : ModelInfo) : bool := String.eqb (model_id m) id.

Definition option_string_eqb (x y : option string) : bool :=
  match x, y with
  | Some s, Some t => String.eqb s t
  | None, None => true
  | _, _ => false
  end.

Definition syncSelectedModel (a : App) : App :=
  match selectedModel a with
  | Some selected =>
      if (0 <? length (models a))%nat then
        match List.find (has_id (model_id selected)) (models a) with
        | Some updatedModel =>
            if negb (option_string_eqb (localPath updatedModel) (localPath selected))
            then with_selectedModel (Some updatedModel) a
            else a
        | None => a
        end
      else a
  | None => a
  end.

(** *** Model management (lines 333-405) *)

(** handleSelectModel (lines 333-339) *)
Definition handleSelectModel (model : ModelInfo) (a : App) : App :=
  let fullModel :=
    match List.find (has_id (model_id model)) (models a) with
    | Some m => m
    | None => model
    end in
  with_response EmptyString (with_isModelLoaded false (with_selectedModel (Some fullModel) a)).

(** The progress callback of handleDownloadModel (lines 350-354). *)
Definition progress_percent (progress : option spec_float) : spec_float :=
  match progress with
  | Some p =>
      match p with
      | S754_nan => S754_zero false
      | _ => Math_round (mul64 p f_100)
      end
  | None => S754_zero false
  end.

Definition report_progress (a : App) (progress : option spec_float) : App :=
  with_downloadProgress (progress_percent progress) a.

(** The functional update of lines 358-362. *)
Definition mark_downloaded (downloadedPath : string) (prev : option ModelInfo)
  : option ModelInfo :=
  match prev with
  | Some prev =>
      Some {| model_id := model_id prev; model_name := model_name prev;
              category := category prev; framework := framework prev;
              isDownloaded := Some true; localPath := Some downloadedPath;
              downloadSize := downloadSize prev; downloadURL := downloadURL prev |}
  | None => None
  end.

(** handleDownloadModel (lines 341-368) *)
Definition handleDownloadModel (sdk : Sdk) : screen unit :=
  selected ← inspect selectedModel;
  match selected with
  | None => mret tt
  | Some selected =>
      modify (with_isDownloading true);;
      modify (with_downloadProgress (S754_zero false));;
      app_setError None;;
      app_try_finally
        (app_try_catch
           (let '(reports, settled) := downloadModel sdk (model_id selected) in
            modify (add_call (Sdk_downloadModel (model_id selected)));;
            modify (fun a => foldl report_progress a reports);;
            downloadedPath ← (fun a => (settled, a));
            loadModels sdk;;
            modify (fun a => with_selectedModel
                               (mark_downloaded downloadedPath (selectedModel a)) a))
           (fun message => app_setError (Some ("Download failed: " +:+ message))))
        (with_isDownloading false)
  end.

(** The icon of the success messages, by the UTF-8 bytes of the literal as
    it stands in the source (lines 399 and 752). *)
Definition check_mark : string :=
  string_of_chunk [0xE2; 0x80; 0x9A; 0xC3; 0xBA; 0xC3; 0x96].

(** handleLoadModel (lines 370-405); [None] in the body stands for the
    early [return]. *)
Definition handleLoadModel (sdk : Sdk) : screen unit :=
  selected ← inspect selectedModel;
  match selected with
  | None => mret tt
  | Some selected =>
      app_setIsLoading true;;
      app_setError None;;
      app_try_finally
        (app_try_catch
           (modelPath ← (if truthy_string (localPath selected)
                          then mret (localPath selected)
                          else outcome (Sdk_getModelPath (model_id selected))
                                 (getModelPath sdk (model_id selected)));
            if falsy modelPath then
              app_setError (Some "Model path not found. Please re-download.")
            else
              let modelPath := or_empty modelPath in
              tab ← inspect activeTab;
              match tab with
              | llm => outcome (Sdk_loadTextModel modelPath) (loadTextModel sdk modelPath)
              | stt => outcome (Sdk_loadSTTModel modelPath) (loadSTTModel sdk modelPath)
              | tts =>
                  if negb (String.eqb (model_id selected) "system-tts") then
                    outcome (Sdk_loadTTSModel modelPath) (loadTTSModel sdk modelPath)
                  else mret tt
              end;;
              modify (with_isModelLoaded true);;
              modify (with_response
                        (check_mark +:+ " " +:+ model_name selected
                         +:+ " loaded successfully!")))
           (fun message => app_setError (Some ("Load failed: " +:+ message))))
        (fun a => with_world (with_isLoading false (world a)) a)
  end.

(** The button under the model list (lines 1048-1090): nothing before
    initialization or without a selected model; the download and the load
    button carry their [disabled] flag. *)
Inductive model_action :=
| OfferDownload (disabled : bool)
| OfferLoad (disabled : bool)
| ShowReady
| NoAction.

Definition modelAction (a : App) : model_action :=
  if isInitialized a then
    match selectedModel a with
    | None => NoAction
    | Some selected =>
        if negb (truthy_bool (isDownloaded selected))
           && negb (String.eqb (model_id selected) "system-tts")
        then OfferDownload (isDownloading a)
        else if negb (isModelLoaded a) then OfferLoad (isLoading (world a))
        else ShowReady
    end
  else NoAction.

(** The [onPress] of a tab (lines 802-808). *)
Definition pressTab (tab : TabType) (a : App) : App :=
  set_error None
    (with_response EmptyString
       (with_isModelLoaded false (with_selectedModel None (with_activeTab tab a)))).

(** *** LLM (lines 411-429) *)

Definition blank (sdk : Sdk) (s : string) : bool :=
  String.eqb (String_trim sdk s) EmptyString.

Definition handleGenerate (sdk : Sdk) : screen unit :=
  text ← inspect prompt;
  if blank sdk text then mret tt
  else
    modify (with_isGenerating true);;
    app_setError None;;
    modify (with_response EmptyString);;
    app_try_finally
      (app_try_catch
         (result ← outcome (Sdk_generate text) (generate sdk text);
          modify (with_response
                    (if String.eqb (gen_text result) EmptyString
                     then JSON_stringify sdk result
                     else gen_text result)))
         (fun message => app_setError (Some ("Generation failed: " +:+ message))))
      (with_isGenerating false).

(** *** TTS (lines 675-775) *)

(** The icons of the messages, by the UTF-8 bytes of the literals as they
    stand in the source (lines 731-765). *)
Definition icon_speaker : string :=
  string_of_chunk [0xEF; 0xA3; 0xBF; 0xC3; 0xBC; 0xC3; 0xAE; 0xC3; 0xA4].
Definition icon_hourglass : string :=
  string_of_chunk [0xE2; 0x80; 0x9A; 0xC3; 0xA8; 0xE2; 0x89; 0xA5].
Definition icon_note : string :=
  string_of_chunk [0xEF; 0xA3; 0xBF; 0xC3; 0xBC; 0xC3; 0xA9; 0xC2; 0xB5].
Definition icon_warning : string :=
  string_of_chunk [0xE2; 0x80; 0x9A; 0xC3; 0xB6; 0xE2; 0x80; 0xA0; 0xC3; 0x94;
                   0xE2; 0x88; 0x8F; 0xC3; 0xA8].
Definition icon_bulb : string :=
  string_of_chunk [0xEF; 0xA3; 0xBF; 0xC3; 0xBC; 0xC3; 0xAD; 0xC2; 0xB0].

Definition rebuild_speech : string :=
  "System TTS requires expo-speech. Rebuild with:

eas build --platform android --profile development".

Definition audio_generated (sdk : Sdk) (d : spec_float) : string :=
  icon_speaker +:+ " Audio generated!

Duration: " +:+ toFixed2 sdk d +:+ "s

".

Definition msg_creating (sdk : Sdk) (d : spec_float) : string :=
  audio_generated sdk d +:+ icon_hourglass +:+ " Creating audio file...".
Definition msg_playing (sdk : Sdk) (d : spec_float) : string :=
  audio_generated sdk d +:+ icon_note +:+ " Playing audio...".
Definition msg_playback_failed (sdk : Sdk) (d : spec_float) (message : string) : string :=
  audio_generated sdk d +:+ icon_warning +:+ " Playback failed: " +:+ message.
Definition msg_no_file (sdk : Sdk) (d : spec_float) : string :=
  audio_generated sdk d +:+ icon_warning +:+ " Could not create audio file".
Definition msg_complete (sdk : Sdk) (d : spec_float) : string :=
  check_mark +:+ " Playback complete!

Duration: " +:+ toFixed2 sdk d +:+ "s".

Definition msg_no_playback (env : Env) (sdk : Sdk) (result : option synthesis) : string :=
  let rate := match result with Some r => sampleRate r | None => None end in
  let samples := match result with Some r => numSamples r | None => None end in
  icon_speaker +:+ " Audio generated!

Sample Rate: "
  +:+ (if truthy_int rate then Number_toString sdk (default 0 rate) else "N/A")
  +:+ "Hz
Samples: "
  +:+ (if truthy_int samples then Number_toString sdk (default 0 samples) else "0")
  +:+ "

"
  +:+ (if negb (audioModulesAvailable env)
       then icon_bulb +:+ " Rebuild with expo-av for playback"
       else icon_warning +:+ " No audio data returned").

(** [result.sampleRate || 22050] and
    [result.duration || (result.numSamples / sampleRate) || 0]. *)
Definition synthesis_rate (result : synthesis) : Z :=
  if truthy_int (sampleRate result) then default 0 (sampleRate result) else 22050.

Definition synthesis_duration (result : synthesis) : spec_float :=
  let d := default S754_nan (duration result) in
  if truthy_number d then d
  else
    let samples := match numSamples result with Some n => Z2SF n | None => S754_nan end in
    let q := div64 samples (Z2SF (synthesis_rate result)) in
    if truthy_number q then q else S754_zero false.

(** [result?.audio && result.audio.length > 0 && audioModulesAvailable] *)
Definition playable_audio (env : Env) (result : option synthesis)
  : option (synthesis * string) :=
  match result with
  | Some r =>
      match audio r with
      | Some data =>
          if negb (String.eqb data EmptyString) && audioModulesAvailable env
          then Some (r, data) else None
      | None => None
      end
  | None => None
  end.

(** The callbacks handed to [Speech.speak] and to the sound. *)
Definition onSpeechDone (a : App) : App := with_isSpeaking false a.

Definition onPlaybackStatusUpdate (sdk : Sdk) (d : spec_float) (didJustFinish : bool)
           (a : App) : App :=
  if didJustFinish then with_response (msg_complete sdk d) (with_isSpeaking false a)
  else a.

Definition is_system_tts (selected : option ModelInfo) : bool :=
  match selected with
  | Some m => String.eqb (model_id m) "system-tts"
  | None => false
  end.

Definition handleSpeak (env : Env) (sdk : Sdk) : screen unit :=
  text ← inspect ttsText;
  if blank sdk text then app_setError (Some "Please enter text to speak")
  else
    selected ← inspect selectedModel;
    if is_system_tts selected then
      (* System TTS *)
      if negb (audioModulesAvailable env) then
        in_world (log (Alert_alert "Rebuild Required" rebuild_speech))
      else
        inspect isSpeaking ≫= fun speaking : bool =>
        if speaking then
          modify (add_call Speech_stop);;
          modify (with_isSpeaking false)
        else
          modify (with_isSpeaking true);;
          modify (add_call (Speech_speak text))
    else
      (* Neural TTS *)
      loaded ← inspect isModelLoaded;
      if negb loaded then app_setError (Some "Please load a TTS model first")
      else
        app_setIsLoading true;;
        app_setError None;;
        modify (with_isSpeaking true);;
        app_try_finally
          (app_try_catch
             (result ← outcome (Sdk_synthesize text) (synthesize sdk text);
              match playable_audio env result with
              | Some (result, data) =>
                  let rate := synthesis_rate result in
                  let d := synthesis_duration result in
                  modify (with_response (msg_creating sdk d));;
                  wavPath ← in_world (createWavFile env data rate);
                  if truthy_string wavPath then
                    modify (with_response (msg_playing sdk d));;
                    app_try_catch
                      (current ← inspect soundRef;
                       match current with
                       | Some previous => outcome Sound_unload (unloadAsync previous)
                       | None => mret tt
                       end;;
                       sound ← outcome (Sound_create (or_empty wavPath))
                                 (Sound_createAsync sdk (or_empty wavPath));
                       modify (with_soundRef (Some sound));;
                       outcome Sound_play (playAsync sound);;
                       modify (add_call (Sound_setOnPlaybackStatusUpdate d)))
                      (fun message =>
                         modify (with_response (msg_playback_failed sdk d message));;
                         modify (with_isSpeaking false))
                  else
                    modify (with_response (msg_no_file sdk d));;
                    modify (with_isSpeaking false)
              | None =>
                  modify (with_response (msg_no_playback env sdk result));;
                  modify (with_isSpeaking false)
              end)
             (fun message =>
                app_setError (Some ("Synthesis failed: " +:+ message));;
                modify (with_isSpeaking false)))
          (fun a => with_world (with_isLoading false (world a)) a).

(** *** Rendering conditions *)

(** renderSTTContent (lines 878-880): whether recording is available;
    the microphone button is shown only then (and with a loaded model). *)
Definition is_ios (env : Env) : bool := String.eqb (Platform_OS env) "ios".

Definition recordingAvailable (env : Env) : bool :=
  let androidReady :=
    is_android env && LiveAudioStream env
    && match FileSystem env with Some _ => true | None => false end in
  let iosReady := is_ios env && audioModulesAvailable env in
  androidReady || iosReady.

(** *** Definitions used in the statements *)

Definition is_alert (e : effect) : bool :=
  match e with Alert_alert _ _ => true | _ => false end.

Definition read_u16_le (bytes : list Z) (off : nat) : option Z :=
  match drop off bytes with
  | b0 :: b1 :: _ => Some (b0 + 256 * b1)
  | _ => None
  end.

(** The ASCII codes of a tag of the header. *)
Definition tag (s : string) : list Z := bytes_of_binary_string s.

(** The magnitude of the converted sample: the scaled mantissa, cut at the
    factor. *)
Definition sat_magnitude (k m : positive) (e : Z) : Z :=
  match cmp_unit m e with
  | Gt => Zpos k
  | _ => Zpos (m * k) / 2 ^ (- e)
  end.

(** The calls a handler of the screen added. *)
Definition new_calls (before after : App) : list app_call :=
  drop (length (calls before)) (calls after).

(** The category listed under a tab. *)
Definition tab_category (t : TabType) : string :=
  match t with
  | llm => "language"
  | stt => "speech-recognition"
  | tts => "speech-synthesis"
  end.

Definition is_tab (t u : TabType) : bool :=
  match t, u with
  | llm, llm | stt, stt | tts, tts => true
  | _, _ => false
  end.

(** The calls [handleLoadModel] may make on a tab for the model [id]. *)
Definition load_call_allowed (tab : TabType) (id : string) (c : app_call) : bool :=
  match c with
  | Sdk_getModelPath i => String.eqb i id
  | Sdk_loadTextModel _ => is_tab tab llm
  | Sdk_loadSTTModel _ => is_tab tab stt
  | Sdk_loadTTSModel _ => is_tab tab tts && negb (String.eqb id "system-tts")
  | _ => false
  end.

(** The load call of a tab for a model and a path, and its outcome. *)
Definition load_calls (tab : TabType) (id path : string) : list app_call :=
  match tab with
  | llm => [Sdk_loadTextModel path]
  | stt => [Sdk_loadSTTModel path]
  | tts => if String.eqb id "system-tts" then [] else [Sdk_loadTTSModel path]
  end.

Definition load_outcome (sdk : Sdk) (tab : TabType) (id path : string) : completion unit :=
  match tab with
  | llm => loadTextModel sdk path
  | stt => loadSTTModel sdk path
  | tts => if String.eqb id "system-tts" then Ret tt else loadTTSModel sdk path
  end.

(** The percentage shown after the reports of a download. *)
Definition last_percent (reports : list (option spec_float)) : spec_float :=
  match last reports with
  | Some progress => progress_percent progress
  | None => S754_zero false
  end.

(** What [loadModels] leaves in [models]. *)
Definition listed_models (sdk : Sdk) (before : list ModelInfo) : list ModelInfo :=
  match getAvailableModels sdk with
  | Ret allModels => map format_model allModels
  | Throw _ => before
  end.

(** The calls of a playback of [path], after a sound was or was not kept. *)
Definition playback_calls (previous : option Sound) (path : string) (d : spec_float)
  : list app_call :=
  match previous with Some _ => [Sound_unload] | None => [] end
  ++ [Sound_create path; Sound_play; Sound_setOnPlaybackStatusUpdate d].

Definition is_status_registration (c : app_call) : bool :=
  match c with Sound_setOnPlaybackStatusUpdate _ => true | _ => false end.

(** *** An SDK, models and a screen for the concrete runs *)

Fixpoint drop_spaces (cs : list ascii) : list ascii :=
  match cs with
  | c :: rest => if is_ascii_whitespace c then drop_spaces rest else cs
  | [] => []
  end.

Definition trim_ascii (s : string) : string :=
  string_of_list_ascii
    (reverse (drop_spaces (reverse (drop_spaces (list_ascii_of_string s))))).

Definition demo_sound : Sound := {| unloadAsync := Ret tt; playAsync := Ret tt |}.

Definition demo_models : list SdkModel :=
  [ {| sdk_id := "smollm2"; sdk_name := "SmolLM2"; sdk_category := "language";
       sdk_isDownloaded := Some false; sdk_localPath := None;
       sdk_downloadSize := Some 270000000; sdk_downloadURL := None |};
    {| sdk_id := "whisper-tiny"; sdk_name := "Whisper Tiny";
       sdk_category := "speech-recognition";
       sdk_isDownloaded := Some true; sdk_localPath := Some "/models/whisper-tiny";
       sdk_downloadSize := None; sdk_downloadURL := None |};
    {| sdk_id := "piper-en"; sdk_name := "Piper"; sdk_category := "speech-synthesis";
       sdk_isDownloaded := Some true; sdk_localPath := Some "/models/piper-en";
       sdk_downloadSize := None; sdk_downloadURL := None |};
    {| sdk_id := "system-tts"; sdk_name := "System TTS";
       sdk_category := "speech-synthesis";
       sdk_isDownloaded := None; sdk_localPath := None;
       sdk_downloadSize := None; sdk_downloadURL := None |} ].

Definition demo_sdk : Sdk :=
  {| sdkAvailable := true;
     RunAnywhere_initialize := Ret tt;
     getAvailableModels := Ret demo_models;
     downloadModel := fun id =>
       ([Some (S754_finite false 4503599627370496 (-53)); None;
         Some (S754_finite false 4503599627370496 (-52))],
        Ret ("/models/" +:+ id));
     getModelPath := fun _ => Ret None;
     loadTextModel := fun _ => Ret tt;
     loadSTTModel := fun _ => Ret tt;
     loadTTSModel := fun _ => Ret tt;
     generate := fun _ => Ret {| gen_text := "Hello." |};
     synthesize := fun _ =>
       Ret (Some {| audio := Some "AACAPwAAgL8AAAA/"; sampleRate := Some 22050;
                    numSamples := Some 3; duration := None |});
     Sound_createAsync := fun _ => Ret demo_sound;
     String_trim := trim_ascii;
     JSON_stringify := fun _ => "{}";
     Number_toString := pretty;
     toFixed2 := fun _ => "0.00" |}.

Definition initial_app : App :=
  {| world := initial_world; activeTab := llm; isInitialized := false;
     models := []; selectedModel := None; isDownloading := false;
     downloadProgress := S754_zero false; isModelLoaded := false;
     prompt := EmptyString; response := EmptyString; isGenerating := false;
     ttsText := "Hello! I am RunAnywhere, your on-device AI assistant.";
     isSpeaking := false; soundRef := None; calls := [] |}.

(** The screen after initialization with the models of [demo_sdk]. *)
Definition demo_app : App := snd (initializeSDK demo_sdk initial_app).

(** [demo_app] on a tab with a model of the list selected. *)
Definition demo_selected (tab : TabType) (id : string) : App :=
  match List.find (has_id id) (models demo_app) with
  | Some m => handleSelectModel m (pressTab tab demo_app)
  | None => pressTab tab demo_app
  end.

(** [demo_selected] after the model was loaded. *)
Definition demo_loaded (tab : TabType) (id : string) : App :=
  snd (handleLoadModel demo_sdk (demo_selected tab id)).

(** [demo_selected] after the model was downloaded. *)
Definition demo_downloaded (tab : TabType) (id : string) : App :=
  snd (handleDownloadModel demo_sdk (demo_selected tab id)).

(** The Android environment with a transcription service that fails, and a
    recording whose stop fails. *)
Definition android_env_offline : Env :=
  {| Platform_OS := "android"; LiveAudioStream := true; audioModulesAvailable := true;
     FileSystem := Some cache_fs; atob := atob_base64; btoa := btoa_base64;
     Date_now := 1700000000000;
     LiveAudioStream_init := Ret tt; LiveAudioStream_start := Ret tt;
     LiveAudioStream_stop := Ret tt;
     requestPermissionsAsync := Ret "granted"; setAudioModeAsync := Ret tt;
     Recording_createAsync := Ret (idle_recording None);
     transcribeFile := fun _ => Throw "model not loaded" |}.


(** ** The microphone button over time *)

(** What happens to the screen between renders: a press of the microphone
    button, or a chunk handed to the data listener. *)
Inductive mic_event :=
| Press
| Chunk (data : string).

Definition mic_step (env : Env) (w : World) (ev : mic_event) : World :=
  match ev with
  | Press => snd (micButton_onPress env w)
  | Chunk data => onData data w
  end.

Definition mic_run (env : Env) (events : list mic_event) (w : World) : World :=
  foldl (mic_step env) w events.

(** Capture sessions of the stream that are open after a log of calls: a
    start that returned opens one, a stop that returned closes them. *)
Definition returns {A} (c : completion A) : bool :=
  match c with Ret _ => true | Throw _ => false end.

Definition session_step (env : Env) (open : nat) (e : effect) : nat :=
  match e with
  | Stream_start => if returns (LiveAudioStream_start env) then S open else open
  | Stream_stop => if returns (LiveAudioStream_stop env) then 0%nat else open
  | _ => open
  end.

Definition open_sessions (env : Env) (log : list effect) : nat :=
  foldl (session_step env) 0%nat log.

(** Whether a call to the stream opens or closes a session. *)
Definition is_stream_switch (e : effect) : bool :=
  match e with Stream_start | Stream_stop => true | _ => false end.

(** The Android environment with a stream whose stop fails. *)
Definition android_env_busy : Env :=
  {| Platform_OS := "android"; LiveAudioStream := true; audioModulesAvailable := true;
     FileSystem := Some cache_fs; atob := atob_base64; btoa := btoa_base64;
     Date_now := 1700000000000;
     LiveAudioStream_init := Ret tt; LiveAudioStream_start := Ret tt;
     LiveAudioStream_stop := Throw "busy";
     requestPermissionsAsync := Ret "granted"; setAudioModeAsync := Ret tt;
     Recording_createAsync := Ret (idle_recording None);
     transcribeFile := fun _ => Ret {| text := "hello" |} |}.

(** The SDK of [demo_sdk] once it lists smollm2 as downloaded. *)
Definition demo_models_refreshed : list SdkModel :=
  map (fun m =>
         if String.eqb (sdk_id m) "smollm2" then
           {| sdk_id := sdk_id m; sdk_name := sdk_name m; sdk_category := sdk_category m;
              sdk_isDownloaded := Some true; sdk_localPath := Some "/models/smollm2";
              sdk_downloadSize := sdk_downloadSize m; sdk_downloadURL := sdk_downloadURL m |}
         else m)
      demo_models.

Definition demo_sdk_refreshed : Sdk :=
  {| sdkAvailable := true;
     RunAnywhere_initialize := Ret tt;
     getAvailableModels := Ret demo_models_refreshed;
     downloadModel := downloadModel demo_sdk;
     getModelPath := getModelPath demo_sdk;
     loadTextModel := loadTextModel demo_sdk;
     loadSTTModel := loadSTTModel demo_sdk;
     loadTTSModel := loadTTSModel demo_sdk;
     generate := generate demo_sdk;
     synthesize := synthesize demo_sdk;
     Sound_createAsync := Sound_createAsync demo_sdk;
     String_trim := String_trim demo_sdk;
     JSON_stringify := JSON_stringify demo_sdk;
     Number_toString := Number_toString demo_sdk;
     toFixed2 := toFixed2 demo_sdk |}.

(** * Properties *)

(** ** Sample converter *)

Example floatToInt16_half : floatToInt16 (S754_finite false 8388608 (-24)) = 16383.
Proof. reflexivity. Qed.
Example floatToInt16_minus_half : floatToInt16 (S754_finite true 8388608 (-24)) = -16384.
Proof. reflexivity. Qed.
Example floatToInt16_big : floatToInt16 (S754_finite false 12582912 100) = 32767.
Proof. reflexivity. Qed.
Example floatToInt16_neg_inf : floatToInt16 (S754_infinity true) = -32768.
Proof. reflexivity. Qed.
Example floatToInt16_nan : floatToInt16 S754_nan = 0.
Proof. reflexivity. Qed.

Lemma digits2_pos_bounds (p : positive) :
  2 ^ (Zpos (digits2_pos p) - 1) <= Zpos p < 2 ^ Zpos (digits2_pos p).
Proof.
  induction p as [p IH|p IH|]; cbn [digits2_pos].
  - rewrite Pos2Z.inj_succ.
    replace (Z.succ (Z.pos (digits2_pos p)) - 1) with (Z.succ (Z.pos (digits2_pos p) - 1)) by lia.
    rewrite !Z.pow_succ_r by lia. lia.
  - rewrite Pos2Z.inj_succ.
    replace (Z.succ (Z.pos (digits2_pos p)) - 1) with (Z.succ (Z.pos (digits2_pos p) - 1)) by lia.
    rewrite !Z.pow_succ_r by lia. lia.
  - simpl. lia.
Qed.

Lemma digits2_pos_le (p : positive) (k : Z) :
  0 <= k -> Zpos p < 2 ^ k -> Zpos (digits2_pos p) <= k.
Proof.
  intros Hk Hp. destruct (digits2_pos_bounds p) as [Hlo _].
  destruct (Z_le_gt_dec (Zpos (digits2_pos p)) k) as [|Hgt]; [done|].
  exfalso. assert (2 ^ k <= 2 ^ (Zpos (digits2_pos p) - 1)) by (apply Z.pow_le_mono_r; lia).
  lia.
Qed.

Lemma binary_round_aux_exact (s : bool) (p : positive) (e : Z) :
  Zpos p < 2 ^ 53 -> -1074 <= e <= 971 ->
  binary_round_aux 53 1024 s (Zpos p) e loc_Exact = S754_finite s p e.
Proof.
  intros Hp He.
  assert (Hd : Zpos (digits2_pos p) <= 53) by (apply digits2_pos_le; lia).
  assert (Hshr : shr_fexp 53 1024 (Zpos p) e loc_Exact
                 = ({| shr_m := Zpos p; shr_r := false; shr_s := false |}, e)).
  { unfold shr_fexp, shr, fexp, emin. cbn [Zdigits2 shr_record_of_loc].
    destruct (Z.max (Z.pos (digits2_pos p) + e - 53) (3 - 1024 - 53) - e) eqn:E; try reflexivity.
    lia. }
  unfold binary_round_aux. rewrite Hshr. cbn [shr_m loc_of_shr_record round_nearest_even].
  rewrite Hshr. cbn [shr_m].
  destruct (Z.leb_spec e (1024 - 53)); [reflexivity | lia].
Qed.

Lemma valid_binary32_finite (s : bool) (m : positive) (e : Z) :
  valid_binary32 (S754_finite s m e) = true ->
  Zpos m < 2 ^ 24 /\ -149 <= e <= 104.
Proof.
  unfold valid_binary32, valid_binary, bounded, canonical_mantissa, fexp, emin.
  intros H. apply andb_true_iff in H as [Hc Hb].
  apply Z.eqb_eq in Hc. apply Z.leb_le in Hb.
  destruct (digits2_pos_bounds m) as [_ Hhi].
  assert (Zpos (digits2_pos m) <= 24) by lia.
  assert (2 ^ Zpos (digits2_pos m) <= 2 ^ 24) by (apply Z.pow_le_mono_r; lia).
  lia.
Qed.

Lemma SFcompare_finite (s1 s2 : bool) (m1 m2 : positive) (e1 e2 : Z) :
  SFcompare (S754_finite s1 m1 e1) (S754_finite s2 m2 e2) =
  Some match s1, s2 with
       | true, false => Lt
       | false, true => Gt
       | false, false =>
           match e1 ?= e2 with Lt => Lt | Gt => Gt | Eq => (m1 ?= m2)%positive end
       | true, true =>
           match e1 ?= e2 with Lt => Gt | Gt => Lt | Eq => CompOpp (m1 ?= m2)%positive end
       end.
Proof. destruct s1, s2; reflexivity. Qed.

Ltac flip_compares m e :=
  rewrite ?(Z.compare_antisym e (-23)), ?(Pos.compare_antisym m 8388608).

Lemma Math_min_one_finite (s : bool) (m : positive) (e : Z) :
  Math_min f_one (S754_finite s m e) =
  if s then S754_finite s m e
  else match cmp_unit m e with Lt => S754_finite s m e | _ => f_one end.
Proof.
  unfold Math_min, f_one, cmp_unit. rewrite SFcompare_finite.
  destruct s; [reflexivity|]. flip_compares m e.
  destruct (e ?= -23); [destruct (m ?= 8388608)%positive|..]; reflexivity.
Qed.

Lemma Math_max_minus_one_finite (s : bool) (m : positive) (e : Z) :
  Math_max f_minus_one (S754_finite s m e) =
  if s then match cmp_unit m e with Lt => S754_finite s m e | _ => f_minus_one end
  else S754_finite s m e.
Proof.
  unfold Math_max, f_minus_one, cmp_unit. rewrite SFcompare_finite.
  destruct s; [|reflexivity]. flip_compares m e.
  destruct (e ?= -23); [destruct (m ?= 8388608)%positive|..]; reflexivity.
Qed.

Lemma in_unit_finite_cmp (s : bool) (m : positive) (e : Z) :
  in_unit (S754_finite s m e) =
  match cmp_unit m e with Gt => false | _ => true end.
Proof.
  unfold in_unit, SFleb, f_one, f_minus_one, cmp_unit. rewrite !SFcompare_finite.
  destruct s; flip_compares m e;
    (destruct (e ?= -23); [destruct (m ?= 8388608)%positive|..]; reflexivity).
Qed.

Lemma cmp_unit_Eq (m : positive) (e : Z) :
  cmp_unit m e = Eq -> e = -23 /\ m = 8388608%positive.
Proof.
  unfold cmp_unit. destruct (Z.compare_spec e (-23)); try discriminate.
  intros H'. apply Pos.compare_eq in H'. auto.
Qed.

Lemma clamp_in_unit (y : spec_float) : in_unit y = true -> clamp y = y.
Proof.
  destruct y as [s|s| |s m e].
  - destruct s; reflexivity.
  - destruct s; discriminate.
  - discriminate.
  - rewrite in_unit_finite_cmp. unfold clamp. rewrite Math_min_one_finite.
    destruct (cmp_unit m e) eqn:E; try discriminate; intros _.
    + apply cmp_unit_Eq in E as [-> ->]. destruct s; reflexivity.
    + destruct s; cbv iota; rewrite Math_max_minus_one_finite; rewrite ?E; reflexivity.
Qed.



Lemma wrap_int16_id (z : Z) : -32768 <= z <= 32767 -> wrap_int16 z = z.
Proof. intros H. unfold wrap_int16. rewrite Z.mod_small; lia. Qed.

(** An in-range finite binary32 sample has magnitude m * 2^e <= 1. *)
Lemma in_unit_finite (s : bool) (m : positive) (e : Z) :
  valid_binary32 (S754_finite s m e) = true ->
  in_unit (S754_finite s m e) = true ->
  -149 <= e <= -23 /\ Zpos m <= 2 ^ (- e).
Proof.
  intros Hv Hu. destruct (valid_binary32_finite _ _ _ Hv) as [Hm He].
  rewrite in_unit_finite_cmp in Hu. unfold cmp_unit in Hu.
  destruct (Z.compare_spec e (-23)) as [->|Hlt|Hgt].
  - split; [lia|]. destruct (Pos.compare_spec m 8388608); try discriminate.
    + subst m. reflexivity.
    + change (2 ^ (- (-23))) with 8388608. lia.
  - split; [lia|].
    assert (2 ^ 24 <= 2 ^ (- e)) by (apply Z.pow_le_mono_r; lia). lia.
  - discriminate.
Qed.

Lemma shiftl_neg_bounds (a e k : Z) :
  0 <= a -> e < 0 -> a <= k * 2 ^ (- e) -> 0 <= Z.shiftl a e <= k.
Proof.
  intros Ha He Hk.
  rewrite <- (Z.opp_involutive e) at 1 2. rewrite Z.shiftl_opp_r. 
  rewrite Z.shiftr_div_pow2 by lia.
  assert (0 < 2 ^ (- e)) by (apply Z.pow_pos_nonneg; lia).
  split.
  - apply Z.div_pos; lia.
  - apply Z.div_le_upper_bound; lia.
Qed.

Lemma floatToInt16_finite (s : bool) (m : positive) (e : Z) :
  valid_binary32 (S754_finite s m e) = true ->
  in_unit (S754_finite s m e) = true ->
  let k := if s then 32768%positive else 32767%positive in
  floatToInt16 (S754_finite s m e) = cond_Zopp s (Zpos (m * k) / 2 ^ (- e))
  /\ 0 <= Zpos (m * k) / 2 ^ (- e) <= Zpos k.
Proof.
  intros Hv Hu k.
  destruct (in_unit_finite _ _ _ Hv Hu) as [He Hm].
  destruct (valid_binary32_finite _ _ _ Hv) as [Hm24 _].
  assert (Hb : 0 <= Z.shiftl (Zpos (m * k)) e <= Zpos k).
  { apply shiftl_neg_bounds; [lia | lia |]. rewrite Pos2Z.inj_mul. nia. }
  assert (Hsh : Z.shiftl (Zpos (m * k)) e = Zpos (m * k) / 2 ^ (- e)).
  { rewrite <- (Z.opp_involutive e) at 1. rewrite Z.shiftl_opp_r.
    apply Z.shiftr_div_pow2. lia. }
  rewrite <- Hsh. split; [|exact Hb].
  unfold floatToInt16. rewrite (clamp_in_unit _ Hu).
  assert (Hmul : forall c : positive, Zpos c < 2 ^ 16 ->
            mul64 (S754_finite s m e) (S754_finite false c 0) = S754_finite s (m * c) e).
  { intros c Hc. unfold mul64. cbn [SFmul]. rewrite xorb_false_r, Z.add_0_r.
    apply binary_round_aux_exact; [|lia].
    rewrite Pos2Z.inj_mul.
    assert (Zpos m * Zpos c < 2 ^ 24 * 2 ^ 16) by nia.
    change (2 ^ 24 * 2 ^ 16) with (2 ^ 40) in *.
    assert (2 ^ 40 < 2 ^ 53) by reflexivity. lia. }
  unfold f_0x8000, f_0x7fff, f_zero, SFltb. subst k.
  destruct s; cbn [SFcompare]; rewrite Hmul by reflexivity; cbn [ToInt16 cond_Zopp] in *;
    apply wrap_int16_id; lia.
Qed.




(** ** WAV header builder *)

Lemma createSTTWavHeader_bytes (dataLength : Z) :
  createSTTWavHeader dataLength = Ret (stt_header dataLength).
Proof. reflexivity. Qed.

Lemma stt_header_length (dataLength : Z) : length (stt_header dataLength) = 44%nat.
Proof. reflexivity. Qed.

Lemma tts_header_length (wavDataSize audioSampleRate : Z) :
  length (tts_header wavDataSize audioSampleRate) = 44%nat.
Proof. reflexivity. Qed.

Lemma u32_recombine (v : Z) :
  v mod 256 + 256 * ((v / 256) mod 256) + 65536 * ((v / 65536) mod 256)
  + 16777216 * (v / 16777216) = v.
Proof.
  replace (v / 65536) with (v / 256 / 256) by (rewrite Z.div_div by lia; reflexivity).
  replace (v / 16777216) with (v / 256 / 256 / 256)
    by (rewrite !Z.div_div by lia; reflexivity).
  pose proof (Z.div_mod v 256). pose proof (Z.div_mod (v / 256) 256).
  pose proof (Z.div_mod (v / 256 / 256) 256). lia.
Qed.

Lemma read_u32_le_app (pre post : list Z) (value : Z) :
  read_u32_le (pre ++ u32_bytes_le value ++ post) (length pre) = Some (ToUint32 value).
Proof.
  unfold read_u32_le. rewrite drop_app_length. cbn [u32_bytes_le app].
  f_equal. apply u32_recombine.
Qed.

Lemma ToUint32_small (v : Z) : 0 <= v < 4294967296 -> ToUint32 v = v.
Proof. intros H. unfold ToUint32. apply Z.mod_small. exact H. Qed.

(** The size fields of both headers hold their arguments modulo 2^32. *)
Lemma stt_header_fields (dataLength : Z) (data : list Z) :
  read_u32_le (stt_header dataLength ++ data) 4 = Some (ToUint32 (36 + dataLength))
  /\ read_u32_le (stt_header dataLength ++ data) 40 = Some (ToUint32 dataLength).
Proof.
  unfold stt_header. split.
  - rewrite <- !app_assoc. apply (read_u32_le_app [82; 73; 70; 70]).
  - rewrite <- !app_assoc, !app_assoc, <- (app_assoc _ (u32_bytes_le dataLength) data).
    match goal with |- read_u32_le (?pre ++ _ ++ _) _ = _ =>
      exact (read_u32_le_app pre data dataLength) end.
Qed.

Lemma tts_header_fields (wavDataSize audioSampleRate : Z) (data : list Z) :
  read_u32_le (tts_header wavDataSize audioSampleRate ++ data) 4
  = Some (ToUint32 (36 + wavDataSize))
  /\ read_u32_le (tts_header wavDataSize audioSampleRate ++ data) 40
     = Some (ToUint32 wavDataSize).
Proof.
  unfold tts_header. split.
  - rewrite <- !app_assoc. apply (read_u32_le_app [82; 73; 70; 70]).
  - rewrite <- !app_assoc, !app_assoc, <- (app_assoc _ (u32_bytes_le wavDataSize) data).
    match goal with |- read_u32_le (?pre ++ _ ++ _) _ = _ =>
      exact (read_u32_le_app pre data wavDataSize) end.
Qed.

(** ** WAV encoder *)

Lemma copy_audio_data_app (header done rest data : list Z) :
  length header = 44%nat -> length rest = length data ->
  copy_audio_data (header ++ done ++ rest) (length done) data = header ++ done ++ data.
Proof.
  intros Hh. revert done rest.
  induction data as [|b data IH]; intros done rest Hlen.
  - destruct rest; [reflexivity | discriminate].
  - destruct rest as [|r rest]; [discriminate|]. cbn [copy_audio_data].
    replace (<[(44 + length done)%nat := b]> (header ++ done ++ r :: rest))
      with (header ++ (done ++ [b]) ++ rest).
    + replace (S (length done)) with (length (done ++ [b]))
        by (rewrite length_app; cbn; lia).
      rewrite IH by (cbn in Hlen; lia). rewrite <- app_assoc. reflexivity.
    + rewrite <- Hh, insert_app_r, insert_app_r_alt by lia.
      rewrite Nat.sub_diag. cbn. rewrite <- app_assoc. reflexivity.
Qed.

Lemma Uint8Array_of_int16_length (samples : list Z) :
  length (Uint8Array_of_int16 samples) = (length samples * 2)%nat.
Proof.
  unfold Uint8Array_of_int16. induction samples as [|v samples IH]; [reflexivity|].
  cbn [map concat]. rewrite length_app, IH. cbn. lia.
Qed.

Lemma tts_header_stores_eq (tail : list Z) (wavDataSize audioSampleRate : Z) :
  tts_header_stores (replicate 44 0 ++ tail) wavDataSize audioSampleRate
  = Ret (tts_header wavDataSize audioSampleRate ++ tail).
Proof. reflexivity. Qed.

Lemma encodeWav_bytes (int16Samples : list Z) (audioSampleRate : Z) :
  encodeWav int16Samples audioSampleRate =
  Ret (tts_header (Z.of_nat (length int16Samples * 2)) audioSampleRate
       ++ Uint8Array_of_int16 int16Samples).
Proof.
  pose proof (Uint8Array_of_int16_length int16Samples) as Hlen.
  pose proof (tts_header_stores_eq (replicate (length int16Samples * 2) 0)
                (Z.of_nat (length int16Samples * 2)) audioSampleRate) as Hh.
  unfold encodeWav.
  change (replicate (44 + length int16Samples * 2) 0)
    with (replicate 44 0 ++ replicate (length int16Samples * 2) 0).
  match goal with
  | |- ?lhs = _ =>
      change lhs with
        (v ← tts_header_stores (replicate 44 0 ++ replicate (length int16Samples * 2) 0)
               (Z.of_nat (length int16Samples * 2)) audioSampleRate;
         Ret (copy_audio_data v 0 (Uint8Array_of_int16 int16Samples)))
  end.
  rewrite Hh. cbn [mbind completion_bind cbind]. f_equal.
  apply (copy_audio_data_app _ [] _ _ (tts_header_length _ _)).
  rewrite length_replicate. symmetry. exact Hlen.
Qed.

Lemma typed_set_app (pre mid post source : list Z) :
  length mid = length source ->
  typed_set (pre ++ mid ++ post) source (length pre) = Ret (pre ++ source ++ post).
Proof.
  intros Hlen. unfold typed_set.
  destruct (Nat.leb_spec (length pre + length source) (length (pre ++ mid ++ post)))
    as [_|Hlt].
  - rewrite take_app_length. rewrite <- Hlen.
    rewrite drop_app_ge, drop_app_ge by lia.
    replace (length pre + length mid - length pre - length mid)%nat with 0%nat by lia.
    reflexivity.
  - rewrite !length_app in Hlt. lia.
Qed.

Lemma wav_of_pcm_bytes (pcmData : list Z) :
  wav_of_pcm pcmData = Ret (stt_header (Z.of_nat (length pcmData)) ++ pcmData).
Proof.
  unfold wav_of_pcm. rewrite createSTTWavHeader_bytes.
  cbn [mbind completion_bind cbind].
  pose proof (stt_header_length (Z.of_nat (length pcmData))) as Hh.
  set (header := stt_header _) in *. clearbody header.
  rewrite replicate_add.
  pose proof (typed_set_app [] (replicate (length header) 0)
                (replicate (length pcmData) 0) header (length_replicate _ _)) as H0.
  cbn [app length] in H0. rewrite H0. cbn [cbind].
  pose proof (typed_set_app header (replicate (length pcmData) 0) [] pcmData
                (length_replicate _ _)) as H1.
  rewrite !app_nil_r in H1. exact H1.
Qed.

Lemma int16_bytes_roundtrip (v : Z) :
  is_int16 v ->
  wrap_int16 (v mod 256 + 256 * ((v / 256) mod 256)) = v.
Proof.
  unfold is_int16, wrap_int16. intros H.
  Z.to_euclidean_division_equations. lia.
Qed.

Lemma int16s_of_bytes_roundtrip (samples : list Z) :
  Forall is_int16 samples ->
  int16s_of_bytes_le (Uint8Array_of_int16 samples) = samples.
Proof.
  unfold Uint8Array_of_int16.
  induction 1 as [|v samples Hv _ IH]; [reflexivity|].
  cbn [map concat int16_bytes_le app int16s_of_bytes_le].
  rewrite int16_bytes_roundtrip by exact Hv. f_equal. exact IH.
Qed.

(** C2, as stated, fails at the top of the 32 bit range: for
    [N = 4294967295] the stored ChunkSize is [(36 + N) mod 2^32 = 35]. *)
Lemma header_chunk_size_wraps :
  ~ (forall N : Z, 0 <= N < 4294967296 ->
       exists header,
         createSTTWavHeader N = Ret header
         /\ read_u32_le header 4 = Some (36 + N)).
Proof.
  intros H. destruct (H 4294967295 ltac:(lia)) as (header & Hh & Hr).
  rewrite createSTTWavHeader_bytes in Hh. injection Hh as <-.
  vm_compute in Hr. discriminate Hr.
Qed.

(** C2, amended.  For every data byte length [N >= 0] with [36 + N] below
    2^32: [createSTTWavHeader N] is 44 bytes long, its ChunkSize field is
    [36 + N] and its Subchunk2Size field is [N]; the recording of [pcmData]
    is that header followed by the data, [44 + length pcmData] bytes; and
    for every sample rate the WAV bytes of [createWavFile] are
    [44 + 2 * length int16Samples] bytes long, with the same two fields for
    the data length [2 * length int16Samples]. *)
Theorem wav_header_sizes (N : Z) (pcmData int16Samples : list Z) (audioSampleRate : Z) :
  0 <= N -> 36 + N < 4294967296 ->
  36 + Z.of_nat (length int16Samples * 2) < 4294967296 ->
  (exists header,
      createSTTWavHeader N = Ret header
      /\ length header = 44%nat
      /\ read_u32_le header 4 = Some (36 + N)
      /\ read_u32_le header 40 = Some N)
  /\ (exists header,
         createSTTWavHeader (Z.of_nat (length pcmData)) = Ret header
         /\ wav_of_pcm pcmData = Ret (header ++ pcmData)
         /\ length (header ++ pcmData) = (44 + length pcmData)%nat)
  /\ (exists wav,
         encodeWav int16Samples audioSampleRate = Ret wav
         /\ length wav = (44 + length int16Samples * 2)%nat
         /\ read_u32_le wav 4 = Some (36 + Z.of_nat (length int16Samples * 2))
         /\ read_u32_le wav 40 = Some (Z.of_nat (length int16Samples * 2))).
Proof.
  intros HN HN32 HM32. split; [|split].
  - exists (stt_header N). split; [apply createSTTWavHeader_bytes|].
    split; [apply stt_header_length|].
    destruct (stt_header_fields N []) as [H4 H40]. rewrite app_nil_r in H4, H40.
    rewrite H4, H40, !ToUint32_small by lia. split; reflexivity.
  - exists (stt_header (Z.of_nat (length pcmData))).
    split; [apply createSTTWavHeader_bytes|]. split; [apply wav_of_pcm_bytes|].
    rewrite length_app, stt_header_length. reflexivity.
  - eexists. split; [apply encodeWav_bytes|].
    split.
    + rewrite length_app, tts_header_length, Uint8Array_of_int16_length. reflexivity.
    + destruct (tts_header_fields (Z.of_nat (length int16Samples * 2)) audioSampleRate
                  (Uint8Array_of_int16 int16Samples)) as [H4 H40].
      rewrite H4, H40, !ToUint32_small by lia. split; reflexivity.
Qed.

Lemma wav_header_sizes_witness :
  exists header,
    createSTTWavHeader 12288 = Ret header
    /\ length header = 44%nat
    /\ read_u32_le header 4 = Some (36 + 12288)
    /\ read_u32_le header 40 = Some 12288.
Proof.
  exact (proj1 (wav_header_sizes 12288 [0; 0] [1; -2] 22050
                  ltac:(lia) ltac:(lia) ltac:(cbn; lia))).
Defined.

(** The scenario of three 4096 byte chunks of silence. *)
Example three_silent_chunks :
  let pcmData := replicate (Z.to_nat 12288) 0 in
  wav_of_pcm pcmData = Ret (stt_header 12288 ++ pcmData)
  /\ Z.of_nat (length (stt_header 12288 ++ pcmData)) = 12332
  /\ read_u32_le (stt_header 12288) 40 = Some 12288.
Proof.
  intros pcmData. split; [|split].
  - rewrite wav_of_pcm_bytes. unfold pcmData.
    rewrite length_replicate, Z2Nat.id by lia. reflexivity.
  - rewrite length_app, stt_header_length. unfold pcmData.
    rewrite length_replicate. lia.
  - reflexivity.
Qed.

(** C3. Round trip: for every sequence of int16 samples and every sample
    rate, the bytes of [encodeWav] from offset 44 on, read as little-endian
    int16 values, are the samples; and in a recording the bytes from offset
    44 on are the PCM data, so PCM data that holds int16 samples reads back
    as those samples. *)
Theorem wav_data_roundtrip (int16Samples pcmData : list Z) (audioSampleRate : Z) :
  Forall is_int16 int16Samples ->
  (exists wav,
      encodeWav int16Samples audioSampleRate = Ret wav
      /\ int16s_of_bytes_le (drop 44 wav) = int16Samples)
  /\ (exists wav, wav_of_pcm pcmData = Ret wav /\ drop 44 wav = pcmData)
  /\ (exists wav,
         wav_of_pcm (Uint8Array_of_int16 int16Samples) = Ret wav
         /\ int16s_of_bytes_le (drop 44 wav) = int16Samples).
Proof.
  intros Hs. split; [|split].
  - eexists. split; [apply encodeWav_bytes|].
    rewrite <- (tts_header_length (Z.of_nat (length int16Samples * 2)) audioSampleRate)
      at 1.
    rewrite drop_app_length. apply int16s_of_bytes_roundtrip, Hs.
  - eexists. split; [apply wav_of_pcm_bytes|].
    rewrite <- (stt_header_length (Z.of_nat (length pcmData))) at 1.
    apply drop_app_length.
  - eexists. split; [apply wav_of_pcm_bytes|].
    rewrite <- (stt_header_length (Z.of_nat (length (Uint8Array_of_int16 int16Samples))))
      at 1.
    rewrite drop_app_length. apply int16s_of_bytes_roundtrip, Hs.
Qed.

Lemma wav_data_roundtrip_witness :
  exists wav,
    encodeWav [0; 1; -1; 32767; -32768] 22050 = Ret wav
    /\ int16s_of_bytes_le (drop 44 wav) = [0; 1; -1; 32767; -32768].
Proof.
  refine (proj1 (wav_data_roundtrip [0; 1; -1; 32767; -32768] [] 22050 _)).
  repeat constructor; unfold is_int16; lia.
Defined.

Example roundtrip_empty :
  encodeWav [] 16000 = Ret (tts_header 0 16000)
  /\ int16s_of_bytes_le (drop 44 (tts_header 0 16000)) = [].
Proof. split; reflexivity. Qed.

Example roundtrip_single :
  (wav ← encodeWav [-12345] 16000; Ret (int16s_of_bytes_le (drop 44 wav)))
  = Ret [-12345].
Proof. reflexivity. Qed.

(** ** Chunk accumulator *)

Lemma total_length_concat (decodedChunks : list (list Z)) :
  total_length decodedChunks = length (concat decodedChunks).
Proof.
  unfold total_length.
  assert (H : forall acc, foldl (fun t (d : list Z) => (t + length d)%nat) acc decodedChunks
                          = (acc + length (concat decodedChunks))%nat).
  { induction decodedChunks as [|d ds IH]; intros acc; cbn [foldl concat].
    - cbn. lia.
    - rewrite IH, length_app. lia. }
  apply (H 0%nat).
Qed.

Lemma set_chunks_concat (decodedChunks : list (list Z)) (done rest : list Z) :
  length rest = length (concat decodedChunks) ->
  set_chunks (done ++ rest) (length done) decodedChunks
  = Ret (done ++ concat decodedChunks).
Proof.
  revert done rest.
  induction decodedChunks as [|d ds IH]; intros done rest Hlen; cbn [set_chunks concat].
  - destruct rest; [reflexivity|discriminate].
  - cbn [concat] in Hlen. rewrite length_app in Hlen.
    rewrite <- (take_drop (length d) rest).
    rewrite typed_set_app by (rewrite length_take; lia).
    cbn [mbind completion_bind cbind].
    replace (length done + length d)%nat with (length (done ++ d))
      by (rewrite length_app; reflexivity).
    rewrite (app_assoc done d), IH by (rewrite length_drop; lia).
    rewrite <- app_assoc. reflexivity.
Qed.

Lemma decode_chunks_Forall2 (atob : string -> completion string)
      (chunks decoded : list string) :
  Forall2 (fun c d => atob c = Ret d) chunks decoded ->
  decode_chunks atob chunks = Ret (map bytes_of_binary_string decoded).
Proof.
  induction 1 as [|c d chunks decoded Hc _ IH]; [reflexivity|].
  cbn [decode_chunks map]. rewrite Hc. cbn [mbind completion_bind cbind].
  rewrite IH. reflexivity.
Qed.

Lemma combine_chunks_concat (atob : string -> completion string)
      (chunks decoded : list string) :
  Forall2 (fun c d => atob c = Ret d) chunks decoded ->
  combine_chunks atob chunks = Ret (concat (map bytes_of_binary_string decoded)).
Proof.
  intros H. unfold combine_chunks. rewrite (decode_chunks_Forall2 _ _ _ H).
  cbn [mbind completion_bind cbind].
  apply (set_chunks_concat _ []). rewrite length_replicate. apply total_length_concat.
Qed.

Lemma deliver_chunks (chunks : list string) (w : World) :
  audioChunksRef (deliver chunks w) = audioChunksRef w ++ chunks.
Proof.
  unfold deliver. revert w.
  induction chunks as [|c chunks IH]; intros w; cbn [foldl].
  - rewrite app_nil_r. reflexivity.
  - rewrite IH. cbn. rewrite <- app_assoc. reflexivity.
Qed.

(** C4. In a recording session on Android (start, then delivery of
    [chunks] to the listener) the buffer holds the chunks in arrival order,
    and the PCM data computed at stop is the concatenation of their
    decodings in that order. *)
Theorem chunks_combined_in_arrival_order
        (env : Env) (w : World) (chunks decoded : list string) :
  is_android env = true -> LiveAudioStream env = true ->
  LiveAudioStream_init env = Ret tt -> LiveAudioStream_start env = Ret tt ->
  Forall2 (fun chunk binary => atob env chunk = Ret binary) chunks decoded ->
  let recording := deliver chunks (snd (handleStartRecording env w)) in
  audioChunksRef recording = chunks
  /\ combine_chunks (atob env) (audioChunksRef recording)
     = Ret (concat (map bytes_of_binary_string decoded)).
Proof.
  intros Ha Hl Hi Hs Hd recording.
  assert (Hc : audioChunksRef recording = chunks).
  { unfold recording. rewrite deliver_chunks.
    unfold handleStartRecording. rewrite Ha, Hl, Hi, Hs. reflexivity. }
  split; [exact Hc|]. rewrite Hc. apply combine_chunks_concat, Hd.
Qed.

Lemma chunks_combined_in_arrival_order_witness :
  let recording :=
    deliver ["AAA="; "BBB="] (snd (handleStartRecording android_env initial_world)) in
  audioChunksRef recording = ["AAA="; "BBB="]
  /\ combine_chunks atob_base64 (audioChunksRef recording)
     = Ret (concat (map bytes_of_binary_string
                        [string_of_chunk [0; 0]; string_of_chunk [4; 16]])).
Proof.
  apply (chunks_combined_in_arrival_order android_env initial_world
           ["AAA="; "BBB="] [string_of_chunk [0; 0]; string_of_chunk [4; 16]]);
    try reflexivity.
  repeat constructor.
Defined.

Example chunks_AAA_BBB :
  combine_chunks atob_base64 ["AAA="; "BBB="] = Ret ([0; 0] ++ [4; 16])
  /\ combine_chunks atob_base64 ["BBB="; "AAA="] = Ret ([4; 16] ++ [0; 0]).
Proof. split; reflexivity. Qed.

(** ** Running the handlers *)

Ltac io_step :=
  cbv [mbind mret io_bind io_ret call log lift update read try_catch try_finally
       setError setIsLoading setIsRecording setTranscript setRecordingRef
       with_audioChunks with_isLoading add_effect];
  cbn [audioChunksRef recordingRef effects isRecording isLoading error transcript].

Ltac world_fields :=
  cbn [after_transcription audioChunksRef recordingRef effects isRecording
       isLoading error transcript].

(** Case analysis on every outcome the goal branches on, innermost
    scrutinee first. *)
Ltac case_outcomes :=
  repeat match goal with
         | |- context [match ?x with _ => _ end] =>
             lazymatch x with
             | context [match _ with _ => _ end] => fail
             | _ => destruct x eqn:?
             end
         | |- context [if ?x then _ else _] =>
             lazymatch x with
             | context [match _ with _ => _ end] => fail
             | _ => destruct x eqn:?
             end
         end.

Lemma new_effects_app (w w' : World) (es : list effect) :
  effects w' = effects w ++ es -> new_effects w w' = es.
Proof. intros H. unfold new_effects. rewrite H. apply drop_app_length. Qed.

Lemma effects_after_transcription (outcome : completion transcription) (w : World) :
  effects (after_transcription outcome w) = effects w.
Proof. destruct outcome; reflexivity. Qed.

Lemma audioChunksRef_after_transcription (outcome : completion transcription) (w : World) :
  audioChunksRef (after_transcription outcome w) = audioChunksRef w.
Proof. destruct outcome; reflexivity. Qed.

Lemma handleStartRecording_android (env : Env) (w : World) :
  is_android env = true -> LiveAudioStream env = true ->
  LiveAudioStream_init env = Ret tt -> LiveAudioStream_start env = Ret tt ->
  handleStartRecording env w =
  (Ret tt,
   {| isRecording := true; isLoading := isLoading w; error := None;
      transcript := TranscriptText EmptyString; audioChunksRef := [];
      recordingRef := recordingRef w;
      effects := effects w ++ [Stream_init; Stream_on_data; Stream_start] |}).
Proof.
  intros Ha Hl Hi Hs. unfold handleStartRecording. rewrite Ha, Hl, Hi, Hs.
  cbn [negb]. io_step. rewrite <- !app_assoc. reflexivity.
Qed.

Lemma handleStopRecording_android_empty (env : Env) (w : World) :
  is_android env = true -> LiveAudioStream env = true ->
  LiveAudioStream_stop env = Ret tt ->
  audioChunksRef w = [] ->
  handleStopRecording env w =
  (Ret tt,
   {| isRecording := false; isLoading := false; error := Some "No audio recorded";
      transcript := transcript w; audioChunksRef := [];
      recordingRef := recordingRef w;
      effects := effects w ++ [Stream_stop] |}).
Proof.
  intros Ha Hl Hs Hc. unfold handleStopRecording, stop_android. rewrite Ha, Hl, Hs.
  cbn [andb]. io_step. rewrite Hc. cbn [length Nat.eqb]. io_step. reflexivity.
Qed.

Lemma handleStopRecording_android_written (env : Env) (w : World)
      (fs : FileSystemModule) (pcmData : list Z) :
  is_android env = true -> LiveAudioStream env = true ->
  LiveAudioStream_stop env = Ret tt ->
  audioChunksRef w <> [] ->
  combine_chunks (atob env) (audioChunksRef w) = Ret pcmData ->
  FileSystem env = Some fs ->
  let wavData := stt_header (Z.of_nat (length pcmData)) ++ pcmData in
  let wavBase64 := btoa env (binary_string_by_chunks chunkSize wavData) in
  let writeUri := stt_path fs (Date_now env) in
  let cleanPath := strip_file_scheme (strip_file_scheme writeUri) in
  writeAsStringAsync fs writeUri wavBase64 = Ret tt ->
  handleStopRecording env w =
  (Ret tt,
   after_transcription (transcribeFile env cleanPath)
     {| isRecording := false; isLoading := false; error := error w;
        transcript := transcript w; audioChunksRef := [];
        recordingRef := recordingRef w;
        effects := effects w ++ [Stream_stop; Fs_write writeUri wavBase64;
                                 Sdk_transcribeFile cleanPath] |}).
Proof.
  intros Ha Hl Hs Hne Hc Hfs wavData wavBase64 writeUri cleanPath Hw.
  unfold handleStopRecording, stop_android. rewrite Ha, Hl, Hs, Hfs.
  cbn [andb]. io_step.
  destruct (audioChunksRef w) as [|c cs] eqn:E; [contradiction|].
  cbn [length Nat.eqb]. io_step. rewrite Hc, wav_of_pcm_bytes.
  fold wavData. fold wavBase64. unfold stt_path in writeUri. fold writeUri.
  rewrite Hw. fold cleanPath.
  destruct (transcribeFile env cleanPath) as [result|message];
    world_fields; rewrite <- !app_assoc; reflexivity.
Qed.

Lemma handleStopRecording_recorder (env : Env) (w : World)
      (recording : Recording) (uri : string) :
  is_android env && LiveAudioStream env = false ->
  recordingRef w = Some recording ->
  stopAndUnloadAsync recording = Ret tt ->
  getURI recording = Some uri -> uri <> EmptyString ->
  let cleanPath := strip_file_scheme (strip_file_scheme uri) in
  handleStopRecording env w =
  (Ret tt,
   after_transcription (transcribeFile env cleanPath)
     {| isRecording := false; isLoading := false; error := error w;
        transcript := transcript w; audioChunksRef := audioChunksRef w;
        recordingRef := None;
        effects := effects w ++ [Recording_stopAndUnload;
                                 Sdk_transcribeFile cleanPath] |}).
Proof.
  intros Hb Hr Hs Hu Hne cleanPath.
  unfold handleStopRecording, stop_recorder. rewrite Hb. io_step.
  rewrite Hr, Hs, Hu. cbn [falsy].
  destruct (String.eqb_spec uri EmptyString) as [|_]; [contradiction|].
  io_step. cbn [or_empty]. fold cleanPath.
  destruct (transcribeFile env cleanPath) as [result|message];
    world_fields; rewrite <- !app_assoc; reflexivity.
Qed.

Lemma createWavFile_run (env : Env) (audioBase64 : string) (audioSampleRate : Z)
      (w : World) :
  createWavFile env audioBase64 audioSampleRate w =
  match FileSystem env with
  | None => (Ret None, w)
  | Some fs =>
      match wav_payload (atob env) audioBase64 audioSampleRate with
      | Throw _ => (Ret None, w)
      | Ret wavBytes =>
          let wavBase64 := btoa env (binary_string_by_chunks chunkSize wavBytes) in
          let filePath := tts_path fs (Date_now env) in
          (Ret (match writeAsStringAsync fs filePath wavBase64 with
                | Ret _ => Some filePath
                | Throw _ => None
                end),
           add_effect (Fs_write filePath wavBase64) w)
      end
  end.
Proof.
  unfold createWavFile, wav_payload, tts_path.
  destruct (FileSystem env) as [fs|]; [|reflexivity].
  cbv [mbind mret io_bind io_ret completion_bind cbind call log lift update try_catch].
  destruct (atob env audioBase64) as [binaryString|m]; [|reflexivity].
  destruct (Float32Array_of_buffer _) as [floatView|m]; [|reflexivity].
  destruct (encodeWav _ _) as [wavBytes|m]; [|reflexivity].
  destruct (writeAsStringAsync _ _ _); reflexivity.
Qed.

(** ** The file scheme prefix *)

Lemma substring_all (s : string) : String.substring 0 (String.length s) s = s.
Proof. induction s as [|c s IH]; [reflexivity|]. cbn. rewrite IH. reflexivity. Qed.

Lemma strip_file_scheme_prefixed (p : string) :
  strip_file_scheme ("file://" +:+ p) = p.
Proof.
  destruct p as [|c p]; [reflexivity|]. exact (substring_all (String c p)).
Qed.

Lemma strip_file_scheme_other (s : string) :
  String.prefix "file://" s = false -> strip_file_scheme s = s.
Proof. intros H. unfold strip_file_scheme. rewrite H. reflexivity. Qed.

(** ** The binary string of a byte array *)

Lemma string_of_list_ascii_app (l1 l2 : list ascii) :
  string_of_list_ascii (l1 ++ l2) = string_of_list_ascii l1 +:+ string_of_list_ascii l2.
Proof. induction l1 as [|c l1 IH]; [reflexivity|]. cbn. rewrite IH. reflexivity. Qed.

Lemma string_of_chunk_app (b1 b2 : list Z) :
  string_of_chunk (b1 ++ b2) = string_of_chunk b1 +:+ string_of_chunk b2.
Proof. unfold string_of_chunk. rewrite map_app. apply string_of_list_ascii_app. Qed.

Lemma subarray_take (bytes : list Z) (i size : nat) :
  subarray bytes i (Nat.min (i + size) (length bytes)) = take size (drop i bytes).
Proof.
  unfold subarray.
  destruct (Nat.le_ge_cases (i + size) (length bytes)) as [Hle|Hge].
  - rewrite Nat.min_l by exact Hle. f_equal. lia.
  - rewrite Nat.min_r by exact Hge.
    rewrite !take_ge; [reflexivity | rewrite length_drop; lia | rewrite length_drop; lia].
Qed.

Lemma append_empty_r (s : string) : s +:+ EmptyString = s.
Proof.
  induction s as [|c s IH]; [reflexivity|].
  change (String c (s +:+ EmptyString) = String c s). f_equal. exact IH.
Qed.

Lemma append_associative (s1 s2 s3 : string) :
  (s1 +:+ s2) +:+ s3 = s1 +:+ (s2 +:+ s3).
Proof.
  induction s1 as [|c s1 IH]; [reflexivity|].
  change (String c ((s1 +:+ s2) +:+ s3) = String c (s1 +:+ (s2 +:+ s3))).
  f_equal. exact IH.
Qed.

Lemma chunks_prefix (size : nat) (bytes : list Z) (acc : string) (n : nat) :
  foldl (fun acc k =>
           let i := (k * size)%nat in
           acc +:+ string_of_chunk (subarray bytes i (Nat.min (i + size) (length bytes))))
        acc (seq 0 n)
  = acc +:+ string_of_chunk (take (n * size) bytes).
Proof.
  induction n as [|n IH].
  - cbn [seq foldl]. change (take (0 * size) bytes) with (@nil Z).
    symmetry. apply append_empty_r.
  - rewrite seq_S, foldl_app, IH. cbn [foldl Nat.add].
    cbv zeta. rewrite subarray_take.
    replace (S n * size)%nat with (n * size + size)%nat by lia.
    rewrite <- take_take_drop, string_of_chunk_app.
    apply append_associative.
Qed.

Lemma chunk_count_covers (len size : nat) :
  (0 < size)%nat -> (len <= chunk_count len size * size)%nat.
Proof.
  intros Hs. unfold chunk_count.
  pose proof (Nat.div_mod (len + size - 1) size ltac:(lia)) as Hdm.
  pose proof (Nat.mod_upper_bound (len + size - 1) size ltac:(lia)) as Hm.
  nia.
Qed.

(** The chunked loop builds the binary string of the whole array. *)
Lemma binary_string_by_chunks_whole (size : nat) (bytes : list Z) :
  (0 < size)%nat -> binary_string_by_chunks size bytes = string_of_chunk bytes.
Proof.
  intros Hs. unfold binary_string_by_chunks. rewrite chunks_prefix.
  rewrite take_ge by (apply chunk_count_covers, Hs). reflexivity.
Qed.

Lemma chunkSize_positive : (0 < chunkSize)%nat.
Proof. unfold chunkSize. lia. Qed.

(** ** Capture session *)

(** C5, as stated, fails: after a finish the listener still accepts a
    chunk.  No error is reported and the chunk is stored; the second finish
    reports the message of an empty recording. *)
Lemma push_after_finish_accepted :
  let finished := snd (handleStopRecording android_env (recording_world ["AAA="])) in
  audioChunksRef finished = []
  /\ error finished = None
  /\ error (onData "BBB=" finished) = None
  /\ audioChunksRef (onData "BBB=" finished) = ["BBB="]
  /\ error (snd (handleStopRecording android_env finished)) = Some "No audio recorded".
Proof. vm_compute. repeat split; reflexivity. Qed.

(** C5, amended.  On Android, stopping a recording whose chunks all decode
    writes the WAV file of the concatenated decodings and empties the chunk
    buffer; a second stop right after reports "No audio recorded" and calls
    nothing but the stream's stop; a chunk delivered after the stop is
    accepted and becomes the first chunk of the buffer, and no error is
    reported for it. *)
Theorem finish_writes_and_clears
        (env : Env) (w : World) (fs : FileSystemModule) (decoded : list string) :
  is_android env = true -> LiveAudioStream env = true ->
  LiveAudioStream_stop env = Ret tt ->
  FileSystem env = Some fs ->
  audioChunksRef w <> [] ->
  Forall2 (fun chunk binary => atob env chunk = Ret binary) (audioChunksRef w) decoded ->
  let pcmData := concat (map bytes_of_binary_string decoded) in
  let wavData := stt_header (Z.of_nat (length pcmData)) ++ pcmData in
  let wavBase64 := btoa env (string_of_chunk wavData) in
  writeAsStringAsync fs (stt_path fs (Date_now env)) wavBase64 = Ret tt ->
  let finished := snd (handleStopRecording env w) in
  In (Fs_write (stt_path fs (Date_now env)) wavBase64) (new_effects w finished)
  /\ audioChunksRef finished = []
  /\ (let again := snd (handleStopRecording env finished) in
      error again = Some "No audio recorded"
      /\ new_effects finished again = [Stream_stop])
  /\ (forall data,
         audioChunksRef (onData data finished) = [data]
         /\ error (onData data finished) = error finished).
Proof.
  intros Ha Hl Hs Hfs Hne Hd pcmData wavData wavBase64 Hw finished.
  pose proof (combine_chunks_concat _ _ _ Hd) as Hc. fold pcmData in Hc.
  unfold wavBase64 in *.
  rewrite <- (binary_string_by_chunks_whole chunkSize wavData chunkSize_positive) in *.
  pose proof (handleStopRecording_android_written env w fs pcmData Ha Hl Hs Hne Hc Hfs Hw)
    as Hrun.
  assert (Hchunks : audioChunksRef finished = []).
  { unfold finished. rewrite Hrun. cbn [snd].
    rewrite audioChunksRef_after_transcription. reflexivity. }
  split; [|split; [exact Hchunks|split]].
  - unfold finished. rewrite Hrun. cbn [snd].
    erewrite new_effects_app
      by (rewrite effects_after_transcription; cbn [effects]; reflexivity).
    right. left. reflexivity.
  - cbv zeta.
    rewrite (handleStopRecording_android_empty env finished Ha Hl Hs Hchunks).
    cbn [snd error]. split; [reflexivity|].
    apply new_effects_app. reflexivity.
  - intros data. unfold onData. cbn [with_audioChunks audioChunksRef error].
    rewrite Hchunks. split; reflexivity.
Qed.

Lemma finish_writes_and_clears_witness :
  let finished :=
    snd (handleStopRecording android_env (recording_world ["AAA="; "BBB="])) in
  audioChunksRef finished = []
  /\ (forall data, audioChunksRef (onData data finished) = [data]
                   /\ error (onData data finished) = error finished).
Proof.
  intros finished.
  assert (Hd : Forall2 (fun chunk binary => atob android_env chunk = Ret binary)
                 (audioChunksRef (recording_world ["AAA="; "BBB="]))
                 [string_of_chunk [0; 0]; string_of_chunk [4; 16]])
    by (repeat constructor).
  destruct (finish_writes_and_clears android_env (recording_world ["AAA="; "BBB="])
              cache_fs [string_of_chunk [0; 0]; string_of_chunk [4; 16]]
              eq_refl eq_refl eq_refl eq_refl ltac:(discriminate) Hd eq_refl)
    as (_ & Hc & _ & Hp).
  split; [exact Hc | exact Hp].
Defined.

(** C6, as stated, fails: [handleStartRecording] called while a recording
    is running does not fail; it restarts the stream and drops the chunks
    received so far. *)
Lemma start_while_recording_restarts :
  handleStartRecording android_env (recording_world ["AAA="]) =
  (Ret tt,
   {| isRecording := true; isLoading := false; error := None;
      transcript := TranscriptText EmptyString; audioChunksRef := [];
      recordingRef := None;
      effects := [Stream_init; Stream_on_data; Stream_start] |}).
Proof. reflexivity. Qed.

Lemma session_step_other (env : Env) (open : nat) (es : list effect) :
  forallb (fun e => negb (is_stream_switch e)) es = true ->
  foldl (session_step env) open es = open.
Proof.
  revert open. induction es as [|e es IH]; intros open H; [reflexivity|].
  cbn [forallb] in H. apply andb_true_iff in H as [He Hes].
  cbn [foldl]. rewrite IH by exact Hes. destruct e; try reflexivity; discriminate He.
Qed.

(** A stop on the stream path: the stream's stop is the first call, and
    no other call of the stop concerns the stream. *)
Lemma handleStopRecording_stream_calls (env : Env) (w : World) :
  is_android env = true -> LiveAudioStream env = true ->
  exists w' es,
    handleStopRecording env w = (Ret tt, w')
    /\ isRecording w' = false
    /\ effects w' = effects w ++ Stream_stop :: es
    /\ forallb (fun e => negb (is_stream_switch e)) es = true.
Proof.
  intros Ha Hl. unfold handleStopRecording, stop_android. rewrite Ha, Hl. cbn [andb].
  io_step.
  case_outcomes; io_step; eexists _, _; (split; [reflexivity|]);
    cbn [isRecording effects]; (split; [reflexivity|]);
    rewrite <- ?app_assoc; (split; [reflexivity|]); reflexivity.
Qed.

(** A start on the stream path: the calls it makes, by the outcomes of
    the stream's init and start. *)
Lemma handleStartRecording_stream_calls (env : Env) (w : World) :
  is_android env = true -> LiveAudioStream env = true ->
  exists w' es,
    handleStartRecording env w = (Ret tt, w')
    /\ effects w' = effects w ++ es
    /\ ((es = [Stream_init] /\ isRecording w' = isRecording w)
        \/ (es = [Stream_init; Stream_on_data; Stream_start]
            /\ isRecording w'
               = (if returns (LiveAudioStream_start env) then true else isRecording w))).
Proof.
  intros Ha Hl. unfold handleStartRecording. rewrite Ha, Hl. cbn [negb]. io_step.
  destruct (LiveAudioStream_init env) as [[]|m]; io_step.
  - destruct (LiveAudioStream_start env) as [[]|m]; io_step;
      eexists _, _; (split; [reflexivity|]); cbn [isRecording effects returns];
      rewrite <- ?app_assoc; (split; [reflexivity|]); right; split; reflexivity.
  - eexists _, _. split; [reflexivity|]. cbn [isRecording effects].
    split; [reflexivity|]. left. split; reflexivity.
Qed.

Lemma prefix_sessions_app (env : Env) (log es : list effect) :
  (forall k, (open_sessions env (take k log) <= 1)%nat) ->
  (forall j, (foldl (session_step env) (open_sessions env log) (take j es) <= 1)%nat) ->
  forall k, (open_sessions env (take k (log ++ es)) <= 1)%nat.
Proof.
  intros Hlog Hes k. rewrite take_app. unfold open_sessions. rewrite foldl_app.
  destruct (Nat.le_gt_cases k (length log)) as [Hk|Hk].
  - replace (k - length log)%nat with 0%nat by lia. cbn [take foldl]. apply Hlog.
  - rewrite take_ge by lia. apply Hes.
Qed.

Lemma mic_run_sessions (env : Env) (w : World) (events : list mic_event) :
  is_android env = true -> LiveAudioStream env = true ->
  LiveAudioStream_stop env = Ret tt ->
  isRecording w = false ->
  let w' := mic_run env events w in
  exists log,
    effects w' = effects w ++ log
    /\ (forall k, (open_sessions env (take k log) <= 1)%nat)
    /\ open_sessions env log = (if isRecording w' then 1 else 0)%nat.
Proof.
  intros Ha Hl Hstop Hr. cbv zeta.
  induction events as [|ev events IH] using rev_ind.
  - exists []. cbn [mic_run foldl]. rewrite app_nil_r, Hr.
    split; [reflexivity|]. split; [|reflexivity]. intros k. destruct k; cbn; lia.
  - destruct IH as (log & Hlog & Hprefix & Hopen).
    unfold mic_run in *. rewrite foldl_app. cbn [foldl].
    set (wn := foldl (mic_step env) w events) in *. clearbody wn.
    destruct ev as [|data]; cbn [mic_step].
    + unfold micButton_onPress. destruct (isRecording wn) eqn:Hrec.
      * destruct (handleStopRecording_stream_calls env wn Ha Hl)
          as (w' & es & -> & Hr' & He & Hes).
        cbn [snd]. exists (log ++ Stream_stop :: es).
        rewrite He, Hlog, <- app_assoc. split; [reflexivity|].
        assert (Hstep : session_step env 1 Stream_stop = 0%nat)
          by (cbn [session_step]; rewrite Hstop; reflexivity).
        split.
        -- apply prefix_sessions_app; [exact Hprefix|]. rewrite Hopen.
           intros [|j]; cbn [take foldl]; [lia|].
           rewrite Hstep, session_step_other; [lia|].
           clear - Hes. revert j. induction es as [|e es IH]; intros j;
             [destruct j; reflexivity|].
           cbn [forallb] in Hes. apply andb_true_iff in Hes as [He Hes].
           destruct j; [reflexivity|]. cbn [take forallb]. rewrite He. apply IH, Hes.
        -- unfold open_sessions in *. rewrite foldl_app, Hopen. cbn [foldl].
           rewrite Hstep, session_step_other by exact Hes. rewrite Hr'. reflexivity.
      * destruct (handleStartRecording_stream_calls env wn Ha Hl)
          as (w' & es & -> & He & Hcases).
        cbn [snd]. exists (log ++ es). rewrite He, Hlog, <- app_assoc.
        split; [reflexivity|].
        destruct Hcases as [[-> Hr']|[-> Hr']]; rewrite Hr', ?Hrec.
        -- split.
           ++ apply prefix_sessions_app; [exact Hprefix|]. rewrite Hopen.
              intros [|[|j]]; cbn; lia.
           ++ unfold open_sessions in *. rewrite foldl_app, Hopen. reflexivity.
        -- split.
           ++ apply prefix_sessions_app; [exact Hprefix|]. rewrite Hopen.
              intros [|[|[|[|j]]]]; cbn; destruct (returns (LiveAudioStream_start env)); lia.
           ++ unfold open_sessions in *. rewrite foldl_app, Hopen. cbn.
              destruct (returns (LiveAudioStream_start env)); reflexivity.
    + exists log. unfold onData. cbn [with_audioChunks effects isRecording].
      split; [exact Hlog|]. split; [exact Hprefix | exact Hopen].
Qed.

Lemma handleStopRecording_stream_busy (env : Env) (w : World) (message : string) :
  is_android env = true -> LiveAudioStream env = true ->
  LiveAudioStream_stop env = Throw message ->
  handleStopRecording env w =
  (Ret tt,
   {| isRecording := false; isLoading := false;
      error := Some ("Transcription failed: " +:+ message);
      transcript := transcript w; audioChunksRef := audioChunksRef w;
      recordingRef := recordingRef w;
      effects := effects w ++ [Stream_stop] |}).
Proof.
  intros Ha Hl Hs. unfold handleStopRecording, stop_android. rewrite Ha, Hl, Hs.
  cbn [andb]. io_step. reflexivity.
Qed.

(** C6, amended.  On the Android stream path the microphone button is the
    only guard against a second capture session.  While a recording is
    running it calls [handleStopRecording], never [handleStartRecording].
    The start handler itself has no guard: called while recording it
    initialises and starts the stream again, empties the chunk buffer,
    reports no error and leaves [isRecording] set.  When the stream's stop
    does not throw, the button keeps the sessions apart: over every
    sequence of presses and delivered chunks, from a screen that is not
    recording, at no point of the call log is more than one session open,
    and after the sequence [isRecording] is set exactly when one is.  When
    the stream's stop throws, [isRecording] is cleared all the same, and
    the third press starts the stream a second time with the first session
    never stopped. *)
Theorem start_guarded_by_button_only (env : Env) :
  is_android env = true -> LiveAudioStream env = true ->
  (forall w, isRecording w = true ->
     micButton_onPress env w = handleStopRecording env w)
  /\ (forall w, isRecording w = true ->
        LiveAudioStream_init env = Ret tt -> LiveAudioStream_start env = Ret tt ->
        exists w',
          handleStartRecording env w = (Ret tt, w')
          /\ isRecording w' = true
          /\ error w' = None
          /\ audioChunksRef w' = []
          /\ new_effects w w' = [Stream_init; Stream_on_data; Stream_start])
  /\ (LiveAudioStream_stop env = Ret tt ->
      forall w events, isRecording w = false ->
        let w' := mic_run env events w in
        (forall k, (open_sessions env (take k (new_effects w w')) <= 1)%nat)
        /\ open_sessions env (new_effects w w') = (if isRecording w' then 1 else 0)%nat)
  /\ (forall message w,
        LiveAudioStream_stop env = Throw message ->
        LiveAudioStream_init env = Ret tt -> LiveAudioStream_start env = Ret tt ->
        isRecording w = false ->
        let w' := mic_run env [Press; Press; Press] w in
        isRecording w' = true
        /\ new_effects w w'
           = [Stream_init; Stream_on_data; Stream_start; Stream_stop;
              Stream_init; Stream_on_data; Stream_start]
        /\ open_sessions env (new_effects w w') = 2%nat).
Proof.
  intros Ha Hl. split; [|split; [|split]].
  - intros w Hr. unfold micButton_onPress. rewrite Hr. reflexivity.
  - intros w Hr Hi Hs. eexists. split; [apply handleStartRecording_android; assumption|].
    repeat split. apply new_effects_app. reflexivity.
  - intros Hstop w events Hr.
    destruct (mic_run_sessions env w events Ha Hl Hstop Hr) as (log & Hlog & Hprefix & Hopen).
    cbv zeta. rewrite (new_effects_app _ _ _ Hlog). split; [exact Hprefix | exact Hopen].
  - intros message w Hstop Hi Hs Hr.
    assert (Hrun : mic_run env [Press; Press; Press] w
                   = {| isRecording := true; isLoading := false; error := None;
                        transcript := TranscriptText EmptyString; audioChunksRef := [];
                        recordingRef := recordingRef w;
                        effects := effects w
                                   ++ [Stream_init; Stream_on_data; Stream_start; Stream_stop;
                                       Stream_init; Stream_on_data; Stream_start] |}).
    { unfold mic_run. cbn [foldl mic_step]. unfold micButton_onPress. rewrite Hr.
      rewrite (handleStartRecording_android env w Ha Hl Hi Hs). cbn [snd isRecording].
      rewrite (handleStopRecording_stream_busy env _ message Ha Hl Hstop).
      cbn [snd isRecording].
      rewrite (handleStartRecording_android env _ Ha Hl Hi Hs).
      cbn [snd isLoading recordingRef effects]. rewrite <- !app_assoc. reflexivity. }
    cbv zeta. rewrite Hrun. cbn [isRecording].
    erewrite new_effects_app by reflexivity.
    split; [reflexivity|]. split; [reflexivity|].
    unfold open_sessions. cbn [foldl session_step]. rewrite Hs, Hstop. reflexivity.
Qed.

Lemma start_guarded_by_button_only_witness :
  micButton_onPress android_env (recording_world ["AAA="])
  = handleStopRecording android_env (recording_world ["AAA="])
  /\ open_sessions android_env
       (new_effects initial_world
          (mic_run android_env [Press; Chunk "AAA="; Press; Press; Chunk "BBB="]
             initial_world)) = 1%nat
  /\ open_sessions android_env_busy
       (new_effects initial_world
          (mic_run android_env_busy [Press; Press; Press] initial_world)) = 2%nat.
Proof.
  destruct (start_guarded_by_button_only android_env eq_refl eq_refl)
    as (Hbutton & _ & Hsessions & _).
  destruct (start_guarded_by_button_only android_env_busy eq_refl eq_refl)
    as (_ & _ & _ & Hbusy).
  split; [exact (Hbutton (recording_world ["AAA="]) eq_refl)|].
  split.
  - exact (proj2 (Hsessions eq_refl initial_world
                    [Press; Chunk "AAA="; Press; Press; Chunk "BBB="] eq_refl)).
  - exact (proj2 (proj2 (Hbusy "busy" initial_world eq_refl eq_refl eq_refl eq_refl))).
Defined.

Lemma combine_chunks_empty (atob : string -> completion string) (chunks : list string) :
  Forall (fun chunk => atob chunk = Ret EmptyString) chunks ->
  combine_chunks atob chunks = Ret [].
Proof.
  intros H.
  rewrite (combine_chunks_concat atob chunks (map (fun _ => EmptyString) chunks)).
  - f_equal. induction chunks as [|c cs IH]; [reflexivity|].
    cbn [map concat bytes_of_binary_string list_ascii_of_string app].
    apply IH. inversion H; assumption.
  - induction H as [|c cs Hc _ IH]; constructor; assumption.
Qed.

(** C7, as stated, fails for a recording of zero accumulated bytes whose
    chunk buffer is not empty: one empty chunk was received, no error is
    reported, and the 44-byte header-only WAV file is written and passed
    to the transcription. *)
Lemma empty_chunk_is_transcribed :
  let w := recording_world [EmptyString] in
  let stopped := snd (handleStopRecording android_env w) in
  combine_chunks (atob android_env) (audioChunksRef w) = Ret []
  /\ error stopped = None
  /\ length (stt_header 0) = 44%nat
  /\ new_effects w stopped
     = [Stream_stop;
        Fs_write "file:///data/cache/stt_recording_1700000000000.wav"
          (btoa_base64 (string_of_chunk (stt_header 0)));
        Sdk_transcribeFile "/data/cache/stt_recording_1700000000000.wav"].
Proof. vm_compute. repeat split; reflexivity. Qed.

(** C7, amended.  On the Android stream path the guard of the stop counts
    chunks, not bytes.  With an empty chunk buffer the stop makes one
    call, the stream's stop, writes no file and transcribes nothing: it
    reports "No audio recorded" when that call returns, and the call's
    message as a transcription failure when it throws.  With a buffer that
    is not empty but whose chunks all decode to nothing, the guard is
    passed: the 44 bytes of the header alone are written and the file is
    passed to the transcription, and "No audio recorded" is not
    reported. *)
Theorem stop_without_chunks (env : Env) (w : World) :
  is_android env = true -> LiveAudioStream env = true ->
  (audioChunksRef w = [] ->
   exists w',
     handleStopRecording env w = (Ret tt, w')
     /\ error w' = match LiveAudioStream_stop env with
                   | Ret _ => Some "No audio recorded"
                   | Throw message => Some ("Transcription failed: " +:+ message)
                   end
     /\ isRecording w' = false /\ isLoading w' = false
     /\ new_effects w w' = [Stream_stop]
     /\ (forall path content, ~ In (Fs_write path content) (new_effects w w'))
     /\ (forall path, ~ In (Sdk_transcribeFile path) (new_effects w w')))
  /\ (forall fs,
        audioChunksRef w <> [] ->
        Forall (fun chunk => atob env chunk = Ret EmptyString) (audioChunksRef w) ->
        LiveAudioStream_stop env = Ret tt ->
        FileSystem env = Some fs ->
        let writeUri := stt_path fs (Date_now env) in
        let wavBase64 := btoa env (string_of_chunk (stt_header 0)) in
        let cleanPath := strip_file_scheme (strip_file_scheme writeUri) in
        writeAsStringAsync fs writeUri wavBase64 = Ret tt ->
        exists w',
          handleStopRecording env w = (Ret tt, w')
          /\ length (stt_header 0) = 44%nat
          /\ new_effects w w'
             = [Stream_stop; Fs_write writeUri wavBase64; Sdk_transcribeFile cleanPath]
          /\ error w' = match transcribeFile env cleanPath with
                        | Ret _ => None
                        | Throw message => Some ("Transcription failed: " +:+ message)
                        end).
Proof.
  intros Ha Hl. split.
  - intros Hc.
    assert (Hn : forall w',
               effects w' = effects w ++ [Stream_stop] -> new_effects w w' = [Stream_stop])
      by (intros w'; apply new_effects_app).
    destruct (LiveAudioStream_stop env) as [[]|message] eqn:Hs.
    + eexists. split; [apply handleStopRecording_android_empty; assumption|].
      repeat split; try (apply Hn; reflexivity);
        intros; rewrite Hn by reflexivity; intros [H|[]]; discriminate H.
    + eexists. split; [apply (handleStopRecording_stream_busy env w message); assumption|].
      repeat split; try (apply Hn; reflexivity);
        intros; rewrite Hn by reflexivity; intros [H|[]]; discriminate H.
  - intros fs Hne Hd Hs Hfs writeUri wavBase64 cleanPath Hw.
    pose proof (combine_chunks_empty _ _ Hd) as Hc.
    unfold wavBase64 in *.
    rewrite <- (binary_string_by_chunks_whole chunkSize (stt_header 0) chunkSize_positive)
      in *.
    pose proof (handleStopRecording_android_written env w fs [] Ha Hl Hs Hne Hc Hfs) as Hrun.
    cbn [length app] in Hrun. change (Z.of_nat 0) with 0 in Hrun.
    rewrite app_nil_r in Hrun. specialize (Hrun Hw).
    eexists. split; [exact Hrun|]. split; [reflexivity|].
    split.
    + apply new_effects_app. rewrite effects_after_transcription. reflexivity.
    + fold writeUri. fold cleanPath.
      destruct (transcribeFile env cleanPath); reflexivity.
Qed.

Lemma stop_without_chunks_witness :
  (exists w',
     handleStopRecording android_env (recording_world []) = (Ret tt, w')
     /\ error w' = Some "No audio recorded"
     /\ new_effects (recording_world []) w' = [Stream_stop])
  /\ (exists w',
        handleStopRecording android_env (recording_world [EmptyString]) = (Ret tt, w')
        /\ new_effects (recording_world [EmptyString]) w'
           = [Stream_stop;
              Fs_write (stt_path cache_fs 1700000000000)
                (btoa_base64 (string_of_chunk (stt_header 0)));
              Sdk_transcribeFile
                (strip_file_scheme (strip_file_scheme (stt_path cache_fs 1700000000000)))]
        /\ error w' = None).
Proof.
  split.
  - destruct (proj1 (stop_without_chunks android_env (recording_world [])
                       eq_refl eq_refl) eq_refl)
      as (w' & H1 & H2 & _ & _ & H3 & _).
    exists w'. repeat split; assumption.
  - destruct (proj2 (stop_without_chunks android_env (recording_world [EmptyString])
                       eq_refl eq_refl)
                cache_fs ltac:(discriminate) ltac:(repeat constructor)
                eq_refl eq_refl eq_refl)
      as (w' & H1 & _ & H2 & H3).
    exists w'. split; [exact H1|]. split; [exact H2 | exact H3].
Defined.

(** ** Transcription path *)

(** C9, as stated, fails: a recording URI with a scheme other than [file]
    reaches [transcribeFile] with its scheme. *)
Lemma other_scheme_reaches_transcribeFile :
  let w := recorder_world (idle_recording (Some "content://media/rec.wav")) in
  new_effects w (snd (handleStopRecording ios_env w))
  = [Recording_stopAndUnload; Sdk_transcribeFile "content://media/rec.wav"].
Proof. reflexivity. Qed.

(** C9, amended.  [transcribeFile] receives the recording URI with a
    leading [file://] removed, twice over: for the expo-av recorder the URI
    the recording reports, for the Android stream the URI the WAV file was
    written to.  A URI [file://p] with [p] not itself starting with
    [file://] arrives as [p]; a URI that does not start with [file://],
    whatever its scheme, arrives unchanged. *)
Theorem transcribeFile_path_strips_file_scheme
        (env env' : Env) (w w' : World) (recording : Recording) (uri : string)
        (fs : FileSystemModule) (decoded : list string) :
  (* the expo-av recorder *)
  is_android env && LiveAudioStream env = false ->
  recordingRef w = Some recording ->
  stopAndUnloadAsync recording = Ret tt ->
  getURI recording = Some uri -> uri <> EmptyString ->
  (* the Android stream *)
  is_android env' = true -> LiveAudioStream env' = true ->
  LiveAudioStream_stop env' = Ret tt -> FileSystem env' = Some fs ->
  audioChunksRef w' <> [] ->
  Forall2 (fun chunk binary => atob env' chunk = Ret binary) (audioChunksRef w') decoded ->
  (forall content, writeAsStringAsync fs (stt_path fs (Date_now env')) content = Ret tt) ->
  new_effects w (snd (handleStopRecording env w))
  = [Recording_stopAndUnload;
     Sdk_transcribeFile (strip_file_scheme (strip_file_scheme uri))]
  /\ (exists content,
         new_effects w' (snd (handleStopRecording env' w'))
         = [Stream_stop; Fs_write (stt_path fs (Date_now env')) content;
            Sdk_transcribeFile
              (strip_file_scheme (strip_file_scheme (stt_path fs (Date_now env'))))])
  /\ (forall p, String.prefix "file://" p = false ->
                strip_file_scheme (strip_file_scheme ("file://" +:+ p)) = p)
  /\ (forall s, String.prefix "file://" s = false ->
                strip_file_scheme (strip_file_scheme s) = s).
Proof.
  intros Hb Hr Hs Hu Hne Ha Hl Hst Hfs Hc Hd Hw. split; [|split; [|split]].
  - rewrite (handleStopRecording_recorder env w recording uri Hb Hr Hs Hu Hne).
    cbn [snd]. apply new_effects_app.
    rewrite effects_after_transcription. reflexivity.
  - eexists.
    rewrite (handleStopRecording_android_written env' w' fs _ Ha Hl Hst Hc
               (combine_chunks_concat _ _ _ Hd) Hfs (Hw _)).
    cbn [snd]. apply new_effects_app.
    rewrite effects_after_transcription. reflexivity.
  - intros p Hp. rewrite strip_file_scheme_prefixed. apply strip_file_scheme_other, Hp.
  - intros s Hp. rewrite (strip_file_scheme_other s Hp). apply strip_file_scheme_other, Hp.
Qed.

Lemma transcribeFile_path_strips_file_scheme_witness :
  new_effects (recorder_world (idle_recording (Some "file:///var/rec.wav")))
    (snd (handleStopRecording ios_env
            (recorder_world (idle_recording (Some "file:///var/rec.wav")))))
  = [Recording_stopAndUnload;
     Sdk_transcribeFile
       (strip_file_scheme (strip_file_scheme "file:///var/rec.wav"))].
Proof.
  assert (Hd : Forall2 (fun chunk binary => atob android_env chunk = Ret binary)
                 (audioChunksRef (recording_world ["AAA="])) [string_of_chunk [0; 0]])
    by (repeat constructor).
  exact (proj1 (transcribeFile_path_strips_file_scheme
                  ios_env android_env
                  (recorder_world (idle_recording (Some "file:///var/rec.wav")))
                  (recording_world ["AAA="])
                  (idle_recording (Some "file:///var/rec.wav")) "file:///var/rec.wav"
                  cache_fs [string_of_chunk [0; 0]]
                  eq_refl eq_refl eq_refl eq_refl ltac:(discriminate)
                  eq_refl eq_refl eq_refl eq_refl ltac:(discriminate) Hd
                  (fun _ => eq_refl))).
Defined.

Example file_uri_is_stripped :
  strip_file_scheme (strip_file_scheme "file:///var/rec.wav") = "/var/rec.wav"
  /\ strip_file_scheme (strip_file_scheme "content://media/rec.wav")
     = "content://media/rec.wav".
Proof. split; reflexivity. Qed.

(** ** createWavFile *)

(** C8. The WAV bytes and the content written by [createWavFile] depend on
    the audio payload and the sample rate only: two runs, in any two
    environments that decode and encode base64 alike and in any two worlds,
    write the same content, the base64 encoding of the same WAV bytes; clock
    and cache directory appear only in the file name. *)
Theorem wav_content_independent_of_run
        (env1 env2 : Env) (w1 w2 : World) (fs1 fs2 : FileSystemModule)
        (audioBase64 : string) (audioSampleRate : Z) (wavBytes : list Z) :
  atob env1 audioBase64 = atob env2 audioBase64 ->
  (forall binary, btoa env1 binary = btoa env2 binary) ->
  FileSystem env1 = Some fs1 -> FileSystem env2 = Some fs2 ->
  wav_payload (atob env1) audioBase64 audioSampleRate = Ret wavBytes ->
  let content := btoa env1 (string_of_chunk wavBytes) in
  wav_payload (atob env2) audioBase64 audioSampleRate = Ret wavBytes
  /\ new_effects w1 (snd (createWavFile env1 audioBase64 audioSampleRate w1))
     = [Fs_write (tts_path fs1 (Date_now env1)) content]
  /\ new_effects w2 (snd (createWavFile env2 audioBase64 audioSampleRate w2))
     = [Fs_write (tts_path fs2 (Date_now env2)) content].
Proof.
  intros Hatob Hbtoa Hfs1 Hfs2 Hp content.
  assert (Hp2 : wav_payload (atob env2) audioBase64 audioSampleRate = Ret wavBytes).
  { unfold wav_payload in *. rewrite <- Hatob. exact Hp. }
  split; [exact Hp2|].
  rewrite !createWavFile_run, Hfs1, Hfs2, Hp, Hp2. cbv zeta. cbn [snd].
  rewrite (binary_string_by_chunks_whole chunkSize wavBytes chunkSize_positive).
  split; apply new_effects_app; [reflexivity|].
  cbn [add_effect effects]. rewrite <- Hbtoa. reflexivity.
Qed.

Lemma wav_content_independent_of_run_witness :
  exists content,
    new_effects initial_world
      (snd (createWavFile android_env "AACAPwAAgL8AAAA/" 22050 initial_world))
    = [Fs_write "file:///data/cache/tts_1700000000000.wav" content]
    /\ new_effects (recording_world [])
         (snd (createWavFile android_env_later "AACAPwAAgL8AAAA/" 22050
                 (recording_world [])))
       = [Fs_write "file:///tmp/tts_1700000009999.wav" content].
Proof.
  eexists.
  refine (proj2 (wav_content_independent_of_run
                   android_env android_env_later initial_world (recording_world [])
                   cache_fs _ "AACAPwAAgL8AAAA/" 22050 _
                   eq_refl (fun _ => eq_refl) eq_refl eq_refl _)).
  vm_compute. reflexivity.
Defined.

(** C10. [createWavFile] never throws: every run returns, with [null] or
    with a path.  It returns [null] when the file system module is missing,
    when [atob] throws, when the decoded byte length is not a multiple of 4
    and when the write fails.  When the module is there and the text
    decodes to a multiple of 4 bytes, it writes the base64 of the WAV bytes
    to the file name it built, and when that write returns it returns that
    file name.  A path it returns is always that file name, written
    successfully. *)
Theorem createWavFile_returns_null_or_path
        (env : Env) (audioBase64 : string) (audioSampleRate : Z) (w : World) :
  exists result w',
    createWavFile env audioBase64 audioSampleRate w = (Ret result, w')
    /\ (FileSystem env = None -> result = None /\ w' = w)
    /\ (forall message, atob env audioBase64 = Throw message -> result = None /\ w' = w)
    /\ (forall binary,
           atob env audioBase64 = Ret binary ->
           (String.length binary mod 4)%nat <> 0%nat ->
           result = None /\ w' = w)
    /\ (forall fs path content message,
           FileSystem env = Some fs ->
           new_effects w w' = [Fs_write path content] ->
           writeAsStringAsync fs path content = Throw message ->
           result = None)
    /\ (forall path,
           result = Some path ->
           exists fs content,
             FileSystem env = Some fs
             /\ path = tts_path fs (Date_now env)
             /\ new_effects w w' = [Fs_write path content]
             /\ writeAsStringAsync fs path content = Ret tt)
    /\ (forall fs binary,
           FileSystem env = Some fs ->
           atob env audioBase64 = Ret binary ->
           (String.length binary mod 4)%nat = 0%nat ->
           exists wavBytes,
             wav_payload (atob env) audioBase64 audioSampleRate = Ret wavBytes
             /\ let path := tts_path fs (Date_now env) in
                let content := btoa env (string_of_chunk wavBytes) in
                new_effects w w' = [Fs_write path content]
                /\ (writeAsStringAsync fs path content = Ret tt -> result = Some path)).
Proof.
  assert (Hlen : forall binary : string,
             length (list_ascii_of_string binary) = String.length binary).
  { intros binary. induction binary as [|c s IH]; [reflexivity|]. cbn. rewrite IH.
    reflexivity. }
  rewrite createWavFile_run.
  destruct (FileSystem env) as [fs|] eqn:Hfs.
  2:{ exists None, w. repeat split; try reflexivity; try discriminate. }
  destruct (wav_payload (atob env) audioBase64 audioSampleRate) as [wavBytes|m] eqn:Hp.
  - cbv zeta. eexists _, _. split; [reflexivity|].
    assert (Hn : new_effects w
                   (add_effect
                      (Fs_write (tts_path fs (Date_now env))
                         (btoa env (binary_string_by_chunks chunkSize wavBytes))) w)
                 = [Fs_write (tts_path fs (Date_now env))
                      (btoa env (binary_string_by_chunks chunkSize wavBytes))])
      by (apply new_effects_app; reflexivity).
    split; [discriminate|]. split; [|split; [|split; [|split]]].
    + intros message Hm. unfold wav_payload in Hp. rewrite Hm in Hp. discriminate Hp.
    + intros binary Hb Hmod. unfold wav_payload in Hp. rewrite Hb in Hp.
      cbn [mbind completion_bind cbind] in Hp. unfold Float32Array_of_buffer in Hp.
      unfold bytes_of_binary_string in Hp. rewrite length_map, Hlen in Hp.
      destruct (Nat.eqb_spec (String.length binary mod 4) 0); [contradiction|].
      discriminate Hp.
    + intros fs' path content message [= <-] Hw Hthrow.
      rewrite Hn in Hw. injection Hw as <- <-. rewrite Hthrow. reflexivity.
    + intros path Hpath. exists fs, (btoa env (binary_string_by_chunks chunkSize wavBytes)).
      destruct (writeAsStringAsync fs _ _) as [[]|] eqn:Hw; [|discriminate].
      injection Hpath as <-. repeat split; [exact Hn | exact Hw].
    + intros fs' binary [= <-] Hb Hmod. exists wavBytes. split; [reflexivity|].
      cbv zeta.
      rewrite <- (binary_string_by_chunks_whole chunkSize wavBytes chunkSize_positive).
      split; [exact Hn|]. intros Hw. rewrite Hw. reflexivity.
  - exists None, w. split; [reflexivity|].
    split; [discriminate|]. split; [intros; split; reflexivity|].
    split; [intros; split; reflexivity|]. split; [intros; reflexivity|].
    split; [discriminate|].
    intros fs' binary _ Hb Hmod. exfalso.
    unfold wav_payload in Hp. rewrite Hb in Hp.
    cbv [mbind completion_bind cbind] in Hp. unfold Float32Array_of_buffer in Hp.
    unfold bytes_of_binary_string in Hp. rewrite length_map, Hlen, Hmod in Hp.
    cbn [Nat.eqb] in Hp. rewrite encodeWav_bytes in Hp. discriminate Hp.
Qed.

Lemma createWavFile_returns_null_or_path_witness :
  exists w',
    createWavFile android_env "AACAPwAAgL8AAAA/" 22050 initial_world
    = (Ret (Some "file:///data/cache/tts_1700000000000.wav"), w').
Proof.
  destruct (createWavFile_returns_null_or_path android_env "AACAPwAAgL8AAAA/" 22050
              initial_world) as (result & w' & Hrun & _ & _ & _ & _ & _ & Hok).
  destruct (Hok cache_fs _ eq_refl eq_refl eq_refl) as (wavBytes & Hp & _ & Hpath).
  exists w'. rewrite Hrun.
  vm_compute in Hp. injection Hp as <-.
  rewrite (Hpath eq_refl). reflexivity.
Defined.

Example createWavFile_truncated_payload :
  createWavFile android_env "AACAPwAAgL8AAA==" 22050 initial_world
  = (Ret None, initial_world).
Proof. reflexivity. Qed.

Example createWavFile_write_failure :
  fst (createWavFile android_env_later "AACAPwAAgL8AAAA/" 22050 initial_world)
  = Ret None.
Proof. reflexivity. Qed.

Example createWavFile_success :
  fst (createWavFile android_env "AACAPwAAgL8AAAA/" 22050 initial_world)
  = Ret (Some "file:///data/cache/tts_1700000000000.wav").
Proof. reflexivity. Qed.

(** ** The samples createWavFile converts *)

(** Every 32 bit pattern denotes a valid binary32 datum, so the elements of
    a [Float32Array] satisfy the hypothesis of the conversion theorem. *)
Lemma b32_of_bits_valid (w : Z) : valid_binary32 (b32_of_bits w) = true.
Proof.
  unfold b32_of_bits.
  assert (Hfrac : 0 <= Z.land w 8388607 < 8388608).
  { change 8388607 with (Z.ones 23). rewrite Z.land_ones by lia.
    apply Z.mod_pos_bound. reflexivity. }
  assert (Hexpo : 0 <= Z.land (Z.shiftr w 23) 255 < 256).
  { change 255 with (Z.ones 8). rewrite Z.land_ones by lia.
    apply Z.mod_pos_bound. reflexivity. }
  set (frac := Z.land w 8388607) in *. set (expo := Z.land (Z.shiftr w 23) 255) in *.
  clearbody frac expo.
  destruct (Z.eqb_spec expo 0) as [He0|He0].
  - destruct (Z.eqb_spec frac 0) as [Hf0|Hf0]; [reflexivity|].
    unfold valid_binary32, valid_binary, bounded, canonical_mantissa, fexp, emin.
    pose proof (digits2_pos_le (Z.to_pos frac) 23 ltac:(lia)
                  ltac:(rewrite Z2Pos.id by lia; change (2 ^ 23) with 8388608; lia)) as Hd.
    apply andb_true_iff. split; [apply Z.eqb_eq | apply Z.leb_le]; lia.
  - destruct (Z.eqb_spec expo 255) as [He1|He1].
    + destruct (Z.eqb frac 0); reflexivity.
    + unfold valid_binary32, valid_binary, bounded, canonical_mantissa, fexp, emin.
      pose proof (digits2_pos_le (Z.to_pos (frac + 8388608)) 24 ltac:(lia)
                  ltac:(rewrite Z2Pos.id by lia; change (2 ^ 24) with 16777216; lia)) as Hd.
      destruct (digits2_pos_bounds (Z.to_pos (frac + 8388608))) as [_ Hhi].
      rewrite Z2Pos.id in Hhi by lia.
      assert (Hd' : 23 < Z.pos (digits2_pos (Z.to_pos (frac + 8388608)))).
      { destruct (Z_lt_le_dec 23 (Z.pos (digits2_pos (Z.to_pos (frac + 8388608)))))
          as [|Hle]; [assumption|]. exfalso.
        assert (2 ^ Z.pos (digits2_pos (Z.to_pos (frac + 8388608))) <= 2 ^ 23)
          by (apply Z.pow_le_mono_r; lia).
        change (2 ^ 23) with 8388608 in *. lia. }
      apply andb_true_iff. split; [apply Z.eqb_eq | apply Z.leb_le]; lia.
Qed.

Lemma wrap_int16_range (z : Z) : is_int16 (wrap_int16 z).
Proof.
  unfold is_int16, wrap_int16.
  pose proof (Z.mod_pos_bound (z + 32768) 65536 ltac:(lia)). lia.
Qed.

Lemma floatToInt16_is_int16 (x : spec_float) : is_int16 (floatToInt16 x).
Proof.
  unfold floatToInt16, ToInt16.
  destruct (if SFltb (clamp x) f_zero then _ else _);
    try apply wrap_int16_range; unfold is_int16; lia.
Qed.

Lemma Float32Array_elements_valid (bytes : list Z) (floatView : list spec_float) :
  Float32Array_of_buffer bytes = Ret floatView ->
  Forall (fun s => valid_binary32 s = true) floatView.
Proof.
  unfold Float32Array_of_buffer. destruct (_ =? _)%nat; [|discriminate].
  intros [= <-]. apply Forall_map, Forall_forall. intros w _. apply b32_of_bits_valid.
Qed.

(** The synthesis scenario: 1000 float32 zeros at 22050 Hz. *)
Example thousand_silent_samples :
  let audio := btoa_base64 (string_of_chunk (replicate (Z.to_nat 4000) 0)) in
  wav_payload atob_base64 audio 22050
  = Ret (tts_header 2000 22050 ++ replicate (Z.to_nat 2000) 0).
Proof. vm_compute. reflexivity. Qed.


(** The data section of the WAV bytes holds the converted samples. *)
Lemma wav_payload_samples (atob : string -> completion string)
      (audioBase64 binary : string) (audioSampleRate : Z) (floatView : list spec_float) :
  atob audioBase64 = Ret binary ->
  Float32Array_of_buffer (bytes_of_binary_string binary) = Ret floatView ->
  exists wavBytes,
    wav_payload atob audioBase64 audioSampleRate = Ret wavBytes
    /\ int16s_of_bytes_le (drop 44 wavBytes) = map floatToInt16 floatView.
Proof.
  intros Ha Hf. unfold wav_payload. rewrite Ha. cbv [mbind completion_bind cbind].
  rewrite Hf, encodeWav_bytes. eexists. split; [reflexivity|].
  rewrite <- (tts_header_length
                (Z.of_nat (length (map floatToInt16 floatView) * 2)) audioSampleRate) at 1.
  rewrite drop_app_length. apply int16s_of_bytes_roundtrip.
  apply Forall_map, Forall_forall. intros x _. apply floatToInt16_is_int16.
Qed.

(** The guard of the Android branch counts chunks: a single empty chunk
    passes it, and the header alone is written. *)
Example stop_with_empty_chunk :
  new_effects (recording_world [EmptyString])
    (snd (handleStopRecording android_env (recording_world [EmptyString])))
  = [Stream_stop;
     Fs_write "file:///data/cache/stt_recording_1700000000000.wav"
       (btoa_base64 (string_of_chunk (stt_header 0)));
     Sdk_transcribeFile "/data/cache/stt_recording_1700000000000.wav"].
Proof. vm_compute. reflexivity. Qed.

(** * Further properties of the recording handlers *)

Lemma new_effects_same (w w' : World) :
  effects w' = effects w -> new_effects w w' = [].
Proof. intros H. unfold new_effects. rewrite H. apply drop_all. Qed.

Ltac settle_effects :=
  cbn [snd effects];
  first [ rewrite new_effects_same by reflexivity
        | rewrite <- ?app_assoc; erewrite new_effects_app by reflexivity ].

(** X1. [handleStopRecording] never throws, whatever the platform, the
    modules and the outcomes of the calls it makes: it returns, and it
    leaves the loading indicator and the recording flag off. *)
Theorem handleStopRecording_always_settles (env : Env) (w : World) :
  exists w',
    handleStopRecording env w = (Ret tt, w')
    /\ isLoading w' = false
    /\ isRecording w' = false.
Proof.
  unfold handleStopRecording, stop_android, stop_recorder.
  io_step.
  case_outcomes; io_step; eexists; (split; [reflexivity|]); split; reflexivity.
Qed.

Lemma decode_chunks_throw (atob : string -> completion string)
      (chunks : list string) (message : string) :
  decode_chunks atob chunks = Throw message ->
  combine_chunks atob chunks = Throw message.
Proof. intros H. unfold combine_chunks. rewrite H. reflexivity. Qed.

Lemma decode_chunks_first_failure (atob : string -> completion string)
      (good : list string) (decoded : list string) (bad : string)
      (rest : list string) (message : string) :
  Forall2 (fun chunk binary => atob chunk = Ret binary) good decoded ->
  atob bad = Throw message ->
  decode_chunks atob (good ++ bad :: rest) = Throw message.
Proof.
  intros Hg Hb. induction Hg as [|c d good decoded Hc _ IH]; cbn [app decode_chunks].
  - rewrite Hb. reflexivity.
  - rewrite Hc. cbn [mbind completion_bind cbind]. rewrite IH. reflexivity.
Qed.

(** X2. On Android, when a chunk of the buffer does not decode, the stop
    reports the decoder's message as a transcription failure; nothing is
    written, nothing is transcribed, and the chunk buffer is kept as it
    was (the chunks after the bad one are never decoded). *)
Theorem stop_with_undecodable_chunk
        (env : Env) (w : World) (good decoded : list string) (bad : string)
        (rest : list string) (message : string) :
  is_android env = true -> LiveAudioStream env = true ->
  LiveAudioStream_stop env = Ret tt ->
  audioChunksRef w = good ++ bad :: rest ->
  Forall2 (fun chunk binary => atob env chunk = Ret binary) good decoded ->
  atob env bad = Throw message ->
  exists w',
    handleStopRecording env w = (Ret tt, w')
    /\ error w' = Some ("Transcription failed: " +:+ message)
    /\ new_effects w w' = [Stream_stop]
    /\ audioChunksRef w' = audioChunksRef w.
Proof.
  intros Ha Hl Hs Hc Hg Hb.
  pose proof (decode_chunks_throw _ _ _
                (decode_chunks_first_failure (atob env) good decoded bad rest message Hg Hb))
    as Hthrow.
  rewrite <- Hc in Hthrow.
  unfold handleStopRecording, stop_android. rewrite Ha, Hl, Hs. cbn [andb]. io_step.
  destruct (audioChunksRef w) as [|c cs] eqn:E.
  { destruct good; discriminate Hc. }
  cbn [length Nat.eqb]. io_step. rewrite Hthrow.
  eexists. split; [reflexivity|]. cbn [error audioChunksRef].
  split; [reflexivity|]. split; [|reflexivity].
  apply new_effects_app. reflexivity.
Qed.

Lemma stop_with_undecodable_chunk_witness :
  exists w',
    handleStopRecording android_env (recording_world ["AAA="; "!"; "BBB="]) = (Ret tt, w')
    /\ error w' = Some ("Transcription failed: " +:+ "The string to be decoded is not correctly encoded.")
    /\ new_effects (recording_world ["AAA="; "!"; "BBB="]) w' = [Stream_stop]
    /\ audioChunksRef w' = ["AAA="; "!"; "BBB="].
Proof.
  assert (Hd : Forall2 (fun chunk binary => atob android_env chunk = Ret binary)
                 ["AAA="] [string_of_chunk [0; 0]])
    by (repeat constructor).
  exact (stop_with_undecodable_chunk android_env (recording_world ["AAA="; "!"; "BBB="])
           ["AAA="] [string_of_chunk [0; 0]] "!" ["BBB="] "The string to be decoded is not correctly encoded."
           eq_refl eq_refl eq_refl eq_refl Hd eq_refl).
Defined.

(** X3. On Android, when the write of the WAV file is rejected, the stop
    reports the file system's message as a transcription failure; the
    write was attempted with the WAV of the whole recording, the
    transcription is not called, and the chunk buffer is not cleared. *)
Theorem stop_with_failing_write
        (env : Env) (w : World) (fs : FileSystemModule) (decoded : list string)
        (message : string) :
  is_android env = true -> LiveAudioStream env = true ->
  LiveAudioStream_stop env = Ret tt ->
  FileSystem env = Some fs ->
  audioChunksRef w <> [] ->
  Forall2 (fun chunk binary => atob env chunk = Ret binary) (audioChunksRef w) decoded ->
  let pcmData := concat (map bytes_of_binary_string decoded) in
  let wavData := stt_header (Z.of_nat (length pcmData)) ++ pcmData in
  let wavBase64 := btoa env (string_of_chunk wavData) in
  writeAsStringAsync fs (stt_path fs (Date_now env)) wavBase64 = Throw message ->
  exists w',
    handleStopRecording env w = (Ret tt, w')
    /\ error w' = Some ("Transcription failed: " +:+ message)
    /\ new_effects w w' = [Stream_stop; Fs_write (stt_path fs (Date_now env)) wavBase64]
    /\ audioChunksRef w' = audioChunksRef w.
Proof.
  intros Ha Hl Hs Hfs Hne Hd pcmData wavData wavBase64 Hw.
  pose proof (combine_chunks_concat _ _ _ Hd) as Hc. fold pcmData in Hc.
  unfold wavBase64 in *.
  rewrite <- (binary_string_by_chunks_whole chunkSize wavData chunkSize_positive) in *.
  unfold handleStopRecording, stop_android. rewrite Ha, Hl, Hs, Hfs. cbn [andb]. io_step.
  destruct (audioChunksRef w) as [|c cs] eqn:E; [contradiction|].
  cbn [length Nat.eqb]. io_step. rewrite Hc, wav_of_pcm_bytes.
  fold wavData. unfold stt_path in Hw. rewrite Hw.
  eexists. split; [reflexivity|]. cbn [error audioChunksRef].
  split; [reflexivity|]. split; [|reflexivity].
  apply new_effects_app. cbn [effects]. rewrite <- app_assoc. reflexivity.
Qed.

Lemma stop_with_failing_write_witness :
  exists w',
    handleStopRecording android_env_later (recording_world ["AAA="]) = (Ret tt, w')
    /\ error w' = Some ("Transcription failed: " +:+ "disk full")
    /\ new_effects (recording_world ["AAA="]) w'
       = [Stream_stop;
          Fs_write (stt_path {| cacheDirectory := Some "file:///tmp/";
                                writeAsStringAsync := fun _ _ => Throw "disk full" |}
                             1700000009999)
            (btoa_base64 (string_of_chunk (stt_header 2 ++ [0; 0])))]
    /\ audioChunksRef w' = ["AAA="].
Proof.
  assert (Hd : Forall2 (fun chunk binary => atob android_env_later chunk = Ret binary)
                 (audioChunksRef (recording_world ["AAA="])) [string_of_chunk [0; 0]])
    by (repeat constructor).
  exact (stop_with_failing_write android_env_later (recording_world ["AAA="])
           _ [string_of_chunk [0; 0]] "disk full"
           eq_refl eq_refl eq_refl eq_refl ltac:(discriminate) Hd eq_refl).
Defined.

(** X4. On Android, when the transcription call fails after the file was
    written, the stop reports its message; the transcript shown is left
    as it was, and the chunk buffer is cleared all the same. *)
Theorem stop_after_transcription_failure
        (env : Env) (w : World) (fs : FileSystemModule) (decoded : list string)
        (message : string) :
  is_android env = true -> LiveAudioStream env = true ->
  LiveAudioStream_stop env = Ret tt ->
  FileSystem env = Some fs ->
  audioChunksRef w <> [] ->
  Forall2 (fun chunk binary => atob env chunk = Ret binary) (audioChunksRef w) decoded ->
  let pcmData := concat (map bytes_of_binary_string decoded) in
  let wavData := stt_header (Z.of_nat (length pcmData)) ++ pcmData in
  let wavBase64 := btoa env (string_of_chunk wavData) in
  let writeUri := stt_path fs (Date_now env) in
  let cleanPath := strip_file_scheme (strip_file_scheme writeUri) in
  writeAsStringAsync fs writeUri wavBase64 = Ret tt ->
  transcribeFile env cleanPath = Throw message ->
  exists w',
    handleStopRecording env w = (Ret tt, w')
    /\ error w' = Some ("Transcription failed: " +:+ message)
    /\ transcript w' = transcript w
    /\ new_effects w w'
       = [Stream_stop; Fs_write writeUri wavBase64; Sdk_transcribeFile cleanPath]
    /\ audioChunksRef w' = [].
Proof.
  intros Ha Hl Hs Hfs Hne Hd pcmData wavData wavBase64 writeUri cleanPath Hw Ht.
  pose proof (combine_chunks_concat _ _ _ Hd) as Hc. fold pcmData in Hc.
  unfold wavBase64 in *.
  rewrite <- (binary_string_by_chunks_whole chunkSize wavData chunkSize_positive) in *.
  rewrite (handleStopRecording_android_written env w fs pcmData Ha Hl Hs Hne Hc Hfs Hw).
  fold writeUri. fold cleanPath. rewrite Ht. cbn [after_transcription].
  eexists. split; [reflexivity|]. cbn [error transcript audioChunksRef].
  repeat split. apply new_effects_app. reflexivity.
Qed.

Lemma stop_after_transcription_failure_witness :
  exists w',
    handleStopRecording android_env_offline (recording_world ["AAA="]) = (Ret tt, w')
    /\ error w' = Some ("Transcription failed: " +:+ "model not loaded")
    /\ transcript w' = TranscriptText EmptyString
    /\ new_effects (recording_world ["AAA="]) w'
       = [Stream_stop;
          Fs_write (stt_path cache_fs 1700000000000)
            (btoa_base64 (string_of_chunk (stt_header 2 ++ [0; 0])));
          Sdk_transcribeFile
            (strip_file_scheme (strip_file_scheme (stt_path cache_fs 1700000000000)))]
    /\ audioChunksRef w' = [].
Proof.
  assert (Hd : Forall2 (fun chunk binary => atob android_env_offline chunk = Ret binary)
                 (audioChunksRef (recording_world ["AAA="])) [string_of_chunk [0; 0]])
    by (repeat constructor).
  exact (stop_after_transcription_failure android_env_offline (recording_world ["AAA="])
           cache_fs [string_of_chunk [0; 0]] "model not loaded"
           eq_refl eq_refl eq_refl eq_refl ltac:(discriminate) Hd eq_refl eq_refl).
Defined.

(** X5. With the expo-av recorder, a recording that stopped but reports no
    URI gives "No audio recorded": the recording reference is dropped and
    the transcription is not called. *)
Theorem stop_recorder_without_uri (env : Env) (w : World) (recording : Recording) :
  is_android env && LiveAudioStream env = false ->
  recordingRef w = Some recording ->
  stopAndUnloadAsync recording = Ret tt ->
  falsy (getURI recording) = true ->
  exists w',
    handleStopRecording env w = (Ret tt, w')
    /\ error w' = Some "No audio recorded"
    /\ recordingRef w' = None
    /\ new_effects w w' = [Recording_stopAndUnload].
Proof.
  intros Hb Hr Hs Hu. unfold handleStopRecording, stop_recorder. rewrite Hb. io_step.
  rewrite Hr, Hs, Hu. io_step.
  eexists. split; [reflexivity|]. cbn [error recordingRef].
  repeat split. apply new_effects_app. reflexivity.
Qed.

Lemma stop_recorder_without_uri_witness :
  exists w',
    handleStopRecording ios_env (recorder_world (idle_recording None)) = (Ret tt, w')
    /\ error w' = Some "No audio recorded"
    /\ recordingRef w' = None
    /\ new_effects (recorder_world (idle_recording None)) w' = [Recording_stopAndUnload].
Proof.
  exact (stop_recorder_without_uri ios_env (recorder_world (idle_recording None))
           (idle_recording None) eq_refl eq_refl eq_refl eq_refl).
Defined.



(** X7. [handleStartRecording] never throws.  Either the recording is on,
    with no error and an empty transcript, or the recording flag, the
    recording reference and the transcript are as before and the user is
    told why: by an error message, or by the one "Rebuild Required"
    alert. *)
Theorem handleStartRecording_outcomes (env : Env) (w : World) :
  exists w',
    handleStartRecording env w = (Ret tt, w')
    /\ isLoading w' = isLoading w
    /\ ((isRecording w' = true /\ error w' = None
         /\ transcript w' = TranscriptText EmptyString)
        \/ (isRecording w' = isRecording w /\ recordingRef w' = recordingRef w
            /\ transcript w' = transcript w
            /\ ((exists message, error w' = Some message)
                \/ (error w' = error w
                    /\ exists message,
                         new_effects w w' = [Alert_alert "Rebuild Required" message])))).
Proof.
  unfold handleStartRecording. io_step.
  case_outcomes; io_step; eexists; (split; [reflexivity|]); (split; [reflexivity|]);
    cbn [isRecording error transcript recordingRef];
    first [ left; repeat split; reflexivity
          | right; split; [reflexivity|]; split; [reflexivity|]; split; [reflexivity|];
            first [ left; eexists; reflexivity
                  | right; split; [reflexivity|]; eexists; settle_effects; reflexivity ] ].
Qed.

(** X8. Where the microphone button is shown (Android with the audio
    stream and the file system, or iOS with expo-av), pressing it never
    throws and never raises the "Rebuild Required" alert, whether it
    starts or stops a recording. *)
Theorem mic_button_never_alerts (env : Env) (w : World) :
  recordingAvailable env = true ->
  exists w',
    micButton_onPress env w = (Ret tt, w')
    /\ forallb (fun e => negb (is_alert e)) (new_effects w w') = true.
Proof.
  intros Hr. unfold recordingAvailable, is_ios in Hr.
  unfold micButton_onPress, handleStartRecording, handleStopRecording,
    stop_android, stop_recorder, is_android in *.
  io_step.
  destruct (String.eqb_spec (Platform_OS env) "android") as [E|E]; [rewrite E in Hr|];
    destruct (LiveAudioStream env), (audioModulesAvailable env), (FileSystem env);
    cbn in Hr; rewrite ?andb_false_r in Hr; try discriminate Hr;
    cbn [negb andb]; case_outcomes; io_step;
    eexists; (split; [reflexivity|]); settle_effects; reflexivity.
Qed.

Lemma mic_button_never_alerts_witness :
  exists w',
    micButton_onPress android_env initial_world = (Ret tt, w')
    /\ forallb (fun e => negb (is_alert e)) (new_effects initial_world w') = true.
Proof. exact (mic_button_never_alerts android_env initial_world eq_refl). Defined.

(** * Further properties of the sample converter and of the headers *)

Lemma SFcompare_one_finite_l (s : bool) (m : positive) (e : Z) :
  SFcompare f_one (S754_finite s m e) = Some (if s then Gt else CompOpp (cmp_unit m e)).
Proof.
  unfold f_one, cmp_unit. rewrite SFcompare_finite. destruct s; [reflexivity|].
  flip_compares m e. destruct (e ?= -23); reflexivity.
Qed.

Lemma SFcompare_minus_one_finite (s : bool) (m : positive) (e : Z) :
  SFcompare (S754_finite s m e) f_minus_one
  = Some (if s then CompOpp (cmp_unit m e) else Gt).
Proof.
  unfold f_minus_one, cmp_unit. rewrite SFcompare_finite.
  destruct s; [|reflexivity]. destruct (e ?= -23); reflexivity.
Qed.

Lemma floatToInt16_outside_unit (sg : bool) (m : positive) (e : Z) :
  in_unit (S754_finite sg m e) = false ->
  cmp_unit m e = Gt
  /\ floatToInt16 (S754_finite sg m e) = (if sg then -32768 else 32767).
Proof.
  intros Hu. rewrite in_unit_finite_cmp in Hu.
  destruct (cmp_unit m e) eqn:E; try discriminate Hu. split; [reflexivity|].
  unfold floatToInt16, clamp. rewrite Math_min_one_finite, E.
  destruct sg; [|reflexivity].
  rewrite Math_max_minus_one_finite, E. reflexivity.
Qed.

(** X9. Saturation: a sample that is a number outside [-1, 1], the
    infinities included, is above 1.0 and converts to 32767, or is below
    -1.0 and converts to -32768; it never wraps around. *)
Theorem floatToInt16_saturates (s : spec_float) :
  in_unit s = false -> s <> S754_nan ->
  (SFltb f_one s = true /\ floatToInt16 s = 32767)
  \/ (SFltb s f_minus_one = true /\ floatToInt16 s = -32768).
Proof.
  intros Hu Hn. destruct s as [sg|sg| |sg m e].
  - destruct sg; discriminate Hu.
  - destruct sg; [right|left]; split; reflexivity.
  - contradiction.
  - destruct (floatToInt16_outside_unit sg m e Hu) as [E ->].
    unfold SFltb. rewrite SFcompare_one_finite_l, SFcompare_minus_one_finite, E.
    destruct sg; [right|left]; split; reflexivity.
Qed.

Lemma floatToInt16_saturates_witness :
  (SFltb f_one (S754_finite false 12582912 (-22)) = true
   /\ floatToInt16 (S754_finite false 12582912 (-22)) = 32767)
  \/ (SFltb (S754_finite false 12582912 (-22)) f_minus_one = true
      /\ floatToInt16 (S754_finite false 12582912 (-22)) = -32768).
Proof.
  exact (floatToInt16_saturates (S754_finite false 12582912 (-22)) eq_refl
           ltac:(discriminate)).
Defined.

Lemma floatToInt16_sat_magnitude (s : bool) (m : positive) (e : Z) :
  valid_binary32 (S754_finite s m e) = true ->
  floatToInt16 (S754_finite s m e)
  = cond_Zopp s (sat_magnitude (if s then 32768 else 32767)%positive m e)
  /\ 0 <= sat_magnitude (if s then 32768 else 32767)%positive m e
     <= Zpos (if s then 32768 else 32767)%positive.
Proof.
  intros Hv. unfold sat_magnitude.
  destruct (in_unit (S754_finite s m e)) eqn:Hu.
  - destruct (floatToInt16_finite s m e Hv Hu) as [Heq Hb].
    rewrite in_unit_finite_cmp in Hu.
    destruct (cmp_unit m e); try discriminate Hu; split; assumption.
  - destruct (floatToInt16_outside_unit s m e Hu) as [-> ->].
    destruct s; split; cbn; lia.
Qed.

Lemma valid_binary32_normal (s : bool) (m : positive) (e : Z) :
  valid_binary32 (S754_finite s m e) = true -> -149 < e -> 2 ^ 23 <= Zpos m.
Proof.
  unfold valid_binary32, valid_binary, bounded, canonical_mantissa, fexp, emin.
  intros H He. apply andb_true_iff in H as [Hc _]. apply Z.eqb_eq in Hc.
  destruct (digits2_pos_bounds m) as [Hlo _].
  replace (Z.pos (digits2_pos m)) with 24 in Hlo by lia. exact Hlo.
Qed.

Lemma cmp_unit_Gt (m : positive) (e : Z) :
  cmp_unit m e = Gt <-> -23 < e \/ (e = -23 /\ 8388608 < Zpos m).
Proof.
  unfold cmp_unit. destruct (Z.compare_spec e (-23)) as [->|H|H].
  - rewrite Pos.compare_gt_iff.
    split; [intros; right; split; [reflexivity|lia] | intros [?|[_ ?]]; lia].
  - split; [discriminate | lia].
  - split; [intros _; left; lia | reflexivity].
Qed.

Lemma div_le_cross (a b c d : Z) :
  0 < b -> 0 < d -> a * d <= c * b -> a / b <= c / d.
Proof.
  intros Hb Hd H. apply Z.div_le_lower_bound; [exact Hd|].
  pose proof (Z.mul_div_le a b Hb) as Hq.
  assert (d * (a / b) * b <= c * b) by nia. nia.
Qed.

Lemma sat_magnitude_mono (k : positive) (s1 s2 : bool) (m1 m2 : positive) (e1 e2 : Z) :
  valid_binary32 (S754_finite s1 m1 e1) = true ->
  valid_binary32 (S754_finite s2 m2 e2) = true ->
  e1 < e2 \/ (e1 = e2 /\ Zpos m1 <= Zpos m2) ->
  0 <= sat_magnitude k m1 e1 <= Zpos k ->
  sat_magnitude k m1 e1 <= sat_magnitude k m2 e2.
Proof.
  intros Hv1 Hv2 Hle Hb.
  destruct (valid_binary32_finite _ _ _ Hv1) as [Hm1 He1].
  destruct (valid_binary32_finite _ _ _ Hv2) as [Hm2 He2].
  change (2 ^ 24) with 16777216 in *.
  unfold sat_magnitude in *.
  destruct (cmp_unit m2 e2) eqn:E2.
  3:{ lia. }
  all: assert (N2 : ~ (-23 < e2 \/ (e2 = -23 /\ 8388608 < Zpos m2)))
         by (rewrite <- cmp_unit_Gt, E2; discriminate).
  all: assert (N1 : cmp_unit m1 e1 <> Gt) by (rewrite cmp_unit_Gt; lia).
  all: assert (Hgoal : Z.pos (m1 * k) / 2 ^ (- e1) <= Z.pos (m2 * k) / 2 ^ (- e2)).
  1,3: apply div_le_cross; [apply Z.pow_pos_nonneg; lia | apply Z.pow_pos_nonneg; lia |];
       rewrite !Pos2Z.inj_mul;
       (destruct Hle as [Hlt|[-> Hm]];
        [ pose proof (valid_binary32_normal _ _ _ Hv2 ltac:(lia)) as Hn2;
          change (2 ^ 23) with 8388608 in Hn2;
          assert (Hpow : 2 ^ (- e1) = 2 ^ (- e2) * 2 ^ (e2 - e1))
            by (rewrite <- Z.pow_add_r by lia; f_equal; lia);
          assert (Ht : 2 ^ 1 <= 2 ^ (e2 - e1)) by (apply Z.pow_le_mono_r; lia);
          change (2 ^ 1) with 2 in Ht;
          assert (Hd2 : 0 < 2 ^ (- e2)) by (apply Z.pow_pos_nonneg; lia);
          rewrite Hpow; nia
        | assert (Hd2 : 0 < 2 ^ (- e2)) by (apply Z.pow_pos_nonneg; lia); nia ]).
  all: destruct (cmp_unit m1 e1); [exact Hgoal | exact Hgoal | contradiction].
Qed.

Lemma SFleb_finite_order (s1 s2 : bool) (m1 m2 : positive) (e1 e2 : Z) :
  SFleb (S754_finite s1 m1 e1) (S754_finite s2 m2 e2) = true ->
  match s1, s2 with
  | true, false => True
  | false, true => False
  | false, false => e1 < e2 \/ (e1 = e2 /\ Zpos m1 <= Zpos m2)
  | true, true => e2 < e1 \/ (e2 = e1 /\ Zpos m2 <= Zpos m1)
  end.
Proof.
  unfold SFleb. rewrite SFcompare_finite.
  destruct s1, s2; try exact (fun _ => I); try discriminate.
  - destruct (Z.compare_spec e1 e2) as [->|H|H]; try discriminate; [|intros _; lia].
    destruct (Pos.compare_spec m1 m2); try discriminate; intros _; lia.
  - destruct (Z.compare_spec e1 e2) as [->|H|H]; try discriminate; [|intros _; lia].
    destruct (Pos.compare_spec m1 m2); try discriminate; intros _; lia.
Qed.

(** X10. The conversion is monotone on binary32 samples, the zeros and
    the infinities included: a sample that is not smaller never gives a
    smaller int16 value, so the waveform keeps its order at both ends of
    the range. *)
Theorem floatToInt16_monotone (x y : spec_float) :
  valid_binary32 x = true -> valid_binary32 y = true ->
  SFleb x y = true ->
  floatToInt16 x <= floatToInt16 y.
Proof.
  intros Hx Hy Hle.
  destruct x as [sx|sx| |sx mx ex], y as [sy|sy| |sy my ey];
    try discriminate Hle.
  - destruct sx, sy; (vm_compute; discriminate).
  - destruct sx, sy; try discriminate Hle; (vm_compute; discriminate).
  - destruct (floatToInt16_sat_magnitude sy my ey Hy) as [-> Hb].
    change (floatToInt16 (S754_zero sx)) with 0.
    destruct sy; [destruct sx; discriminate Hle|]. cbn [cond_Zopp]. lia.
  - destruct sx, sy; try discriminate Hle; (vm_compute; discriminate).
  - destruct sx, sy; try discriminate Hle; (vm_compute; discriminate).
  - destruct (floatToInt16_sat_magnitude sy my ey Hy) as [-> Hb].
    destruct sx; [|destruct sy; discriminate Hle].
    change (floatToInt16 (S754_infinity true)) with (-32768).
    destruct sy; cbn [cond_Zopp]; lia.
  - destruct (floatToInt16_sat_magnitude sx mx ex Hx) as [-> Hb].
    change (floatToInt16 (S754_zero sy)) with 0.
    destruct sx; [|destruct sy; discriminate Hle]. cbn [cond_Zopp]. lia.
  - destruct (floatToInt16_sat_magnitude sx mx ex Hx) as [-> Hb].
    destruct sy; [destruct sx; discriminate Hle|].
    change (floatToInt16 (S754_infinity false)) with 32767.
    destruct sx; cbn [cond_Zopp]; lia.
  - destruct (floatToInt16_sat_magnitude sx mx ex Hx) as [-> Hbx].
    destruct (floatToInt16_sat_magnitude sy my ey Hy) as [-> Hby].
    pose proof (SFleb_finite_order _ _ _ _ _ _ Hle) as Ho.
    destruct sx, sy; cbn [cond_Zopp]; try contradiction; try lia.
    + pose proof (sat_magnitude_mono 32768 true true my mx ey ex Hy Hx Ho Hby). lia.
    + pose proof (sat_magnitude_mono 32767 false false mx my ex ey Hx Hy Ho Hbx). lia.
Qed.

Lemma floatToInt16_monotone_witness :
  floatToInt16 (S754_finite true 12582912 (-24))
  <= floatToInt16 (S754_finite false 8388608 (-24)).
Proof.
  exact (floatToInt16_monotone (S754_finite true 12582912 (-24))
           (S754_finite false 8388608 (-24)) eq_refl eq_refl eq_refl).
Defined.

(** X11. The format fields of both headers.  The header [createWavFile]
    writes and the header [createSTTWavHeader] builds carry the tags RIFF,
    WAVE, fmt and data, format chunk size 16, format 1 (PCM), one channel,
    block align 2 and 16 bits per sample.  The first carries the sample
    rate it was given and twice that as byte rate (for a rate whose double
    fits 32 bits); the second always 16000 and 32000. *)
Theorem wav_format_fields (int16Samples : list Z) (audioSampleRate dataLength : Z) :
  0 <= audioSampleRate -> audioSampleRate * 2 < 4294967296 ->
  exists tts_wav stt_wav,
    encodeWav int16Samples audioSampleRate = Ret tts_wav
    /\ createSTTWavHeader dataLength = Ret stt_wav
    /\ (forall wav, wav = tts_wav \/ wav = stt_wav ->
          take 4 wav = tag "RIFF"
          /\ take 8 (drop 8 wav) = tag "WAVEfmt "
          /\ read_u32_le wav 16 = Some 16
          /\ read_u16_le wav 20 = Some 1
          /\ read_u16_le wav 22 = Some 1
          /\ read_u16_le wav 32 = Some 2
          /\ read_u16_le wav 34 = Some 16
          /\ take 4 (drop 36 wav) = tag "data")
    /\ read_u32_le tts_wav 24 = Some audioSampleRate
    /\ read_u32_le tts_wav 28 = Some (audioSampleRate * 2)
    /\ read_u32_le stt_wav 24 = Some 16000
    /\ read_u32_le stt_wav 28 = Some 32000.
Proof.
  intros H0 H1. eexists _, _.
  split; [apply encodeWav_bytes|]. split; [apply createSTTWavHeader_bytes|].
  set (n := Z.of_nat (length int16Samples * 2)).
  set (data := Uint8Array_of_int16 int16Samples). clearbody n data.
  split; [intros wav [->| ->]; repeat split; reflexivity|].
  split; [|split; [|split; reflexivity]].
  - unfold read_u32_le, tts_header, u32_bytes_le. cbn [app drop].
    rewrite u32_recombine. assert (Hr : 0 <= audioSampleRate < 4294967296) by lia.
    rewrite (ToUint32_small _ Hr). reflexivity.
  - unfold read_u32_le, tts_header, u32_bytes_le. cbn [app drop].
    rewrite u32_recombine. assert (Hr : 0 <= audioSampleRate * 2 < 4294967296) by lia.
    rewrite (ToUint32_small _ Hr). reflexivity.
Qed.

Lemma wav_format_fields_witness :
  exists tts_wav stt_wav,
    encodeWav [0; 1; -1] 22050 = Ret tts_wav
    /\ createSTTWavHeader 6 = Ret stt_wav
    /\ (forall wav, wav = tts_wav \/ wav = stt_wav ->
          take 4 wav = tag "RIFF"
          /\ take 8 (drop 8 wav) = tag "WAVEfmt "
          /\ read_u32_le wav 16 = Some 16
          /\ read_u16_le wav 20 = Some 1
          /\ read_u16_le wav 22 = Some 1
          /\ read_u16_le wav 32 = Some 2
          /\ read_u16_le wav 34 = Some 16
          /\ take 4 (drop 36 wav) = tag "data")
    /\ read_u32_le tts_wav 24 = Some 22050
    /\ read_u32_le tts_wav 28 = Some (22050 * 2)
    /\ read_u32_le stt_wav 24 = Some 16000
    /\ read_u32_le stt_wav 28 = Some 32000.
Proof.
  exact (wav_format_fields [0; 1; -1] 22050 6 ltac:(lia) ltac:(lia)).
Defined.

(** X12. The file [createWavFile] writes holds the samples it was given:
    when the base64 text decodes to a whole number of float32 values, one
    write is made, to the name built from the cache directory and the
    clock; its content is the base64 of 44 header bytes followed by two
    bytes per sample, and reading the data section back as little-endian
    int16 values gives the conversion of each sample, in order. *)
Theorem createWavFile_file_holds_samples
        (env : Env) (w : World) (fs : FileSystemModule)
        (audioBase64 binary : string) (audioSampleRate : Z)
        (floatView : list spec_float) :
  FileSystem env = Some fs ->
  atob env audioBase64 = Ret binary ->
  Float32Array_of_buffer (bytes_of_binary_string binary) = Ret floatView ->
  exists wavBytes,
    new_effects w (snd (createWavFile env audioBase64 audioSampleRate w))
    = [Fs_write (tts_path fs (Date_now env)) (btoa env (string_of_chunk wavBytes))]
    /\ length wavBytes = (44 + length floatView * 2)%nat
    /\ int16s_of_bytes_le (drop 44 wavBytes) = map floatToInt16 floatView
    /\ Forall is_int16 (int16s_of_bytes_le (drop 44 wavBytes)).
Proof.
  intros Hfs Ha Hf.
  destruct (wav_payload_samples (atob env) audioBase64 binary audioSampleRate floatView
              Ha Hf) as (wavBytes & Hp & Hsamples).
  exists wavBytes. rewrite createWavFile_run, Hfs, Hp. cbv zeta. cbn [snd].
  rewrite (binary_string_by_chunks_whole chunkSize wavBytes chunkSize_positive).
  split; [apply new_effects_app; reflexivity|].
  split; [|split; [exact Hsamples|]].
  - assert (Hw : wavBytes
                 = tts_header (Z.of_nat (length (map floatToInt16 floatView) * 2))
                     audioSampleRate
                   ++ Uint8Array_of_int16 (map floatToInt16 floatView)).
    { unfold wav_payload in Hp. rewrite Ha in Hp.
      cbv [mbind completion_bind cbind] in Hp.
      rewrite Hf, encodeWav_bytes in Hp. congruence. }
    rewrite Hw, length_app, tts_header_length, Uint8Array_of_int16_length, length_map.
    reflexivity.
  - rewrite Hsamples. apply Forall_map, Forall_forall. intros x _.
    apply floatToInt16_is_int16.
Qed.

Lemma createWavFile_file_holds_samples_witness :
  exists wavBytes,
    new_effects initial_world
      (snd (createWavFile android_env "AACAPwAAgL8AAAA/" 22050 initial_world))
    = [Fs_write (tts_path cache_fs 1700000000000)
         (btoa_base64 (string_of_chunk wavBytes))]
    /\ length wavBytes = (44 + 3 * 2)%nat
    /\ int16s_of_bytes_le (drop 44 wavBytes) = [32767; -32768; 16383]
    /\ Forall is_int16 (int16s_of_bytes_le (drop 44 wavBytes)).
Proof.
  refine (createWavFile_file_holds_samples android_env initial_world cache_fs
            "AACAPwAAgL8AAAA/" _ 22050
            [S754_finite false 8388608 (-23); S754_finite true 8388608 (-23);
             S754_finite false 8388608 (-24)]
            eq_refl _ _).
  - vm_compute. reflexivity.
  - vm_compute. reflexivity.
Defined.

(** * The model list and the model handlers *)

(** One step of a screen handler: the monad operations and the setters,
    then the projections. *)
Ltac app_calm :=
  cbv [mbind mret app_bind app_ret modify inspect outcome app_try_catch app_try_finally
       app_setIsLoading app_setError set_error
       with_world with_activeTab with_isInitialized with_models with_selectedModel
       with_isDownloading with_downloadProgress with_isModelLoaded with_response
       with_isGenerating with_isSpeaking with_soundRef add_call add_calls
       setError update with_isLoading add_effect];
  cbn [world activeTab isInitialized models selectedModel isDownloading downloadProgress
       isModelLoaded prompt response isGenerating ttsText isSpeaking soundRef calls
       audioChunksRef recordingRef effects isRecording isLoading error transcript
       fst snd].

Ltac app_step := cbv [in_world]; app_calm.

Lemma new_calls_app (a a' : App) (cs : list app_call) :
  calls a' = calls a ++ cs -> new_calls a a' = cs.
Proof. intros H. unfold new_calls. rewrite H. apply drop_app_length. Qed.

Lemma new_calls_same (a a' : App) : calls a' = calls a -> new_calls a a' = [].
Proof. intros H. unfold new_calls. rewrite H. apply drop_all. Qed.

Ltac settle_calls :=
  cbn [snd calls];
  first [ rewrite new_calls_same by reflexivity
        | rewrite <- ?app_assoc; erewrite new_calls_app by reflexivity ].

Ltac settle_new_calls :=
  first [ apply new_calls_same; reflexivity | apply new_calls_app; reflexivity ].

Lemma has_category_true (c : string) (m : ModelInfo) :
  has_category c m = true <-> category m = c.
Proof. unfold has_category. apply String.eqb_eq. Qed.

Lemma has_id_true (id : string) (m : ModelInfo) :
  has_id id m = true <-> model_id m = id.
Proof. unfold has_id. apply String.eqb_eq. Qed.

Lemma getModelsForTab_In (a : App) (t : TabType) (m : ModelInfo) :
  In m (getModelsForTab (with_activeTab t a))
  <-> In m (models a) /\ category m = tab_category t.
Proof.
  unfold getModelsForTab. destruct t; cbn [activeTab with_activeTab models tab_category];
    rewrite filter_In, has_category_true; reflexivity.
Qed.

(** X13. The lists of the three tabs are disjoint: a model shown under two
    tabs is shown under one and the same tab, and every model shown is a
    model of the list the screen holds. *)
Theorem tab_lists_are_disjoint (a : App) (m : ModelInfo) (t1 t2 : TabType) :
  In m (getModelsForTab (with_activeTab t1 a)) ->
  In m (getModelsForTab (with_activeTab t2 a)) ->
  t1 = t2 /\ In m (models a).
Proof.
  rewrite !getModelsForTab_In. intros [Hin H1] [_ H2]. split; [|exact Hin].
  rewrite H1 in H2. destruct t1, t2; try reflexivity; discriminate H2.
Qed.

Lemma tab_lists_are_disjoint_witness :
  stt = stt
  /\ In (format_model
           {| sdk_id := "whisper-tiny"; sdk_name := "Whisper Tiny";
              sdk_category := "speech-recognition";
              sdk_isDownloaded := Some true; sdk_localPath := Some "/models/whisper-tiny";
              sdk_downloadSize := None; sdk_downloadURL := None |})
        (models demo_app).
Proof.
  refine (tab_lists_are_disjoint demo_app _ stt stt _ _); left; reflexivity.
Defined.

(** X14. After [loadModels] the screen lists the SDK's models by id, in
    the SDK's order.  Of the models shown under a tab, exactly the one
    with id system-tts has the framework SystemTTS, and exactly the others
    of the LLM tab have LlamaCpp.  A model whose category is none of the
    three is shown under no tab. *)
Theorem listed_models_by_tab (sdk : Sdk) (a : App) (listed : list SdkModel) :
  getAvailableModels sdk = Ret listed ->
  let a' := snd (loadModels sdk a) in
  map model_id (models a') = map sdk_id listed
  /\ (forall t m, In m (getModelsForTab (with_activeTab t a')) ->
        (framework m = SystemTTS <-> model_id m = "system-tts")
        /\ (framework m = LlamaCpp <-> t = llm /\ model_id m <> "system-tts"))
  /\ (forall s, In s listed ->
        sdk_category s <> "language" -> sdk_category s <> "speech-recognition" ->
        sdk_category s <> "speech-synthesis" ->
        forall t, ~ In (format_model s) (getModelsForTab (with_activeTab t a'))).
Proof.
  intros Hl a'.
  assert (Hm : models a' = map format_model listed).
  { unfold a', loadModels. app_step. rewrite Hl. reflexivity. }
  split; [|split].
  - rewrite Hm, map_map. reflexivity.
  - intros t m Hin. apply getModelsForTab_In in Hin as [Hin Hc].
    rewrite Hm in Hin. apply in_map_iff in Hin as (s & <- & _).
    cbn [format_model framework model_id category] in *. unfold getFramework.
    destruct (String.eqb_spec (sdk_id s) "system-tts") as [Hid|Hid].
    + split; [split; [intros _; exact Hid | reflexivity]|].
      split; [discriminate | intros [_ H]; contradiction].
    + destruct (String.eqb_spec (sdk_category s) "language") as [Hcat|Hcat].
      * split; [split; [discriminate | contradiction]|].
        split; [intros _; split; [|exact Hid] | reflexivity].
        rewrite Hcat in Hc. destruct t; [reflexivity | discriminate Hc | discriminate Hc].
      * split; [split; [discriminate | contradiction]|].
        split; [discriminate|]. intros [-> _]. contradiction.
  - intros s _ H1 H2 H3 t Hin. apply getModelsForTab_In in Hin as [_ Hc].
    cbn [format_model category] in Hc. destruct t; cbn in Hc; contradiction.
Qed.

Lemma listed_models_by_tab_witness :
  let a' := snd (loadModels demo_sdk initial_app) in
  map model_id (models a') = map sdk_id demo_models
  /\ (forall t m, In m (getModelsForTab (with_activeTab t a')) ->
        (framework m = SystemTTS <-> model_id m = "system-tts")
        /\ (framework m = LlamaCpp <-> t = llm /\ model_id m <> "system-tts"))
  /\ (forall s, In s demo_models ->
        sdk_category s <> "language" -> sdk_category s <> "speech-recognition" ->
        sdk_category s <> "speech-synthesis" ->
        forall t, ~ In (format_model s) (getModelsForTab (with_activeTab t a'))).
Proof. exact (listed_models_by_tab demo_sdk initial_app demo_models eq_refl). Defined.

Lemma filter_format_model (c : string) (allModels : list SdkModel) :
  List.filter (has_category c) (map format_model allModels)
  = map format_model (List.filter (fun m => String.eqb (sdk_category m) c) allModels).
Proof.
  induction allModels as [|m ms IH]; [reflexivity|].
  cbn [map List.filter]. unfold has_category at 1. cbn [format_model category].
  destruct (String.eqb (sdk_category m) c); cbn [map]; [f_equal|]; exact IH.
Qed.

(** X15. After a successful initialization the rows under the active tab
    are the SDK's models of the tab's category, each shown once per
    listing and in the SDK's order. *)
Theorem initialized_tab_rows (sdk : Sdk) (a : App) (allModels : list SdkModel) :
  sdkAvailable sdk = true ->
  RunAnywhere_initialize sdk = Ret tt ->
  getAvailableModels sdk = Ret allModels ->
  let a' := snd (initializeSDK sdk a) in
  getModelsForTab a'
  = map format_model
      (List.filter (fun m => String.eqb (sdk_category m) (tab_category (activeTab a)))
                   allModels).
Proof.
  intros Ha Hi Hm. unfold initializeSDK, loadModels. rewrite Ha, Hi, Hm. cbn [negb].
  app_step. unfold getModelsForTab. cbn [activeTab models].
  destruct (activeTab a); apply filter_format_model.
Qed.

Lemma initialized_tab_rows_witness :
  getModelsForTab (snd (initializeSDK demo_sdk (with_activeTab tts initial_app)))
  = map format_model
      (List.filter
         (fun m => String.eqb (sdk_category m)
                     (tab_category (activeTab (with_activeTab tts initial_app))))
         demo_models).
Proof.
  exact (initialized_tab_rows demo_sdk (with_activeTab tts initial_app) demo_models
           eq_refl eq_refl eq_refl).
Defined.


Lemma option_string_eqb_refl (x : option string) : option_string_eqb x x = true.
Proof. destruct x; [apply String.eqb_refl | reflexivity]. Qed.

Lemma option_string_eqb_eq (x y : option string) :
  option_string_eqb x y = true <-> x = y.
Proof.
  destruct x, y; cbn; try (split; [discriminate|discriminate]); [|split; reflexivity].
  rewrite String.eqb_eq. split; [intros ->; reflexivity | intros [= ->]; reflexivity].
Qed.

(** X17. The effect that follows a change of the list keeps the selected
    model's path current: when the list has an entry with the selected id,
    the selection afterwards has that id and the entry's path; it is the
    old selection when the paths already agree, and running the effect
    again changes nothing. *)
Theorem syncSelectedModel_keeps_path_current (a : App) (selected listed : ModelInfo) :
  selectedModel a = Some selected ->
  List.find (has_id (model_id selected)) (models a) = Some listed ->
  exists selected',
    selectedModel (syncSelectedModel a) = Some selected'
    /\ model_id selected' = model_id selected
    /\ localPath selected' = localPath listed
    /\ (localPath selected = localPath listed -> selected' = selected)
    /\ syncSelectedModel (syncSelectedModel a) = syncSelectedModel a.
Proof.
  intros Hs Hf.
  assert (Hlen : (0 <? length (models a))%nat = true).
  { destruct (models a); [discriminate Hf | reflexivity]. }
  pose proof (find_some _ _ Hf) as [_ Hid]. apply has_id_true in Hid.
  unfold syncSelectedModel at 1 2 3 4. rewrite Hs, Hlen, Hf.
  destruct (option_string_eqb (localPath listed) (localPath selected)) eqn:Heq; cbn [negb].
  - apply option_string_eqb_eq in Heq. exists selected.
    split; [exact Hs|]. split; [reflexivity|]. split; [symmetry; exact Heq|].
    split; [reflexivity|].
    unfold syncSelectedModel. rewrite Hs, Hlen, Hf.
    rewrite Heq, option_string_eqb_refl. reflexivity.
  - exists listed. cbn [selectedModel with_selectedModel].
    split; [reflexivity|]. split; [exact Hid|]. split; [reflexivity|]. split.
    + intros H. rewrite H, option_string_eqb_refl in Heq. discriminate Heq.
    + unfold syncSelectedModel. cbn [selectedModel with_selectedModel models].
      rewrite Hlen, Hid, Hf, option_string_eqb_refl. reflexivity.
Qed.

Lemma syncSelectedModel_keeps_path_current_witness :
  exists selected',
    selectedModel (syncSelectedModel (demo_downloaded llm "smollm2")) = Some selected'
    /\ model_id selected' = "smollm2"
    /\ localPath selected' = None.
Proof.
  destruct (syncSelectedModel_keeps_path_current (demo_downloaded llm "smollm2") _ _
              eq_refl eq_refl) as (s & H1 & H2 & H3 & _).
  exists s. split; [exact H1|]. split; [exact H2 | exact H3].
Defined.

(** X18. [handleLoadModel] with a model selected never throws and ends
    with the loading indicator off and the selection unchanged.  It calls
    the SDK only for the selected model's path and with the load function
    of the active tab (none for system-tts), and either marks the model
    as loaded with no error, or reports an error and leaves the loaded
    flag and the response as they were. *)
Theorem handleLoadModel_outcomes (sdk : Sdk) (a : App) (selected : ModelInfo) :
  selectedModel a = Some selected ->
  exists a',
    handleLoadModel sdk a = (Ret tt, a')
    /\ isLoading (world a') = false
    /\ selectedModel a' = selectedModel a
    /\ forallb (load_call_allowed (activeTab a) (model_id selected)) (new_calls a a') = true
    /\ ((isModelLoaded a' = true /\ error (world a') = None)
        \/ (isModelLoaded a' = isModelLoaded a /\ response a' = response a
            /\ exists message, error (world a') = Some message)).
Proof.
  intros Hs. unfold handleLoadModel, truthy_string. app_step. rewrite Hs. app_step.
  destruct (falsy (localPath selected)) eqn:Hp; cbn [negb]; app_step;
  case_outcomes; app_step; eexists; (split; [reflexivity|]);
    cbn [world isLoading selectedModel isModelLoaded response error];
    (split; [reflexivity|]); (split; [first [exact Hs | symmetry; exact Hs | reflexivity]|]);
    (split; [settle_calls; cbn [activeTab] in *;
             repeat match goal with H : activeTab a = _ |- _ => rewrite H end;
             rewrite ?forallb_app; cbn [forallb load_call_allowed is_tab andb];
             rewrite ?String.eqb_refl;
             repeat match goal with H : negb _ = _ |- _ => rewrite H end;
             reflexivity|]);
    first [ left; split; reflexivity
          | right; split; [reflexivity|]; split; [reflexivity|]; eexists; reflexivity ].
Qed.

Lemma handleLoadModel_outcomes_witness :
  exists a',
    handleLoadModel demo_sdk (demo_selected stt "whisper-tiny") = (Ret tt, a')
    /\ isLoading (world a') = false
    /\ forallb (load_call_allowed stt "whisper-tiny")
         (new_calls (demo_selected stt "whisper-tiny") a') = true.
Proof.
  destruct (handleLoadModel_outcomes demo_sdk (demo_selected stt "whisper-tiny") _ eq_refl)
    as (a' & H1 & H2 & _ & H3 & _).
  exists a'. split; [exact H1|]. split; [exact H2 | exact H3].
Defined.

(** X19. When the selected model has no path of its own and the SDK has
    none for its id either, nothing is loaded: the path query is the only
    call, "Model path not found. Please re-download." is reported, and the
    loaded flag is left as it was.  The tab plays no part, so this is also
    what happens to system-tts when the SDK knows no path for it. *)
Theorem load_without_path (sdk : Sdk) (a : App) (selected : ModelInfo)
        (found : option string) :
  selectedModel a = Some selected ->
  falsy (localPath selected) = true ->
  getModelPath sdk (model_id selected) = Ret found ->
  falsy found = true ->
  exists a',
    handleLoadModel sdk a = (Ret tt, a')
    /\ error (world a') = Some "Model path not found. Please re-download."
    /\ isModelLoaded a' = isModelLoaded a
    /\ isLoading (world a') = false
    /\ new_calls a a' = [Sdk_getModelPath (model_id selected)].
Proof.
  intros Hs Hp Hg Hf. unfold handleLoadModel, truthy_string. app_step.
  rewrite Hs. app_step. rewrite Hp. cbn [negb]. app_step. rewrite Hg, Hf. app_step.
  eexists. split; [reflexivity|]. cbn [world error isModelLoaded isLoading].
  repeat split. settle_calls. reflexivity.
Qed.

Lemma load_without_path_witness :
  exists a',
    handleLoadModel demo_sdk (demo_selected tts "system-tts") = (Ret tt, a')
    /\ error (world a') = Some "Model path not found. Please re-download."
    /\ isModelLoaded a' = false
    /\ isLoading (world a') = false
    /\ new_calls (demo_selected tts "system-tts") a' = [Sdk_getModelPath "system-tts"].
Proof.
  exact (load_without_path demo_sdk (demo_selected tts "system-tts") _ None
           eq_refl eq_refl eq_refl eq_refl).
Defined.

(** X20. When the selected model carries a non-empty path, the SDK is not
    asked for one: the only call is the load function of the active tab on
    that path (no call at all for system-tts on the TTS tab).  If the call
    returns, the model is marked as loaded and the success message names
    it; if it throws, "Load failed: " and the message are reported and the
    loaded flag and the response are left as they were. *)
Theorem load_with_local_path (sdk : Sdk) (a : App) (selected : ModelInfo)
        (path : string) :
  selectedModel a = Some selected ->
  localPath selected = Some path -> path <> EmptyString ->
  exists a',
    handleLoadModel sdk a = (Ret tt, a')
    /\ new_calls a a' = load_calls (activeTab a) (model_id selected) path
    /\ match load_outcome sdk (activeTab a) (model_id selected) path with
       | Ret _ =>
           isModelLoaded a' = true /\ error (world a') = None
           /\ response a'
              = check_mark +:+ " " +:+ model_name selected +:+ " loaded successfully!"
       | Throw message =>
           isModelLoaded a' = isModelLoaded a
           /\ error (world a') = Some ("Load failed: " +:+ message)
           /\ response a' = response a
       end.
Proof.
  intros Hs Hp Hne. unfold handleLoadModel, truthy_string. app_step.
  assert (Hf : falsy (Some path) = false).
  { cbn [falsy]. destruct (String.eqb_spec path EmptyString); [contradiction|reflexivity]. }
  rewrite Hs. app_step. rewrite Hp, Hf. cbn [negb or_empty]. app_step.
  rewrite Hf. cbn [or_empty]. app_step. unfold load_calls, load_outcome.
  destruct (activeTab a); app_step.
  - destruct (loadTextModel sdk path); app_step; eexists; (split; [reflexivity|]);
      (split; [settle_calls; reflexivity|]); repeat split.
  - destruct (loadSTTModel sdk path); app_step; eexists; (split; [reflexivity|]);
      (split; [settle_calls; reflexivity|]); repeat split.
  - destruct (String.eqb (model_id selected) "system-tts"); cbn [negb]; app_step.
    + eexists. split; [reflexivity|]. split; [settle_calls; reflexivity|]. repeat split.
    + destruct (loadTTSModel sdk path); app_step; eexists; (split; [reflexivity|]);
        (split; [settle_calls; reflexivity|]); repeat split.
Qed.

Lemma load_with_local_path_witness :
  exists a',
    handleLoadModel demo_sdk (demo_selected stt "whisper-tiny") = (Ret tt, a')
    /\ new_calls (demo_selected stt "whisper-tiny") a'
       = [Sdk_loadSTTModel "/models/whisper-tiny"]
    /\ isModelLoaded a' = true /\ error (world a') = None
    /\ response a' = check_mark +:+ " " +:+ "Whisper Tiny" +:+ " loaded successfully!".
Proof.
  exact (load_with_local_path demo_sdk (demo_selected stt "whisper-tiny") _
           "/models/whisper-tiny" eq_refl eq_refl ltac:(discriminate)).
Defined.

Lemma last_cons_some {A} (x : A) (l : list A) : exists y, last (x :: l) = Some y.
Proof.
  revert x. induction l as [|z l IH]; intros x; [eexists; reflexivity|].
  destruct (IH z) as [y Hy]. exists y. exact Hy.
Qed.

Lemma foldl_report_progress (reports : list (option spec_float)) (a : App) :
  foldl report_progress a reports
  = match last reports with
    | Some progress => with_downloadProgress (progress_percent progress) a
    | None => a
    end.
Proof.
  revert a. induction reports as [|r reports IH]; intros a; [reflexivity|].
  cbn [foldl]. rewrite IH. destruct reports as [|r' reports]; [reflexivity|].
  change (last (r :: r' :: reports)) with (last (r' :: reports)).
  destruct (last_cons_some r' reports) as [y ->]. reflexivity.
Qed.

Lemma foldl_report_progress_fields (reports : list (option spec_float)) (a : App) :
  foldl report_progress a reports
  = with_downloadProgress
      (match last reports with
       | Some progress => progress_percent progress
       | None => downloadProgress a
       end) a.
Proof.
  rewrite foldl_report_progress. destruct (last reports); [reflexivity|].
  destruct a; reflexivity.
Qed.

(** X21. [handleDownloadModel] with a model selected never throws and ends
    with the downloading flag off; the percentage left on the screen is
    that of the last progress report (0 without any), and the loaded flag
    is untouched.  After a successful download the list is asked for
    again and the selection, still the same id, is marked as downloaded
    with the path the download returned.  After a failed one "Download
    failed: " and the message are reported, the list is not asked for and
    the selection is unchanged. *)
Theorem handleDownloadModel_outcomes (sdk : Sdk) (a : App) (selected : ModelInfo) :
  selectedModel a = Some selected ->
  exists a',
    handleDownloadModel sdk a = (Ret tt, a')
    /\ isDownloading a' = false
    /\ downloadProgress a' = last_percent (fst (downloadModel sdk (model_id selected)))
    /\ isModelLoaded a' = isModelLoaded a
    /\ match snd (downloadModel sdk (model_id selected)) with
       | Ret downloadedPath =>
           error (world a') = None
           /\ models a' = listed_models sdk (models a)
           /\ new_calls a a' = [Sdk_downloadModel (model_id selected); Sdk_getAvailableModels]
           /\ exists m, selectedModel a' = Some m
                /\ model_id m = model_id selected
                /\ isDownloaded m = Some true
                /\ localPath m = Some downloadedPath
       | Throw message =>
           error (world a') = Some ("Download failed: " +:+ message)
           /\ models a' = models a
           /\ new_calls a a' = [Sdk_downloadModel (model_id selected)]
           /\ selectedModel a' = selectedModel a
       end.
Proof.
  intros Hs. unfold handleDownloadModel, loadModels, last_percent, listed_models. app_step.
  rewrite Hs. app_step.
  destruct (downloadModel sdk (model_id selected)) as [reports settled].
  app_step. rewrite foldl_report_progress_fields. app_step.
  destruct settled as [downloadedPath|message]; app_step.
  - destruct (getAvailableModels sdk) as [allModels|message]; app_step;
      (eexists; split; [reflexivity|]; cbn [isDownloading downloadProgress isModelLoaded
         world error models selectedModel mark_downloaded];
       split; [reflexivity|]; split; [destruct (last reports); reflexivity|];
       split; [reflexivity|]; split; [reflexivity|]; split; [reflexivity|];
       split; [settle_calls; reflexivity|];
       rewrite Hs; eexists; split; [reflexivity|]; repeat split).
  - eexists; split; [reflexivity|]. cbn [isDownloading downloadProgress isModelLoaded
         world error models selectedModel].
    split; [reflexivity|]; split; [destruct (last reports); reflexivity|].
    repeat split; [settle_calls; reflexivity | exact Hs].
Qed.

Lemma handleDownloadModel_outcomes_witness :
  exists a',
    handleDownloadModel demo_sdk (demo_selected llm "smollm2") = (Ret tt, a')
    /\ isDownloading a' = false
    /\ downloadProgress a' = S754_finite false 7036874417766400 (-46)
    /\ new_calls (demo_selected llm "smollm2") a'
       = [Sdk_downloadModel "smollm2"; Sdk_getAvailableModels].
Proof.
  destruct (handleDownloadModel_outcomes demo_sdk (demo_selected llm "smollm2") _ eq_refl)
    as (a' & H1 & H2 & H3 & _ & _ & _ & H4 & _).
  exists a'. split; [exact H1|]. split; [exact H2|]. split; [exact H3 | exact H4].
Defined.

Lemma handleDownloadModel_success (sdk : Sdk) (a : App) (selected : ModelInfo)
      (downloadedPath : string) (allModels : list SdkModel) :
  selectedModel a = Some selected ->
  snd (downloadModel sdk (model_id selected)) = Ret downloadedPath ->
  getAvailableModels sdk = Ret allModels ->
  exists a',
    snd (handleDownloadModel sdk a) = a'
    /\ selectedModel a' = mark_downloaded downloadedPath (Some selected)
    /\ models a' = map format_model allModels
    /\ isInitialized a' = isInitialized a
    /\ isModelLoaded a' = isModelLoaded a
    /\ isDownloading a' = false
    /\ activeTab a' = activeTab a
    /\ isLoading (world a') = isLoading (world a).
Proof.
  intros Hs Hd Hm. unfold handleDownloadModel, loadModels. app_step. rewrite Hs. app_step.
  destruct (downloadModel sdk (model_id selected)) as [reports settled].
  cbn [snd] in Hd. subst settled. app_step. rewrite foldl_report_progress_fields. app_step.
  rewrite Hm. app_step. rewrite Hs. eexists. split; [reflexivity|].
  cbn [selectedModel models isInitialized isModelLoaded isDownloading activeTab world
       isLoading].
  repeat split.
Qed.

Lemma marked_model_loads (sdk : Sdk) (b : App) (m : ModelInfo) (path : string) :
  selectedModel b = Some m ->
  localPath m = Some path -> path <> EmptyString ->
  isDownloaded m = Some true ->
  isInitialized b = true -> isModelLoaded b = false ->
  let b2 := snd (handleLoadModel sdk b) in
  modelAction b = OfferLoad (isLoading (world b))
  /\ new_calls b b2 = load_calls (activeTab b) (model_id m) path
  /\ (load_outcome sdk (activeTab b) (model_id m) path = Ret tt ->
      modelAction b2 = ShowReady /\ error (world b2) = None).
Proof.
  intros Hs Hp Hne Hdl Hi Hl.
  assert (Hf : falsy (Some path) = false).
  { cbn [falsy]. destruct (String.eqb_spec path EmptyString); [contradiction|reflexivity]. }
  cbv zeta. split.
  { unfold modelAction. rewrite Hi, Hs, Hdl, Hl. reflexivity. }
  unfold load_calls, load_outcome, modelAction, handleLoadModel, truthy_string. app_step.
  rewrite Hs. app_step. rewrite Hp, Hf. cbn [negb or_empty]. app_step.
  rewrite Hf. cbn [or_empty]. app_step.
  destruct (activeTab b); app_step;
    try (destruct (String.eqb (model_id m) "system-tts"); cbn [negb]; app_step);
    try match goal with
        | |- context [loadTextModel sdk ?p] => destruct (loadTextModel sdk p) as [[]|]
        end;
    try match goal with
        | |- context [loadSTTModel sdk ?p] => destruct (loadSTTModel sdk p) as [[]|]
        end;
    try match goal with
        | |- context [loadTTSModel sdk ?p] => destruct (loadTTSModel sdk p) as [[]|]
        end;
    app_step;
    (split; [settle_new_calls|]);
    intros Hok; try discriminate Hok;
    cbn [isInitialized selectedModel isModelLoaded world error];
    rewrite ?Hi, ?Hs, ?Hdl; cbn [truthy_bool negb andb]; split; reflexivity.
Qed.

Lemma load_asks_for_missing_path (sdk : Sdk) (b : App) (m : ModelInfo) :
  selectedModel b = Some m ->
  falsy (localPath m) = true ->
  exists rest,
    new_calls b (snd (handleLoadModel sdk b)) = Sdk_getModelPath (model_id m) :: rest.
Proof.
  intros Hs Hp. unfold handleLoadModel, truthy_string. app_step. rewrite Hs. app_step.
  rewrite Hp. cbn [negb]. app_step.
  case_outcomes; app_step; eexists; rewrite <- ?app_assoc; apply new_calls_app; reflexivity.
Qed.

(** X22. Download, effect, load.  After a download that returned a
    non-empty path and a refreshed list, the effect on the list runs
    before the next press.  If the refreshed list has no entry with the
    selected id, or its entry carries the downloaded path, the selection
    stays marked as downloaded: the load button is offered, and pressing
    it loads the downloaded path with the load function of the tab without
    asking the SDK for a path; when that call returns the model is shown
    as ready.  If the entry carries another path or none, the effect
    replaces the selection by the entry, and the downloaded path is lost:
    the button offered is the one the entry calls for (download again when
    the entry is not marked as downloaded), and a load of an entry without
    a path starts by asking the SDK for one. *)
Theorem download_then_load (sdk : Sdk) (a : App) (selected : ModelInfo)
        (downloadedPath : string) (allModels : list SdkModel) :
  selectedModel a = Some selected ->
  isInitialized a = true ->
  isModelLoaded a = false ->
  snd (downloadModel sdk (model_id selected)) = Ret downloadedPath ->
  downloadedPath <> EmptyString ->
  getAvailableModels sdk = Ret allModels ->
  let a1 := syncSelectedModel (snd (handleDownloadModel sdk a)) in
  let a2 := snd (handleLoadModel sdk a1) in
  let kept :=
    modelAction a1 = OfferLoad (isLoading (world a))
    /\ new_calls a1 a2 = load_calls (activeTab a) (model_id selected) downloadedPath
    /\ (load_outcome sdk (activeTab a) (model_id selected) downloadedPath = Ret tt ->
        modelAction a2 = ShowReady /\ error (world a2) = None) in
  match List.find (has_id (model_id selected)) (map format_model allModels) with
  | Some listed =>
      if option_string_eqb (localPath listed) (Some downloadedPath) then kept
      else
        selectedModel a1 = Some listed
        /\ modelAction a1
           = (if negb (truthy_bool (isDownloaded listed))
                 && negb (String.eqb (model_id selected) "system-tts")
              then OfferDownload false
              else OfferLoad (isLoading (world a)))
        /\ (falsy (localPath listed) = true ->
            exists rest, new_calls a1 a2 = Sdk_getModelPath (model_id selected) :: rest)
  | None => kept
  end.
Proof.
  intros Hs Hi Hl Hd Hne Hm.
  destruct (handleDownloadModel_success sdk a selected downloadedPath allModels Hs Hd Hm)
    as (a' & -> & Hsel & Hmodels & Hinit & Hloaded & Hdown & Htab & Hload).
  cbn [mark_downloaded] in Hsel.
  set (marked := {| model_id := model_id selected; model_name := model_name selected;
                    category := category selected; framework := framework selected;
                    isDownloaded := Some true; localPath := Some downloadedPath;
                    downloadSize := downloadSize selected;
                    downloadURL := downloadURL selected |}) in *.
  assert (Hkept : let a2 := snd (handleLoadModel sdk a') in
            modelAction a' = OfferLoad (isLoading (world a))
            /\ new_calls a' a2 = load_calls (activeTab a) (model_id selected) downloadedPath
            /\ (load_outcome sdk (activeTab a) (model_id selected) downloadedPath = Ret tt ->
                modelAction a2 = ShowReady /\ error (world a2) = None)).
  { rewrite <- Htab, <- Hload.
    apply (marked_model_loads sdk a' marked downloadedPath Hsel eq_refl Hne eq_refl).
    - rewrite Hinit. exact Hi.
    - rewrite Hloaded. exact Hl. }
  assert (Hsync : syncSelectedModel a'
                  = match List.find (has_id (model_id selected))
                            (map format_model allModels) with
                    | Some listed =>
                        if option_string_eqb (localPath listed) (Some downloadedPath)
                        then a' else with_selectedModel (Some listed) a'
                    | None => a'
                    end).
  { unfold syncSelectedModel. rewrite Hsel, Hmodels.
    change (model_id marked) with (model_id selected).
    change (localPath marked) with (Some downloadedPath).
    destruct (List.find (has_id (model_id selected)) (map format_model allModels))
      as [listed|] eqn:Hfind.
    - destruct (map format_model allModels); [discriminate Hfind|].
      cbn [length Nat.ltb Nat.leb].
      destruct (option_string_eqb (localPath listed) (Some downloadedPath)); reflexivity.
    - destruct (0 <? length (map format_model allModels))%nat; reflexivity. }
  cbv zeta. rewrite Hsync.
  destruct (List.find (has_id (model_id selected)) (map format_model allModels))
    as [listed|] eqn:Hfind; [|exact Hkept].
  pose proof (find_some _ _ Hfind) as [_ Hid]. apply has_id_true in Hid.
  destruct (option_string_eqb (localPath listed) (Some downloadedPath)); [exact Hkept|].
  split; [reflexivity|]. split.
  - unfold modelAction. cbn [isInitialized with_selectedModel selectedModel
                               isDownloading isModelLoaded world].
    rewrite Hinit, Hi, Hid, Hdown, Hloaded, Hl, Hload. reflexivity.
  - intros Hp. rewrite <- Hid.
    apply load_asks_for_missing_path; [reflexivity | exact Hp].
Qed.

Lemma download_then_load_witness :
  (let a1 := syncSelectedModel
               (snd (handleDownloadModel demo_sdk_refreshed (demo_selected llm "smollm2"))) in
   let a2 := snd (handleLoadModel demo_sdk_refreshed a1) in
   modelAction a1 = OfferLoad false
   /\ new_calls a1 a2 = [Sdk_loadTextModel "/models/smollm2"]
   /\ modelAction a2 = ShowReady /\ error (world a2) = None)
  /\ (let a1 := syncSelectedModel (demo_downloaded llm "smollm2") in
      let a2 := snd (handleLoadModel demo_sdk a1) in
      modelAction a1 = OfferDownload false
      /\ exists rest, new_calls a1 a2 = Sdk_getModelPath "smollm2" :: rest).
Proof.
  split.
  - destruct (download_then_load demo_sdk_refreshed (demo_selected llm "smollm2") _
                "/models/smollm2" demo_models_refreshed
                eq_refl eq_refl eq_refl eq_refl ltac:(discriminate) eq_refl)
      as (H1 & H2 & H3).
    split; [exact H1|]. split; [exact H2 | exact (H3 eq_refl)].
  - destruct (download_then_load demo_sdk (demo_selected llm "smollm2") _
                "/models/smollm2" demo_models
                eq_refl eq_refl eq_refl eq_refl ltac:(discriminate) eq_refl)
      as (_ & H2 & H3).
    split; [exact H2 | exact (H3 eq_refl)].
Defined.

(** X23. [initializeSDK] never throws and never touches the selection.
    Without the SDK it reports that a development build is required and
    calls nothing.  When the initialization throws, its message is
    reported and the model list is not asked for.  When it returns, the
    screen is marked as initialized and the list is asked for; a failure
    of that request is not reported: the error cell and the list stay as
    they were. *)
Theorem initializeSDK_outcomes (sdk : Sdk) (a : App) :
  exists a',
    initializeSDK sdk a = (Ret tt, a')
    /\ selectedModel a' = selectedModel a
    /\ if sdkAvailable sdk then
         match RunAnywhere_initialize sdk with
         | Ret _ =>
             isInitialized a' = true
             /\ error (world a') = error (world a)
             /\ models a' = listed_models sdk (models a)
             /\ new_calls a a' = [Sdk_initialize; Sdk_getAvailableModels]
         | Throw message =>
             isInitialized a' = isInitialized a
             /\ error (world a') = Some ("Initialization failed: " +:+ message)
             /\ models a' = models a
             /\ new_calls a a' = [Sdk_initialize]
         end
       else
         isInitialized a' = isInitialized a
         /\ error (world a')
            = Some "Development build required. Install the APK from EAS Build."
         /\ models a' = models a
         /\ new_calls a a' = [].
Proof.
  unfold initializeSDK, loadModels, listed_models.
  destruct (sdkAvailable sdk); cbn [negb]; app_step.
  - destruct (RunAnywhere_initialize sdk) as [[]|message]; app_step.
    + destruct (getAvailableModels sdk) as [allModels|message]; app_step;
        (eexists; split; [reflexivity|]; split; [reflexivity|];
         cbn [isInitialized world error models];
         repeat split; rewrite <- app_assoc; settle_new_calls).
    + eexists. split; [reflexivity|]. split; [reflexivity|].
      cbn [isInitialized world error models]. repeat split. settle_new_calls.
  - eexists. split; [reflexivity|]. split; [reflexivity|].
    cbn [isInitialized world error models]. repeat split. settle_new_calls.
Qed.

(** X24. [handleGenerate] never throws.  With a prompt that is blank after
    trimming it changes nothing and calls nothing.  Otherwise it makes one
    generate call with the prompt as typed (not trimmed) and ends with the
    generating flag off: the response is the result's text, or the JSON of
    the result when the text is empty; after a failure "Generation
    failed: " and the message are reported and the response is left
    empty. *)
Theorem handleGenerate_outcomes (sdk : Sdk) (a : App) :
  exists a',
    handleGenerate sdk a = (Ret tt, a')
    /\ if blank sdk (prompt a) then a' = a
       else
         isGenerating a' = false
         /\ new_calls a a' = [Sdk_generate (prompt a)]
         /\ match generate sdk (prompt a) with
            | Ret result =>
                error (world a') = None
                /\ response a'
                   = (if String.eqb (gen_text result) EmptyString
                      then JSON_stringify sdk result else gen_text result)
            | Throw message =>
                error (world a') = Some ("Generation failed: " +:+ message)
                /\ response a' = EmptyString
            end.
Proof.
  unfold handleGenerate. app_step. destruct (blank sdk (prompt a)); app_step.
  - eexists. split; reflexivity.
  - destruct (generate sdk (prompt a)) as [result|message]; app_step;
      (eexists; split; [reflexivity|]; cbn [isGenerating world error response];
       split; [reflexivity|]; split; [settle_new_calls|]; split; reflexivity).
Qed.

(** X25. Pressing a tab makes it the active one and clears the selection,
    the loaded flag and the error; no model button is shown then, and the
    download and load handlers do nothing until a model is selected
    again. *)
Theorem pressTab_clears_selection (sdk : Sdk) (tab : TabType) (a : App) :
  let a' := pressTab tab a in
  activeTab a' = tab
  /\ modelAction a' = NoAction
  /\ error (world a') = None
  /\ isModelLoaded a' = false
  /\ handleDownloadModel sdk a' = (Ret tt, a')
  /\ handleLoadModel sdk a' = (Ret tt, a').
Proof.
  unfold pressTab, modelAction, handleDownloadModel, handleLoadModel. app_step.
  cbn [activeTab isInitialized selectedModel world error isModelLoaded].
  repeat split. destruct (isInitialized a); reflexivity.
Qed.

Lemma shr_1_nonneg (mrs : shr_record) : 0 <= shr_m mrs -> 0 <= shr_m (shr_1 mrs).
Proof.
  destruct mrs as [m r s]. cbn [shr_m]. intros H. unfold shr_1.
  destruct m as [|[p|p|]|p]; cbn [shr_m]; lia.
Qed.

Lemma iter_shr_1_nonneg (n : positive) (mrs : shr_record) :
  0 <= shr_m mrs -> 0 <= shr_m (SpecFloat.iter_pos shr_1 n mrs).
Proof.
  revert mrs. induction n as [n IH|n IH|]; intros mrs H; cbn [SpecFloat.iter_pos].
  - apply IH, IH, shr_1_nonneg, H.
  - apply IH, IH, H.
  - apply shr_1_nonneg, H.
Qed.

Lemma shr_nonneg (mrs : shr_record) (e n : Z) :
  0 <= shr_m mrs -> 0 <= shr_m (fst (shr mrs e n)).
Proof.
  intros H. unfold shr. destruct n; cbn [fst]; [exact H | | exact H].
  apply iter_shr_1_nonneg, H.
Qed.

Lemma shr_fexp_nonneg (prec emax m e : Z) (l : location) :
  0 <= m -> 0 <= shr_m (fst (shr_fexp prec emax m e l)).
Proof.
  intros H. unfold shr_fexp. apply shr_nonneg.
  unfold shr_record_of_loc. destruct l as [|[]]; cbn [shr_m]; exact H.
Qed.

Lemma binary_round_aux_not_nan (prec emax : Z) (sx : bool) (mx ex : Z) (lx : location) :
  0 <= mx -> binary_round_aux prec emax sx mx ex lx <> S754_nan.
Proof.
  intros H. unfold binary_round_aux.
  pose proof (shr_fexp_nonneg prec emax mx ex lx H) as H1.
  destruct (shr_fexp prec emax mx ex lx) as [mrs' e']. cbn [fst] in H1.
  assert (H2 : 0 <= round_nearest_even (shr_m mrs') (loc_of_shr_record mrs')).
  { unfold round_nearest_even. destruct (loc_of_shr_record mrs') as [|[]];
      try destruct (Z.even (shr_m mrs')); lia. }
  pose proof (shr_fexp_nonneg prec emax _ e' loc_Exact H2) as H3.
  destruct (shr_fexp prec emax _ e' loc_Exact) as [mrs'' e'']. cbn [fst] in H3.
  destruct (shr_m mrs'') as [|m|m]; [discriminate | | lia].
  destruct (e'' <=? emax - prec); discriminate.
Qed.

Lemma binary_round_not_nan (prec emax : Z) (sx : bool) (mx : positive) (ex : Z) :
  binary_round prec emax sx mx ex <> S754_nan.
Proof.
  unfold binary_round. destruct (shl_align mx ex _) as [mz ez].
  apply binary_round_aux_not_nan. lia.
Qed.

Lemma Z2SF_not_nan (z : Z) : Z2SF z <> S754_nan.
Proof.
  unfold Z2SF, binary_normalize. destruct z; [discriminate | |];
    apply binary_round_not_nan.
Qed.

Lemma Math_round_not_nan (x : spec_float) : x <> S754_nan -> Math_round x <> S754_nan.
Proof.
  intros H. unfold Math_round. destruct x as [s|s| |s m e]; try exact H.
  destruct (0 <=? e); [discriminate|]. cbv zeta.
  destruct (_ =? 0); [discriminate | apply Z2SF_not_nan].
Qed.

Lemma mul64_100_not_nan (p : spec_float) : p <> S754_nan -> mul64 p f_100 <> S754_nan.
Proof.
  intros H. unfold mul64, f_100, SFmul. destruct p as [s|s| |s m e]; try discriminate.
  - contradiction.
  - apply binary_round_aux_not_nan. lia.
Qed.

(** X26. The percentage the progress callback stores is never NaN,
    whatever the download reports: a number, NaN or no number at all. *)
Theorem progress_percent_is_a_number (progress : option spec_float) :
  progress_percent progress <> S754_nan.
Proof.
  unfold progress_percent. destruct progress as [p|]; [|discriminate].
  destruct p as [s|s| |s m e] eqn:E; try discriminate;
    apply Math_round_not_nan, mul64_100_not_nan; discriminate.
Qed.

(** * Speech synthesis *)

Lemma append_cons_nonempty (s : string) (c : ascii) (t : string) :
  String.eqb (s +:+ String c t) EmptyString = false.
Proof. destruct s; reflexivity. Qed.

Lemma tts_path_truthy (fs : FileSystemModule) (now : Z) :
  falsy (Some (tts_path fs now)) = false.
Proof.
  unfold tts_path. cbn [falsy].
  change ("tts_" +:+ pretty now +:+ ".wav")
    with (String "t" ("ts_" +:+ pretty now +:+ ".wav")).
  apply append_cons_nonempty.
Qed.

Lemma in_world_createWavFile (env : Env) (data : string) (rate : Z) (a : App) :
  in_world (createWavFile env data rate) a =
  match FileSystem env with
  | None => (Ret None, a)
  | Some fs =>
      match wav_payload (atob env) data rate with
      | Throw _ => (Ret None, a)
      | Ret wavBytes =>
          let wavBase64 := btoa env (binary_string_by_chunks chunkSize wavBytes) in
          let filePath := tts_path fs (Date_now env) in
          (Ret (match writeAsStringAsync fs filePath wavBase64 with
                | Ret _ => Some filePath
                | Throw _ => None
                end),
           add_call (World_effect (Fs_write filePath wavBase64))
             (with_world (add_effect (Fs_write filePath wavBase64) (world a)) a))
      end
  end.
Proof.
  unfold in_world. rewrite createWavFile_run.
  destruct (FileSystem env) as [fs|].
  - destruct (wav_payload (atob env) data rate) as [wavBytes|m].
    + cbv beta iota zeta. erewrite new_effects_app by reflexivity. reflexivity.
    + cbv beta iota zeta. rewrite new_effects_same by reflexivity.
      destruct a as [[]]; unfold add_calls, with_world; cbn; rewrite app_nil_r; reflexivity.
  - cbv beta iota zeta. rewrite new_effects_same by reflexivity.
    destruct a as [[]]; unfold add_calls, with_world; cbn; rewrite app_nil_r; reflexivity.
Qed.

(** X27. The two guards of [handleSpeak]: with a text that is blank after
    trimming, or with a model other than system-tts that is not loaded,
    nothing is called and nothing changes but the error cell, which holds
    the matching message; the text is checked first. *)
Theorem handleSpeak_guards (env : Env) (sdk : Sdk) (a : App) :
  blank sdk (ttsText a) = true
  \/ (is_system_tts (selectedModel a) = false /\ isModelLoaded a = false) ->
  exists a' message,
    handleSpeak env sdk a = (Ret tt, a')
    /\ a' = set_error (Some message) a
    /\ new_calls a a' = []
    /\ message = (if blank sdk (ttsText a) then "Please enter text to speak"
                  else "Please load a TTS model first").
Proof.
  intros H. unfold handleSpeak. app_step.
  destruct (blank sdk (ttsText a)) eqn:Hb.
  - app_step. eexists _, _. split; [reflexivity|]. split; [reflexivity|].
    split; [settle_new_calls | reflexivity].
  - destruct H as [H|[Hsys Hl]]; [discriminate H|]. rewrite Hsys. app_step.
    replace (negb (isModelLoaded a)) with true by (rewrite Hl; reflexivity). app_step.
    eexists _, _. split; [reflexivity|]. split; [reflexivity|].
    split; [settle_new_calls | reflexivity].
Qed.

Lemma handleSpeak_guards_witness :
  exists a' message,
    handleSpeak android_env demo_sdk (demo_selected tts "piper-en") = (Ret tt, a')
    /\ a' = set_error (Some message) (demo_selected tts "piper-en")
    /\ new_calls (demo_selected tts "piper-en") a' = []
    /\ message = "Please load a TTS model first".
Proof.
  exact (handleSpeak_guards android_env demo_sdk (demo_selected tts "piper-en")
           (or_intror (conj eq_refl eq_refl))).
Defined.

(** X28. With system-tts selected and the speech module present, the
    button toggles: when nothing is spoken it starts speaking the text as
    typed, otherwise it stops the speech; the speaking flag is inverted,
    the loaded flag is not consulted, neither the error cell nor the
    response changes, and a second press restores the flag. *)
Theorem handleSpeak_system_toggle (env : Env) (sdk : Sdk) (a : App) :
  blank sdk (ttsText a) = false ->
  is_system_tts (selectedModel a) = true ->
  audioModulesAvailable env = true ->
  exists a',
    handleSpeak env sdk a = (Ret tt, a')
    /\ isSpeaking a' = negb (isSpeaking a)
    /\ new_calls a a'
       = (if isSpeaking a then [Speech_stop] else [Speech_speak (ttsText a)])
    /\ world a' = world a
    /\ response a' = response a
    /\ (exists a'', handleSpeak env sdk a' = (Ret tt, a'')
          /\ isSpeaking a'' = isSpeaking a).
Proof.
  intros Hb Hsys Hav. unfold handleSpeak. app_step. rewrite Hb, Hsys, Hav. cbn [negb].
  app_step. cbn [ttsText selectedModel]. rewrite ?Hb, ?Hsys.
  destruct (isSpeaking a) eqn:Hsp; app_step;
    (eexists; split; [reflexivity|]; cbn [isSpeaking world response negb];
     split; [reflexivity|]; split; [settle_new_calls|]; split; [reflexivity|];
     split; [reflexivity|]; cbn [ttsText selectedModel]; rewrite Hb; app_step;
     cbn [selectedModel]; rewrite Hsys, ?Hav; cbn [negb]; app_step;
     eexists; split; reflexivity).
Qed.

Lemma handleSpeak_system_toggle_witness :
  exists a',
    handleSpeak android_env demo_sdk (demo_selected tts "system-tts") = (Ret tt, a')
    /\ isSpeaking a' = true
    /\ new_calls (demo_selected tts "system-tts") a'
       = [Speech_speak "Hello! I am RunAnywhere, your on-device AI assistant."].
Proof.
  destruct (handleSpeak_system_toggle android_env demo_sdk
              (demo_selected tts "system-tts") eq_refl eq_refl eq_refl)
    as (a' & H1 & H2 & H3 & _).
  exists a'. split; [exact H1|]. split; [exact H2 | exact H3].
Defined.

(** X29. Neural synthesis never throws and always ends with the loading
    indicator off.  Its first call is the synthesis of the text as typed.
    The speaking flag is left on exactly when the playback status callback
    was registered, the one thing that turns it off later; in every other
    outcome it is off when the handler returns.  A failed synthesis is
    reported as "Synthesis failed: " and the message, with no further
    call. *)
Theorem handleSpeak_neural_settles (env : Env) (sdk : Sdk) (a : App) :
  blank sdk (ttsText a) = false ->
  is_system_tts (selectedModel a) = false ->
  isModelLoaded a = true ->
  exists a' rest,
    handleSpeak env sdk a = (Ret tt, a')
    /\ isLoading (world a') = false
    /\ new_calls a a' = Sdk_synthesize (ttsText a) :: rest
    /\ isSpeaking a' = existsb is_status_registration rest
    /\ match synthesize sdk (ttsText a) with
       | Ret _ => error (world a') = None
       | Throw message =>
           error (world a') = Some ("Synthesis failed: " +:+ message) /\ rest = []
       end.
Proof.
  intros Hb Hsys Hl. unfold handleSpeak. app_calm. rewrite Hb, Hsys. app_calm.
  replace (negb (isModelLoaded a)) with false by (rewrite Hl; reflexivity). app_calm.
  destruct (synthesize sdk (ttsText a)) as [result|message]; app_calm.
  2:{ eexists _, _. split; [reflexivity|]. cbn [world isLoading isSpeaking error].
      split; [reflexivity|]. split; [apply new_calls_app; reflexivity|].
      split; [reflexivity|]. split; reflexivity. }
  destruct (playable_audio env result) as [[r data]|]; app_calm.
  2:{ eexists _, _. split; [reflexivity|]. cbn [world isLoading isSpeaking error].
      split; [reflexivity|]. split; [apply new_calls_app; reflexivity|].
      split; reflexivity. }
  match goal with
  | |- context [in_world ?m ?x] => rewrite (in_world_createWavFile env data _ x)
  end.
  cbn [world]. unfold truthy_string.
  destruct (FileSystem env) as [fs|]; app_calm.
  2:{ eexists _, _. split; [reflexivity|]. cbn [world isLoading isSpeaking error].
      split; [reflexivity|]. split; [apply new_calls_app; reflexivity|].
      split; reflexivity. }
  destruct (wav_payload (atob env) data (synthesis_rate r)) as [wavBytes|m]; app_calm.
  2:{ eexists _, _. split; [reflexivity|]. cbn [world isLoading isSpeaking error].
      split; [reflexivity|]. split; [apply new_calls_app; reflexivity|].
      split; reflexivity. }
  cbv zeta.
  destruct (writeAsStringAsync fs _ _) as [[]|m]; cbn [falsy negb]; app_calm.
  2:{ eexists _, _. split; [reflexivity|]. cbn [world isLoading isSpeaking error].
      split; [reflexivity|].
      split; [rewrite <- !app_assoc; apply new_calls_app; reflexivity|].
      split; reflexivity. }
  change (String.eqb (tts_path fs (Date_now env)) EmptyString)
    with (falsy (Some (tts_path fs (Date_now env)))).
  rewrite tts_path_truthy. cbn [negb or_empty]. app_calm.
  destruct (soundRef a) as [previous|]; app_calm;
    [destruct (unloadAsync previous) as [[]|m]; app_calm|];
    try (destruct (Sound_createAsync sdk (tts_path fs (Date_now env))) as [sound|m];
         app_calm; [destruct (playAsync sound) as [[]|m]; app_calm|]);
    (eexists _, _; split; [reflexivity|]; cbn [world isLoading isSpeaking error];
     split; [reflexivity|];
     split; [rewrite <- !app_assoc; apply new_calls_app; reflexivity|];
     split; reflexivity).
Qed.

Lemma handleSpeak_neural_settles_witness :
  exists a' rest,
    handleSpeak android_env demo_sdk (demo_loaded tts "piper-en") = (Ret tt, a')
    /\ isLoading (world a') = false
    /\ new_calls (demo_loaded tts "piper-en") a'
       = Sdk_synthesize "Hello! I am RunAnywhere, your on-device AI assistant." :: rest
    /\ isSpeaking a' = existsb is_status_registration rest.
Proof.
  destruct (handleSpeak_neural_settles android_env demo_sdk (demo_loaded tts "piper-en")
              eq_refl eq_refl eq_refl) as (a' & rest & H1 & H2 & H3 & H4 & _).
  exists a', rest. split; [exact H1|]. split; [exact H2|]. split; [exact H3 | exact H4].
Defined.

(** X30. What is played is what was written.  When neural synthesis leaves
    the speaking flag on, the synthesis returned audio, its WAV bytes at
    the result's sample rate (22050 without one) were written to the file
    named after the cache directory and the clock, and the sound created,
    kept and played is the one of that very file, after the sound kept
    before was unloaded; the status callback then turns the flag off. *)
Theorem handleSpeak_plays_written_file (env : Env) (sdk : Sdk) (a : App) :
  blank sdk (ttsText a) = false ->
  is_system_tts (selectedModel a) = false ->
  isModelLoaded a = true ->
  let a' := snd (handleSpeak env sdk a) in
  isSpeaking a' = true ->
  exists result data fs wavBytes sound,
    synthesize sdk (ttsText a) = Ret (Some result)
    /\ audio result = Some data
    /\ FileSystem env = Some fs
    /\ wav_payload (atob env) data (synthesis_rate result) = Ret wavBytes
    /\ let path := tts_path fs (Date_now env) in
       let d := synthesis_duration result in
       new_calls a a'
       = [Sdk_synthesize (ttsText a);
          World_effect (Fs_write path (btoa env (binary_string_by_chunks chunkSize wavBytes)))]
         ++ playback_calls (soundRef a) path d
       /\ Sound_createAsync sdk path = Ret sound
       /\ playAsync sound = Ret tt
       /\ soundRef a' = Some sound
       /\ response a' = msg_playing sdk d
       /\ isSpeaking (onPlaybackStatusUpdate sdk d true a') = false.
Proof.
  intros Hb Hsys Hl. unfold handleSpeak, playback_calls. app_calm. rewrite Hb, Hsys. app_calm.
  replace (negb (isModelLoaded a)) with false by (rewrite Hl; reflexivity). app_calm.
  destruct (synthesize sdk (ttsText a)) as [result|message]; app_calm;
    [|intros H; discriminate H].
  destruct (playable_audio env result) as [[r data]|] eqn:Hplay; app_calm;
    [|intros H; discriminate H].
  assert (Hr : result = Some r /\ audio r = Some data).
  { unfold playable_audio in Hplay. destruct result as [r0|]; [|discriminate Hplay].
    destruct (audio r0) as [d0|] eqn:Ha; [|discriminate Hplay].
    destruct (negb (String.eqb d0 EmptyString) && audioModulesAvailable env);
      [|discriminate Hplay].
    injection Hplay as -> ->. split; [reflexivity | exact Ha]. }
  destruct Hr as [-> Haudio].
  match goal with
  | |- context [in_world ?m ?x] => rewrite (in_world_createWavFile env data _ x)
  end.
  cbn [world]. unfold truthy_string.
  destruct (FileSystem env) as [fs|] eqn:Hfs; app_calm; [|intros H; discriminate H].
  destruct (wav_payload (atob env) data (synthesis_rate r)) as [wavBytes|m] eqn:Hpay;
    app_calm; [|intros H; discriminate H].
  cbv zeta.
  destruct (writeAsStringAsync fs _ _) as [[]|m]; cbn [falsy negb]; app_calm;
    [|intros H; discriminate H].
  change (String.eqb (tts_path fs (Date_now env)) EmptyString)
    with (falsy (Some (tts_path fs (Date_now env)))).
  rewrite tts_path_truthy. cbn [negb or_empty]. app_calm.
  destruct (soundRef a) as [previous|]; app_calm;
    [destruct (unloadAsync previous) as [[]|m]; app_calm; [|intros H; discriminate H]|];
    (destruct (Sound_createAsync sdk (tts_path fs (Date_now env))) as [sound|m] eqn:Hc;
       app_calm; [|intros H; discriminate H];
     destruct (playAsync sound) as [[]|m] eqn:Hp; app_calm; [|intros H; discriminate H];
     intros _; exists r, data, fs, wavBytes, sound;
     split; [reflexivity|]; split; [exact Haudio|]; split; [reflexivity|];
     split; [exact Hpay|]; cbv zeta;
     split; [rewrite <- !app_assoc; apply new_calls_app; reflexivity|];
     split; [exact Hc|]; split; [exact Hp|]; repeat split).
Qed.

Lemma handleSpeak_plays_written_file_witness :
  exists wavBytes,
    new_calls (demo_loaded tts "piper-en")
      (snd (handleSpeak android_env demo_sdk (demo_loaded tts "piper-en")))
    = [Sdk_synthesize "Hello! I am RunAnywhere, your on-device AI assistant.";
       World_effect (Fs_write (tts_path cache_fs 1700000000000)
                       (btoa_base64 (binary_string_by_chunks chunkSize wavBytes)));
       Sound_create (tts_path cache_fs 1700000000000); Sound_play;
       Sound_setOnPlaybackStatusUpdate (div64 (Z2SF 3) (Z2SF 22050))]
    /\ int16s_of_bytes_le (drop 44 wavBytes) = [32767; -32768; 16383].
Proof.
  destruct (handleSpeak_plays_written_file android_env demo_sdk (demo_loaded tts "piper-en")
              eq_refl eq_refl eq_refl ltac:(vm_compute; reflexivity))
    as (result & data & fs & wavBytes & sound & Hs & Ha & Hfs & Hpay & Hcalls & _).
  injection Hs as <-. injection Ha as <-. injection Hfs as <-.
  exists wavBytes. split; [exact Hcalls|].
  vm_compute in Hpay. injection Hpay as <-. vm_compute. reflexivity.
Defined.
